(** * FinSight news download: a model of [alpaca_news_api.py]

    The repository holds two copies of one small program that pages through
    a news REST endpoint and stores the articles in a JSON file:

    - [modules/feature_pipeline/src/alpaca_news_api.py], modelled in
      [Module FeaturePipeline];
    - [src/alpaca_news_api.py], modelled in [Module SrcCopy];

    and the script [scripts/download_news_from_alpaca.py] that calls the
    first one.

    Python objects are modelled by the type [pyval], exceptions by [exn],
    and the effects of the program (HTTP exchanges, file writes) by a state
    and exception monad [M] over a [World]. The [while] loop of
    [download_historical_news] may run forever, so it is given fuel. *)

From Stdlib Require Import ZArith List Lia Bool Ascii String.
From Stdlib Require Import Decimal DecimalString DecimalFacts DecimalPos DecimalN DecimalZ DecimalNat.
From stdpp Require Import base option list strings gmap.

Open Scope string_scope.
Open Scope Z_scope.
Open Scope list_scope.

(** ** Characters that cannot be typed inside a string literal *)

Definition dquote : ascii := "034"%char.
Definition backslash : ascii := "092"%char.
Definition newline : ascii := "010"%char.

(** ** Python values *)

(** [datetime.datetime], without time zone (the script builds naive values:
    [datetime(2025, 4, 20)] and [datetime.now()]). *)
Record datetime := mk_datetime {
  year : Z; month : Z; day : Z;
  hour : Z; minute : Z; second : Z; microsecond : Z
}.

(** The range checks of the [datetime] constructor. The day is checked
    against 31 only: the length of the month plays no part below. *)
Definition valid_datetime (d : datetime) : Prop :=
  1 <= year d <= 9999 /\ 1 <= month d <= 12 /\ 1 <= day d <= 31 /\
  0 <= hour d <= 23 /\ 0 <= minute d <= 59 /\ 0 <= second d <= 59 /\
  0 <= microsecond d <= 999999.

(** The objects the program handles: what [response.json()] returns ([None],
    booleans, integers, strings, lists and dicts with string keys), and
    [datetime] values. A dict is a list of pairs in insertion order with
    distinct keys. Two kinds of JSON values are left out of the model:
    floats, and the strings that hold a character above U+00FF (a character
    of a string of the model is a code point from U+0000 to U+00FF). What is
    said below of the text of a file is said of the values of the model
    only. *)
Unset Elimination Schemes.
Inductive pyval :=
| PNone
| PBool (b : bool)
| PInt (z : Z)
| PStr (s : string)
| PList (l : list pyval)
| PDict (d : list (string * pyval))
| PDatetime (t : datetime).
Set Elimination Schemes.

(** Exceptions, with their message where the program builds it. *)
Inductive exn :=
| KeyError (msg : string)
| RuntimeError (msg : string)
| IndexError (msg : string)
| AttributeError (msg : string)
| TypeError (msg : string)
| ValueError (msg : string)
| JSONDecodeError
| RequestException (msg : string)
| OSError (msg : string).

(** A computation without effects that may raise. *)
Definition result (A : Type) := (exn + A)%type.
Definition ok {A} (a : A) : result A := inr a.
Definition throw {A} (e : exn) : result A := inl e.

Definition rbind {A B} (r : result A) (f : A -> result B) : result B :=
  match r with inl e => inl e | inr a => f a end.

Fixpoint rmap {A B} (f : A -> result B) (l : list A) : result (list B) :=
  match l with
  | [] => ok []
  | x :: l' => rbind (f x) (fun y => rbind (rmap f l') (fun ys => ok (y :: ys)))
  end.

(** [str(n)] and [repr(n)] of an [int]. *)
Definition str_int (z : Z) : string := NilZero.string_of_int (Z.to_int z).

(** [repr(s)] of a string that holds no quote and no backslash (a key). *)
Definition quoted (s : string) : string := "'" +:+ s +:+ "'".

(** [type(v).__name__] *)
Definition type_name (v : pyval) : string :=
  match v with
  | PNone => "NoneType"
  | PBool _ => "bool"
  | PInt _ => "int"
  | PStr _ => "str"
  | PList _ => "list"
  | PDict _ => "dict"
  | PDatetime _ => "datetime.datetime"
  end.

(** Lookup in a dict: the first pair with the key (keys are distinct). *)
Fixpoint dict_lookup (k : string) (d : list (string * pyval)) : option pyval :=
  match d with
  | [] => None
  | (k', v) :: d' => if String.eqb k k' then Some v else dict_lookup k d'
  end.

(** [v[k]] for a string [k]. *)
Definition getitem (v : pyval) (k : string) : result pyval :=
  match v with
  | PDict d =>
      match dict_lookup k d with
      | Some x => ok x
      | None => throw (KeyError (quoted k))
      end
  | PList _ => throw (TypeError "list indices must be integers or slices, not str")
  | PStr _ => throw (TypeError "string indices must be integers, not 'str'")
  | _ => throw (TypeError ("'" +:+ type_name v +:+ "' object is not subscriptable"))
  end.

(** [v.get(k, None)] *)
Definition get_or_None (v : pyval) (k : string) : result pyval :=
  match v with
  | PDict d => ok (default PNone (dict_lookup k d))
  | _ => throw (AttributeError
                  ("'" +:+ type_name v +:+ "' object has no attribute 'get'"))
  end.

Fixpoint chars (s : string) : list pyval :=
  match s with
  | EmptyString => []
  | String c s' => PStr (String c EmptyString) :: chars s'
  end.

(** The elements that [for n in v] visits. *)
Definition iterate (v : pyval) : result (list pyval) :=
  match v with
  | PList l => ok l
  | PDict d => ok (map (fun kv => PStr (fst kv)) d)
  | PStr s => ok (chars s)
  | _ => throw (TypeError ("'" +:+ type_name v +:+ "' object is not iterable"))
  end.

(** ** [strftime] *)

(** [str(n).zfill(w)] for a field that is not negative. *)
Definition zfill (w : nat) (s : string) : string :=
  String.concat "" (replicate (w - String.length s)%nat "0") +:+ s.

Definition field (w : nat) (z : Z) : string := zfill w (str_int z).

(** [d.strftime("%Y-%m-%dT%H:%M:%SZ")]. [%Y] is the year padded to four
    digits, as the library documents it. *)
Definition strftime_iso_z (d : datetime) : string :=
  field 4 (year d) +:+ "-" +:+ field 2 (month d) +:+ "-" +:+ field 2 (day d)
  +:+ "T" +:+ field 2 (hour d) +:+ ":" +:+ field 2 (minute d) +:+ ":"
  +:+ field 2 (second d) +:+ "Z".

(** [d.strftime("%Y-%m-%d")] *)
Definition strftime_date (d : datetime) : string :=
  field 4 (year d) +:+ "-" +:+ field 2 (month d) +:+ "-" +:+ field 2 (day d).


(** ** [json.dump(obj, f, indent=4)] *)

(** The text written so far, and whether the encoder is still running: it
    stops with a [TypeError] at the first value it cannot serialise, and what
    it wrote before stays in the file. *)
Definition emitted := (string * bool)%type.

Definition emit (s : string) : emitted := (s, true).

Definition and_then (a b : emitted) : emitted :=
  if snd a then (fst a +:+ fst b, snd b) else a.

Infix ">+" := and_then (at level 61, left associativity).

Definition hex_digit (n : N) : ascii :=
  match n with
  | 0 => "0" | 1 => "1" | 2 => "2" | 3 => "3" | 4 => "4" | 5 => "5"
  | 6 => "6" | 7 => "7" | 8 => "8" | 9 => "9" | 10 => "a" | 11 => "b"
  | 12 => "c" | 13 => "d" | 14 => "e" | _ => "f"
  end%N%char.

(** One character of a string under [ensure_ascii=True]: the quote, the
    backslash and the control characters with a short form get it, the other
    characters outside [' '..'~'] become a four-digit [\u] escape. *)
Definition escape_char (c : ascii) : string :=
  let n := N_of_ascii c in
  let bs s := String backslash s in
  if (n =? 34)%N then bs (String dquote "")
  else if (n =? 92)%N then bs (String backslash "")
  else if (n =? 10)%N then bs "n"
  else if (n =? 13)%N then bs "r"
  else if (n =? 9)%N then bs "t"
  else if (n =? 12)%N then bs "f"
  else if (n =? 8)%N then bs "b"
  else if ((32 <=? n) && (n <=? 126))%N then String c ""
  else bs ("u00" +:+ String (hex_digit (n / 16)) (String (hex_digit (n mod 16)) "")).

Fixpoint escape (s : string) : string :=
  match s with
  | EmptyString => ""
  | String c s' => escape_char c +:+ escape s'
  end.

Definition encode_str (s : string) : string :=
  String dquote (escape s) +:+ String dquote "".

Fixpoint spaces (n : nat) : string :=
  match n with O => "" | S n' => String " " (spaces n') end.

(** [newline_indent] at nesting level [lvl], for [indent=4]. *)
Definition newline_indent (lvl : nat) : string :=
  String newline (spaces (4 * lvl)).

Section Items.
Context {A : Type}.
Variable enc : A -> emitted.
Variable separator : string.

(** The items after the first one, each behind the separator. *)
Fixpoint encode_more (l : list A) : emitted :=
  match l with
  | [] => emit ""
  | x :: l' => emit separator >+ enc x >+ encode_more l'
  end.

Definition encode_items (l : list A) : emitted :=
  match l with
  | [] => emit ""
  | x :: l' => enc x >+ encode_more l'
  end.
End Items.

(** [_iterencode] of the library, for [indent=4]: the item separator is a
    comma followed by the new line and its indentation, the key separator a
    colon and a space. *)
Fixpoint encode (lvl : nat) (v : pyval) {struct v} : emitted :=
  match v with
  | PNone => emit "null"
  | PBool true => emit "true"
  | PBool false => emit "false"
  | PInt z => emit (str_int z)
  | PStr s => emit (encode_str s)
  | PList [] => emit "[]"
  | PList l =>
      emit ("[" +:+ newline_indent (S lvl))
      >+ encode_items (encode (S lvl)) ("," +:+ newline_indent (S lvl)) l
      >+ emit (newline_indent lvl +:+ "]")
  | PDict [] => emit "{}"
  | PDict d =>
      emit ("{" +:+ newline_indent (S lvl))
      >+ encode_items
           (fun kv => emit (encode_str (fst kv) +:+ ": ") >+ encode (S lvl) (snd kv))
           ("," +:+ newline_indent (S lvl)) d
      >+ emit (newline_indent lvl +:+ "}")
  | PDatetime _ => ("", false)
  end.

(** ** The world: the news server and the file system *)

(** What [requests.get(url, headers=headers, params=params)] sends. *)
Record Request := mk_Request {
  url : string;
  headers : gmap string string;
  params : gmap string pyval
}.

(** What it returns: the fields and methods of the response the program
    reads. [json_body] is what [response.json()] returns, [None] when the
    body does not decode; [reason] and [final_url] are what
    [raise_for_status] puts in its message. *)
Record Response := mk_Response {
  status_code : Z;
  reason : string;
  final_url : string;
  text : string;
  json_body : option pyval
}.

(** A request is answered, or [requests.get] raises a [RequestException]
    (no route, time out, ...). *)
Inductive HttpResult :=
| Answered (r : Response)
| Failed (msg : string).

Definition Exchange := (Request * HttpResult)%type.

(** A [pathlib.Path], by its parts. *)
Definition Path := list string.

(** [p / name] for a relative [name] of one part. *)
Definition path_join (p : Path) (name : string) : Path := p ++ [name].

(** The server answers a request knowing the exchanges before it; the file
    system says which paths can be opened for writing. [exchanges] and
    [files] are the logs of what the program did: the requests it sent with
    their answers, and the files it opened with ["w"] with the text it left
    in them, both in order. *)
Record World := mk_World {
  server : list Exchange -> Request -> HttpResult;
  writable : Path -> bool;
  exchanges : list Exchange;
  files : list (Path * string)
}.

Definition log_exchange (x : Exchange) (w : World) : World :=
  mk_World (server w) (writable w) (exchanges w ++ [x]) (files w).

Definition log_file (f : Path * string) (w : World) : World :=
  mk_World (server w) (writable w) (exchanges w) (files w ++ [f]).

(** ** The monad of the program *)

Inductive Outcome (A : Type) :=
| Ret (a : A)
| Raise (e : exn)
| OutOfFuel.
Arguments Ret {A} a.
Arguments Raise {A} e.
Arguments OutOfFuel {A}.

Definition M (A : Type) := World -> Outcome A * World.

Definition ret {A} (a : A) : M A := fun w => (Ret a, w).
Definition raise {A} (e : exn) : M A := fun w => (Raise e, w).
Definition out_of_fuel {A} : M A := fun w => (OutOfFuel, w).

Definition bind {A B} (c : M A) (k : A -> M B) : M B :=
  fun w =>
    match c w with
    | (Ret a, w') => k a w'
    | (Raise e, w') => (Raise e, w')
    | (OutOfFuel, w') => (OutOfFuel, w')
    end.

Definition lift {A} (r : result A) : M A :=
  match r with inl e => raise e | inr a => ret a end.

(** [try: c except ...: h e], where [h] says [None] for an exception that
    the clause does not catch. *)
Definition try_except {A} (c : M A) (h : exn -> option (M A)) : M A :=
  fun w =>
    match c w with
    | (Raise e, w') =>
        match h e with Some k => k w' | None => (Raise e, w') end
    | other => other
    end.

Declare Scope prog_scope.
Delimit Scope prog_scope with prog.
Notation "x <- c ;; k" := (bind c (fun x => k))
  (at level 100, c at next level, right associativity) : prog_scope.
Notation "'let?' x := r 'in' k" := (rbind r (fun x => k))
  (at level 100, x name, r at next level, right associativity) : prog_scope.
Open Scope prog_scope.

(** [requests.get]: one exchange with the server. *)
Definition requests_get (u : string) (h : gmap string string)
    (p : gmap string pyval) : M Response :=
  fun w =>
    let req := mk_Request u h p in
    let res := server w (exchanges w) req in
    let w' := log_exchange (req, res) w in
    match res with
    | Answered r => (Ret r, w')
    | Failed msg => (Raise (RequestException msg), w')
    end.

(** [response.json()] *)
Definition response_json (r : Response) : result pyval :=
  match json_body r with
  | Some v => ok v
  | None => throw JSONDecodeError
  end.

(** [response.raise_for_status()]: an [HTTPError], which is a
    [RequestException], for the statuses 400 to 599. *)
Definition raise_for_status (r : Response) : result unit :=
  let msg kind :=
    str_int (status_code r) +:+ " " +:+ kind +:+ " Error: " +:+ reason r
    +:+ " for url: " +:+ final_url r in
  if (400 <=? status_code r) && (status_code r <? 500)
  then throw (RequestException (msg "Client"))
  else if (500 <=? status_code r) && (status_code r <? 600)
  then throw (RequestException (msg "Server"))
  else ok tt.

(** [with open(file_path, "w") as f: json.dump(data, f, indent=4)]. Opening
    creates the file; the encoder then writes piece by piece, so a value it
    cannot serialise leaves the text before it in the file. *)
Definition dump_to_file (file_path : Path) (data : pyval) : M unit :=
  fun w =>
    if writable w file_path then
      let '(txt, finished) := encode 0 data in
      let w' := log_file (file_path, txt) w in
      if finished then (Ret tt, w')
      else (Raise (TypeError "Object of type datetime is not JSON serializable"), w')
    else (Raise (OSError "cannot open the file for writing"), w).

(** [l[-1]] *)
Definition last_item {A} (l : list A) : result A :=
  match last l with
  | Some x => ok x
  | None => throw (IndexError "list index out of range")
  end.

Definition is_None (v : pyval) : bool :=
  match v with PNone => true | _ => false end.

(** ** The import of the module *)

(** [os.environ[k]] *)
Definition environ_get (environ : gmap string string) (k : string)
    : result string :=
  match environ !! k with
  | Some v => ok v
  | None => throw (KeyError (quoted k))
  end.

(** The two globals that the module sets when it is imported. *)
Record credentials := mk_credentials {
  ALPACA_API_KEY : string;
  ALPACA_SECRET_KEY : string
}.

(** Lines 11 to 15, the same in both files: the two lookups, and the
    [KeyError] of either replaced by one that names the variable ([{e}] is
    the key between quotes). *)
Definition import_alpaca_news_api (environ : gmap string string)
    : result credentials :=
  let body :=
    let? key := environ_get environ "ALPACA_API_KEY" in
    let? secret := environ_get environ "ALPACA_SECRET_KEY" in
    ok (mk_credentials key secret) in
  match body with
  | inl (KeyError e) =>
      throw (KeyError ("Environment variable " +:+ e
                       +:+ " not set. Please set it before running the script."))
  | other => other
  end.

(** ** [download_historical_news]

    The body of the function is the same text in both files. It is modelled
    once, over the three names that it looks up in its module:
    [fetch_batch_of_news], [save_news_to_json] and the attribute [date] of
    the class [News], and over [DATA_DIR], which [src/paths.py] defines and
    which is not among the sources. The calls of [print] write to the
    standard output only and are left out, but for the expression that line
    125 evaluates for its message. *)
Module Downloader.
Section Download.
Context {News : Type}.
Variable fetch_batch_of_news : datetime -> datetime -> pyval -> M (list News * pyval).
Variable save_news_to_json : list News -> Path -> M unit.
Variable News_date : News -> result pyval.
Variable DATA_DIR : Path.

(** The two variables of the loop: [list_of_news] and [next_page_token]. *)
Definition loop_state : Type := (list News * pyval)%type.

(** Lines 118 to 125: one pass through the body of the loop. *)
Definition loop_body (from_date to_date : datetime) (st : loop_state)
    : M loop_state :=
  let '(list_of_news, next_page_token) := st in
  fetched <- fetch_batch_of_news from_date to_date next_page_token ;;
  let '(batch_of_news, next_page_token) := fetched in
  let list_of_news := list_of_news ++ batch_of_news in
  _ <- lift (let? n := last_item batch_of_news in News_date n) ;;
  ret (list_of_news, next_page_token).

(** Lines 117 to 125: [while next_page_token is not None]. Each pass takes
    one unit of fuel. *)
Fixpoint while_loop (fuel : nat) (from_date to_date : datetime)
    (st : loop_state) : M loop_state :=
  if is_None (snd st) then ret st
  else
    match fuel with
    | O => out_of_fuel
    | S fuel' =>
        st' <- loop_body from_date to_date st ;;
        while_loop fuel' from_date to_date st'
    end.

Definition file_name (from_date to_date : datetime) : string :=
  "news_" +:+ strftime_date from_date +:+ "_" +:+ strftime_date to_date
  +:+ ".json".

Definition download_historical_news (fuel : nat) (from_date to_date : datetime)
    : M Path :=
  st <- fetch_batch_of_news from_date to_date PNone ;;
  st <- while_loop fuel from_date to_date st ;;
  let path_to_file := path_join DATA_DIR (file_name from_date to_date) in
  _ <- save_news_to_json (fst st) path_to_file ;;
  ret path_to_file.

(** The state of the loop after at most [n] passes: where the program is
    when it has fetched the first page and gone [n] times through the body,
    or fewer if the token ran out before. *)
Fixpoint passes (n : nat) (from_date to_date : datetime) (st : loop_state)
    : M loop_state :=
  match n with
  | O => ret st
  | S n' =>
      if is_None (snd st) then ret st
      else
        st' <- loop_body from_date to_date st ;;
        passes n' from_date to_date st'
  end.

Definition pagination (n : nat) (from_date to_date : datetime) : M loop_state :=
  st <- fetch_batch_of_news from_date to_date PNone ;;
  passes n from_date to_date st.

End Download.
End Downloader.

(** ** [modules/feature_pipeline/src/alpaca_news_api.py] *)
Module FeaturePipeline.

(** The dataclass [News]. The annotations are not checked when the program
    runs: a field holds whatever object the constructor is given. *)
Record News := mk_News {
  headline : pyval;
  summary : pyval;
  content : pyval;
  date : pyval
}.

(** [n.name], for the data attributes of the class. *)
Definition getattr (n : News) (name : string) : result pyval :=
  if String.eqb name "headline" then ok (headline n)
  else if String.eqb name "summary" then ok (summary n)
  else if String.eqb name "content" then ok (content n)
  else if String.eqb name "date" then ok (date n)
  else throw (AttributeError
                ("'News' object has no attribute '" +:+ name +:+ "'")).

Section Functions.
Variable creds : credentials.
Variable DATA_DIR : Path.

(** Lines 40 to 54: the request that a call prepares. *)
Definition request_for (from_date to_date : datetime) (page_token : pyval)
    : Request :=
  let headers : gmap string string :=
    {[ "Apca-Api-Key-Id" := ALPACA_API_KEY creds;
       "Apca-Api-Secret-Key" := ALPACA_SECRET_KEY creds ]} in
  let params : gmap string pyval :=
    {[ "start" := PStr (strftime_iso_z from_date);
       "end" := PStr (strftime_iso_z to_date);
       "limit" := PInt 50;
       "include_content" := PBool true;
       "sort" := PStr "ASC" ]} in
  let params :=
    if is_None page_token then params
    else <[ "page_token" := page_token ]> params in
  let url := "https://data.alpaca.markets/v1beta1/news" in
  mk_Request url headers params.

(** Lines 69 to 77: the record made of one element of the array. The
    keyword arguments are evaluated in the order they are written. *)
Definition news_of_item (n : pyval) : result News :=
  let? headline := getitem n "headline" in
  let? date := getitem n "updated_at" in
  let? summary := getitem n "summary" in
  let? content := getitem n "content" in
  ok (mk_News headline summary content date).

(** Lines 59 to 82: what the call makes of the response. *)
Definition parse_response (response : Response) : result (list News * pyval) :=
  if status_code response =? 200 then
    let? news_json := response_json response in
    let? next_page_token := get_or_None news_json "next_page_token" in
    let? news := getitem news_json "news" in
    let? items := iterate news in
    let? list_of_news := rmap news_of_item items in
    ok (list_of_news, next_page_token)
  else
    throw (RuntimeError ("Failed to fetch news: " +:+ str_int (status_code response)
                         +:+ " - " +:+ text response)).

Definition fetch_batch_of_news (from_date to_date : datetime)
    (page_token : pyval) : M (list News * pyval) :=
  let req := request_for from_date to_date page_token in
  response <- requests_get (url req) (headers req) (params req) ;;
  lift (parse_response response).

(** Lines 91 to 97: the dict made of one record. *)
Definition dict_of_news (news : News) : result pyval :=
  let? headline := getattr news "headline" in
  let? date := getattr news "date" in
  let? summary := getattr news "summary" in
  let? content := getattr news "content" in
  ok (PDict [("headline", headline); ("date", date);
             ("summary", summary); ("content", content)]).

Definition save_news_to_json (news_list : list News) (file_path : Path)
    : M unit :=
  news_data <- lift (rmap dict_of_news news_list) ;;
  dump_to_file file_path (PList news_data).

Definition download_historical_news : nat -> datetime -> datetime -> M Path :=
  Downloader.download_historical_news
    fetch_batch_of_news save_news_to_json (fun n => getattr n "date") DATA_DIR.

End Functions.
End FeaturePipeline.

(** ** [src/alpaca_news_api.py] *)
Module SrcCopy.

(** The dataclass [News] of this file: its fourth field is named [data]. *)
Record News := mk_News {
  headline : pyval;
  summary : pyval;
  content : pyval;
  data : pyval
}.

Definition getattr (n : News) (name : string) : result pyval :=
  if String.eqb name "headline" then ok (headline n)
  else if String.eqb name "summary" then ok (summary n)
  else if String.eqb name "content" then ok (content n)
  else if String.eqb name "data" then ok (data n)
  else throw (AttributeError
                ("'News' object has no attribute '" +:+ name +:+ "'")).

Section Functions.
Variable creds : credentials.
Variable DATA_DIR : Path.
(** The parser behind [datetime.fromisoformat], [None] for a string that it
    rejects: which strings it accepts depends on the version of Python. *)
Variable parse_isoformat : string -> option datetime.

(** [datetime.fromisoformat(v)] *)
Definition fromisoformat (v : pyval) : result pyval :=
  match v with
  | PStr s =>
      match parse_isoformat s with
      | Some t => ok (PDatetime t)
      | None => throw (ValueError ("Invalid isoformat string: " +:+ quoted s))
      end
  | _ => throw (TypeError "fromisoformat: argument must be str")
  end.

(** Lines 40 to 55. *)
Definition request_for (from_date to_date : datetime) (page_token : pyval)
    : Request :=
  let headers : gmap string string :=
    {[ "APCA_API_KEY_ID" := ALPACA_API_KEY creds;
       "APCA_API_SECRET_KEY" := ALPACA_SECRET_KEY creds ]} in
  let params : gmap string pyval :=
    {[ "start" := PStr (strftime_iso_z from_date);
       "end" := PStr (strftime_iso_z to_date);
       "limit" := PInt 50;
       "including_content" := PBool true;
       "sort" := PStr "ASC" ]} in
  let params :=
    if is_None page_token then params
    else <[ "page_token" := page_token ]> params in
  let url := "https://data.alpaca.markets/v1beta1/news" in
  mk_Request url headers params.

(** Lines 73 to 81. *)
Definition news_of_item (item : pyval) : result News :=
  let? headline := getitem item "headline" in
  let? summary := getitem item "summary" in
  let? content := getitem item "content" in
  let? timestamp := getitem item "timestamp" in
  let? data := fromisoformat timestamp in
  ok (mk_News headline summary content data).

(** Lines 64 to 82: what the call makes of a response that passed
    [raise_for_status]. There is no [else] branch: a status other than 200
    gives an empty list and no token. *)
Definition parse_response (response : Response) : result (list News * pyval) :=
  if status_code response =? 200 then
    let? news_json := response_json response in
    let? next_page_token := get_or_None news_json "next_page_token" in
    let? news := getitem news_json "news" in
    let? items := iterate news in
    let? list_of_news := rmap news_of_item items in
    ok (list_of_news, next_page_token)
  else ok ([], PNone).

(** Lines 57 to 62: the [except] clause catches a [RequestException] only. *)
Definition get_or_fail (req : Request) : M Response :=
  try_except
    (response <- requests_get (url req) (headers req) (params req) ;;
     _ <- lift (raise_for_status response) ;;
     ret response)
    (fun e =>
       match e with
       | RequestException msg =>
           Some (raise (RuntimeError ("Failed to fetch news: " +:+ msg)))
       | _ => None
       end).

Definition fetch_batch_of_news (from_date to_date : datetime)
    (page_token : pyval) : M (list News * pyval) :=
  let req := request_for from_date to_date page_token in
  response <- get_or_fail req ;;
  lift (parse_response response).

(** Lines 91 to 97: the second attribute read is [date]. *)
Definition dict_of_news (news : News) : result pyval :=
  let? headline := getattr news "headline" in
  let? date := getattr news "date" in
  let? summary := getattr news "summary" in
  let? content := getattr news "content" in
  ok (PDict [("headline", headline); ("date", date);
             ("summary", summary); ("content", content)]).

Definition save_news_to_json (news_list : list News) (file_path : Path)
    : M unit :=
  news_data <- lift (rmap dict_of_news news_list) ;;
  dump_to_file file_path (PList news_data).

Definition download_historical_news : nat -> datetime -> datetime -> M Path :=
  Downloader.download_historical_news
    fetch_batch_of_news save_news_to_json (fun n => getattr n "date") DATA_DIR.

End Functions.
End SrcCopy.

(** ** [scripts/download_news_from_alpaca.py]

    The script imports the module, which reads the environment, and calls
    the function with [datetime(2025, 4, 20)] and [datetime.now()]. *)
Definition download_news_from_alpaca (environ : gmap string string)
    (DATA_DIR : Path) (now : datetime) (fuel : nat) : M Path :=
  creds <- lift (import_alpaca_news_api environ) ;;
  FeaturePipeline.download_historical_news creds DATA_DIR fuel
    (mk_datetime 2025 4 20 0 0 0 0) now.

(** ** A call as a function of the server's answer *)

Definition outcome_of {A} (r : result A) : Outcome A :=
  match r with inl e => Raise e | inr a => Ret a end.

(** A world after the exchanges [xs] more. *)
Definition with_exchanges (xs : list Exchange) (w : World) : World :=
  mk_World (server w) (writable w) (exchanges w ++ xs) (files w).

(** What the server answers to [req] in the world [w], as an exchange. *)
Definition ask (w : World) (req : Request) : Exchange :=
  (req, server w (exchanges w) req).

(** One exchange for [req], and [decode] applied to the answer. *)
Definition exchange_then {A} (req : Request) (decode : HttpResult -> result A)
    : M A :=
  fun w => (outcome_of (decode (snd (ask w req))), with_exchanges [ask w req] w).

(** What [FeaturePipeline.fetch_batch_of_news] returns or raises, given the
    answer to its request. *)
Definition fetch_result_fp (res : HttpResult)
    : result (list FeaturePipeline.News * pyval) :=
  match res with
  | Answered r => FeaturePipeline.parse_response r
  | Failed msg => throw (RequestException msg)
  end.

(** The same for [SrcCopy.fetch_batch_of_news]. *)
Definition fetch_result_src (parse_isoformat : string -> option datetime)
    (res : HttpResult) : result (list SrcCopy.News * pyval) :=
  let failed msg := throw (RuntimeError ("Failed to fetch news: " +:+ msg)) in
  match res with
  | Answered r =>
      match raise_for_status r with
      | inl (RequestException msg) => failed msg
      | inl e => throw e
      | inr _ => SrcCopy.parse_response parse_isoformat r
      end
  | Failed msg => failed msg
  end.

(** ** The runs of the loop

    [paged hist st xs out]: from the state [st], with the exchanges [hist]
    behind it, the loop exchanges [xs] with the server and then stops with
    [out]: it stops between two passes ([Ret]), or a fetch raises, or line
    125 raises. *)
Section Runs.
Context {News : Type}.
Variable request_for : datetime -> datetime -> pyval -> Request.
Variable fetch_result : HttpResult -> result (list News * pyval).
Variable News_date : News -> result pyval.
Variable srv : list Exchange -> Request -> HttpResult.
Variables from_date to_date : datetime.

Definition sent (hist : list Exchange) (tok : pyval) : Exchange :=
  let req := request_for from_date to_date tok in (req, srv hist req).

(** Line 125: [batch_of_news[-1].date]. *)
Definition last_date (batch : list News) : result pyval :=
  let? n := last_item batch in News_date n.

Inductive paged (hist : list Exchange)
    : list News * pyval -> list Exchange -> Outcome (list News * pyval) -> Prop :=
| paged_stop st :
    paged hist st [] (Ret st)
| paged_fetch_raises acc tok e :
    is_None tok = false ->
    fetch_result (snd (sent hist tok)) = inl e ->
    paged hist (acc, tok) [sent hist tok] (Raise e)
| paged_line_125_raises acc tok batch tok' e :
    is_None tok = false ->
    fetch_result (snd (sent hist tok)) = inr (batch, tok') ->
    last_date batch = inl e ->
    paged hist (acc, tok) [sent hist tok] (Raise e)
| paged_pass acc tok batch tok' d xs out :
    is_None tok = false ->
    fetch_result (snd (sent hist tok)) = inr (batch, tok') ->
    last_date batch = inr d ->
    paged (hist ++ [sent hist tok]) (acc ++ batch, tok') xs out ->
    paged hist (acc, tok) (sent hist tok :: xs) out.

(** The requests of successive pages: each carries the token of the page
    before it. *)
Fixpoint chain (tok : pyval) (pages : list (list News * pyval)) : list Request :=
  match pages with
  | [] => []
  | page :: pages' => request_for from_date to_date tok :: chain (snd page) pages'
  end.

(** The token of the last page, [tok] when there is no page. *)
Definition last_token (tok : pyval) (pages : list (list News * pyval)) : pyval :=
  fold_left (fun _ page => snd page) pages tok.

(** The exchanges [xs] fetched the pages [pages], one each and in order,
    starting with the token [tok]. *)
Definition fetched (tok : pyval) (xs : list Exchange)
    (pages : list (list News * pyval)) : Prop :=
  Forall2 (fun x page => fetch_result (snd x) = inr page) xs pages /\
  map fst xs = chain tok pages.

End Runs.

(** A server that answers by a script: the [i]-th request gets [resp i],
    whatever it asks. *)
Definition scripted (resp : nat -> HttpResult)
    : list Exchange -> Request -> HttpResult :=
  fun hist _ => resp (length hist).

(** ** The two files side by side *)

Inductive variant := feature_pipeline | src_copy.

Definition News_of (v : variant) : Type :=
  match v with
  | feature_pipeline => FeaturePipeline.News
  | src_copy => SrcCopy.News
  end.

Section Variants.
Variable creds : credentials.
Variable DATA_DIR : Path.
Variable parse_isoformat : string -> option datetime.

Definition request_of (v : variant) : datetime -> datetime -> pyval -> Request :=
  match v with
  | feature_pipeline => FeaturePipeline.request_for creds
  | src_copy => SrcCopy.request_for creds
  end.

Definition fetch_result_of (v : variant)
    : HttpResult -> result (list (News_of v) * pyval) :=
  match v with
  | feature_pipeline => fetch_result_fp
  | src_copy => fetch_result_src parse_isoformat
  end.

Definition fetch_of (v : variant)
    : datetime -> datetime -> pyval -> M (list (News_of v) * pyval) :=
  match v with
  | feature_pipeline => FeaturePipeline.fetch_batch_of_news creds
  | src_copy => SrcCopy.fetch_batch_of_news creds parse_isoformat
  end.

Definition save_of (v : variant) : list (News_of v) -> Path -> M unit :=
  match v with
  | feature_pipeline => FeaturePipeline.save_news_to_json
  | src_copy => SrcCopy.save_news_to_json
  end.

Definition date_of (v : variant) : News_of v -> result pyval :=
  match v with
  | feature_pipeline => fun n => FeaturePipeline.getattr n "date"
  | src_copy => fun n => SrcCopy.getattr n "date"
  end.

Definition download_of (v : variant) : nat -> datetime -> datetime -> M Path :=
  match v with
  | feature_pipeline => FeaturePipeline.download_historical_news creds DATA_DIR
  | src_copy => SrcCopy.download_historical_news creds DATA_DIR parse_isoformat
  end.

(** The program of [v] after the first page and at most [n] passes. *)
Definition pagination_of (v : variant) (n : nat) (from_date to_date : datetime)
    : M (list (News_of v) * pyval) :=
  Downloader.pagination (fetch_of v) (date_of v) n from_date to_date.

End Variants.

(** ** The formats the specification names *)

(** The decimal digit of a number from 0 to 9. *)
Definition digit (z : Z) : ascii := ascii_of_N (48 + Z.to_N z).

(** [DD]: two digits. *)
Definition digits2 (z : Z) : string :=
  String (digit (z / 10)) (String (digit (z mod 10)) "").

(** [YYYY]: four digits. *)
Definition digits4 (z : Z) : string :=
  String (digit (z / 1000)) (String (digit (z / 100 mod 10)) (digits2 (z mod 100))).

(** [YYYY-MM-DD] *)
Definition yyyy_mm_dd (d : datetime) : string :=
  digits4 (year d) +:+ "-" +:+ digits2 (month d) +:+ "-" +:+ digits2 (day d).

(** [YYYY-MM-DDTHH:MM:SSZ] *)
Definition yyyy_mm_ddThh_mm_ssZ (d : datetime) : string :=
  yyyy_mm_dd d +:+ "T" +:+ digits2 (hour d) +:+ ":" +:+ digits2 (minute d)
  +:+ ":" +:+ digits2 (second d) +:+ "Z".

(** The dict that [save_news_to_json] makes of a record with these fields. *)
Definition news_object (headline date summary content : pyval) : pyval :=
  PDict [("headline", headline); ("date", date);
         ("summary", summary); ("content", content)].

Definition object_of_fp (n : FeaturePipeline.News) : pyval :=
  news_object (FeaturePipeline.headline n) (FeaturePipeline.date n)
    (FeaturePipeline.summary n) (FeaturePipeline.content n).

(** The name of the parameter that asks for the article bodies, and of the
    two headers, in each file. *)
Definition content_flag (v : variant) : string :=
  match v with
  | feature_pipeline => "include_content"
  | src_copy => "including_content"
  end.

Definition key_header (v : variant) : string :=
  match v with
  | feature_pipeline => "Apca-Api-Key-Id"
  | src_copy => "APCA_API_KEY_ID"
  end.

Definition secret_header (v : variant) : string :=
  match v with
  | feature_pipeline => "Apca-Api-Secret-Key"
  | src_copy => "APCA_API_SECRET_KEY"
  end.

(** ** Sample data for the examples *)
Module Sample.

Definition creds : credentials := mk_credentials "key-id" "secret".
Definition DATA_DIR : Path := ["data"].
Definition from_date : datetime := mk_datetime 2025 4 20 0 0 0 0.
Definition to_date : datetime := mk_datetime 2025 4 21 0 0 0 0.

(** An ISO parser for the one timestamp of the samples. *)
Definition parse_isoformat (s : string) : option datetime :=
  if String.eqb s "2025-04-20T10:00:00" then Some (mk_datetime 2025 4 20 10 0 0 0)
  else None.

(** An article of the response body, with the fields both files read. *)
Definition article (headline : string) : pyval :=
  PDict [("headline", PStr headline);
         ("updated_at", PStr "2025-04-20T10:00:00Z");
         ("timestamp", PStr "2025-04-20T10:00:00");
         ("summary", PStr "summary");
         ("content", PStr "content")].

Definition body (articles : list pyval) (token : pyval) : pyval :=
  PDict [("news", PList articles); ("next_page_token", token)].

Definition page (articles : list pyval) (token : pyval) : HttpResult :=
  Answered (mk_Response 200 "OK" "" "" (Some (body articles token))).

Definition error_500 : HttpResult :=
  Answered (mk_Response 500 "Internal Server Error" "" "try later" None).

Definition world (resp : nat -> HttpResult) : World :=
  mk_World (scripted resp) (fun _ => true) [] [].

(** One page of two articles and no token (the scenario of the
    specification). *)
Definition one_page (i : nat) : HttpResult :=
  page [article "a"; article "b"] PNone.

(** Two pages, then nothing more to ask. *)
Definition two_pages (i : nat) : HttpResult :=
  match i with
  | O => page [article "a"; article "b"] (PStr "t1")
  | _ => page [article "c"] PNone
  end.

(** A first page, then a page without articles that still has a token. *)
Definition empty_second_page (i : nat) : HttpResult :=
  match i with
  | O => page [article "a"] (PStr "t1")
  | _ => page [] (PStr "t2")
  end.

(** A first page with a token, then the status 500, then a last page. *)
Definition error_on_second_page (i : nat) : HttpResult :=
  match i with
  | O => page [article "a"] (PStr "t1")
  | 1%nat => error_500
  | _ => page [article "c"] PNone
  end.

(** A page without articles and without token. *)
Definition nothing (i : nat) : HttpResult := page [] PNone.

(** A token on every page. *)
Definition endless (i : nat) : HttpResult := page [article "a"] (PStr "more").

End Sample.

(** ** Records and the articles they come from *)

(** The record [n] holds the fields of the article [item], as the first
    file reads them: the field [updated_at] goes into [date] as it is. *)
Definition made_of_fp (n : FeaturePipeline.News) (item : pyval) : Prop :=
  getitem item "headline" = ok (FeaturePipeline.headline n) /\
  getitem item "summary" = ok (FeaturePipeline.summary n) /\
  getitem item "content" = ok (FeaturePipeline.content n) /\
  getitem item "updated_at" = ok (FeaturePipeline.date n).

(** The same for the second file: the field [timestamp] is a string that the
    ISO parser accepts, and [data] is the [datetime] it gives. *)
Definition made_of_src (parse_isoformat : string -> option datetime)
    (n : SrcCopy.News) (item : pyval) : Prop :=
  getitem item "headline" = ok (SrcCopy.headline n) /\
  getitem item "summary" = ok (SrcCopy.summary n) /\
  getitem item "content" = ok (SrcCopy.content n) /\
  exists s d,
    getitem item "timestamp" = ok (PStr s) /\
    parse_isoformat s = Some d /\
    SrcCopy.data n = PDatetime d.

(** The body of the response [r] decodes to a dict whose entry [news] has
    the elements [items] (those of the list, when it is a list) and whose
    entry [next_page_token], [None] when there is none, is [tok]. *)
Definition body_of (r : Response) (items : list pyval) (tok : pyval) : Prop :=
  exists body news,
    json_body r = Some body /\
    get_or_None body "next_page_token" = ok tok /\
    getitem body "news" = ok news /\
    iterate news = ok items.

(** A [datetime] object. *)
Definition is_datetime (v : pyval) : Prop := exists d, v = PDatetime d.

(** The integers from 0 to [n - 1]. *)
Definition below (n : Z) : list Z := map Z.of_nat (seq 0 (Z.to_nat n)).

(** How the outcome of the loop and of the save make the outcome of the
    function. *)
Definition finish (path : Path) (o : Outcome unit) : Outcome Path :=
  match o with
  | Ret _ => Ret path
  | Raise e => Raise e
  | OutOfFuel => OutOfFuel
  end.

(** ** [json.load]

    The decoder of the library, for the texts of the model: numbers with a
    fraction or an exponent, [NaN] and the infinities are floats and are
    refused here, and so is an escape for a character above 255. *)

Definition is_ws (c : ascii) : bool :=
  let n := N_of_ascii c in
  ((n =? 32) || (n =? 9) || (n =? 10) || (n =? 13))%N.

Fixpoint skip_ws (s : string) : string :=
  match s with
  | String c s' => if is_ws c then skip_ws s' else s
  | EmptyString => s
  end.

Definition hex_value (c : ascii) : option N :=
  let n := N_of_ascii c in
  if ((48 <=? n) && (n <=? 57))%N then Some (n - 48)%N
  else if ((97 <=? n) && (n <=? 102))%N then Some (n - 87)%N
  else if ((65 <=? n) && (n <=? 70))%N then Some (n - 55)%N
  else None.

(** The character that a backslash and [c] stand for. *)
Definition short_escape (c : ascii) : option ascii :=
  let n := N_of_ascii c in
  if (n =? 34)%N then Some dquote
  else if (n =? 92)%N then Some backslash
  else if (n =? 47)%N then Some "/"%char
  else if (n =? 98)%N then Some "008"%char
  else if (n =? 102)%N then Some "012"%char
  else if (n =? 110)%N then Some newline
  else if (n =? 114)%N then Some "013"%char
  else if (n =? 116)%N then Some "009"%char
  else None.

Definition code_point (h1 h2 h3 h4 : ascii) : option ascii :=
  match hex_value h1, hex_value h2, hex_value h3, hex_value h4 with
  | Some a, Some b, Some c, Some d =>
      let n := (((a * 16 + b) * 16 + c) * 16 + d)%N in
      if (n <? 256)%N then Some (ascii_of_N n) else None
  | _, _, _, _ => None
  end.

(** [scanstring], after the opening quote: the string and what follows the
    closing quote. A control character must be escaped. *)
Fixpoint scan_string (s : string) : option (string * string) :=
  match s with
  | EmptyString => None
  | String c s' =>
      if Ascii.eqb c dquote then Some ("", s')
      else if Ascii.eqb c backslash then
        match s' with
        | String e s'' =>
            match short_escape e with
            | Some x =>
                match scan_string s'' with
                | Some (txt, r) => Some (String x txt, r)
                | None => None
                end
            | None =>
                if Ascii.eqb e "u" then
                  match s'' with
                  | String h1 (String h2 (String h3 (String h4 s3))) =>
                      match code_point h1 h2 h3 h4, scan_string s3 with
                      | Some x, Some (txt, r) => Some (String x txt, r)
                      | _, _ => None
                      end
                  | _ => None
                  end
                else None
            end
        | EmptyString => None
        end
      else if (N_of_ascii c <? 32)%N then None
      else
        match scan_string s' with
        | Some (txt, r) => Some (String c txt, r)
        | None => None
        end
  end.

Definition digit_of (c : ascii) : option (uint -> uint) :=
  match N_of_ascii c with
  | 48 => Some D0 | 49 => Some D1 | 50 => Some D2 | 51 => Some D3
  | 52 => Some D4 | 53 => Some D5 | 54 => Some D6 | 55 => Some D7
  | 56 => Some D8 | 57 => Some D9 | _ => None
  end%N.

(** The digits at the head of [s], and what follows them. *)
Fixpoint read_digits (s : string) : uint * string :=
  match s with
  | String c s' =>
      match digit_of c with
      | Some d => let (u, r) := read_digits s' in (d u, r)
      | None => (Nil, s)
      end
  | EmptyString => (Nil, s)
  end.

(** What follows the integer part makes the number a float. *)
Definition float_follows (s : string) : bool :=
  match s with
  | String c _ => Ascii.eqb c "." || Ascii.eqb c "e" || Ascii.eqb c "E"
  | EmptyString => false
  end.

(** The integer part of a number without sign: [0], or digits that do not
    start with [0]. *)
Definition scan_natural (s : string) : option (Z * string) :=
  match s with
  | String c s' =>
      if Ascii.eqb c "0" then Some (0, s')
      else
        match digit_of c with
        | Some _ => let (u, r) := read_digits s in Some (Z.of_uint u, r)
        | None => None
        end
  | EmptyString => None
  end.

Definition scan_number (s : string) : option (pyval * string) :=
  let signed :=
    match s with
    | String c s' =>
        if Ascii.eqb c "-" then
          match scan_natural s' with
          | Some (z, r) => Some (- z, r)
          | None => None
          end
        else scan_natural s
    | EmptyString => None
    end in
  match signed with
  | Some (z, r) => if float_follows r then None else Some (PInt z, r)
  | None => None
  end.

(** [s] without the prefix [p], if it starts with it. *)
Fixpoint strip_prefix (p s : string) : option string :=
  match p, s with
  | EmptyString, _ => Some s
  | String a p', String b s' => if Ascii.eqb a b then strip_prefix p' s' else None
  | String _ _, EmptyString => None
  end.

(** [d[k] = v] *)
Fixpoint dict_set (k : string) (v : pyval) (d : list (string * pyval))
    : list (string * pyval) :=
  match d with
  | [] => [(k, v)]
  | (k', v') :: d' =>
      if String.eqb k k' then (k, v) :: d' else (k', v') :: dict_set k v d'
  end.

(** [dict(pairs)]: a key that comes again keeps its place and takes the
    later value. *)
Definition dict_of_pairs (pairs : list (string * pyval)) : list (string * pyval) :=
  fold_left (fun d kv => dict_set (fst kv) (snd kv) d) pairs [].

(** [scan_once], [JSONArray] and [JSONObject] of the library. [scan_value]
    reads the value that starts at the head of [s]; [scan_elements] the
    elements of an array up to its bracket, from the head of the first;
    [scan_members] the members of an object up to its brace, from the quote
    of the first key. Each call takes one unit of fuel. *)
Fixpoint scan_value (fuel : nat) (s : string) : option (pyval * string) :=
  match fuel with
  | O => None
  | S fuel' =>
      match s with
      | EmptyString => None
      | String c s' =>
          if Ascii.eqb c dquote then
            match scan_string s' with
            | Some (txt, r) => Some (PStr txt, r)
            | None => None
            end
          else if Ascii.eqb c "{" then
            match skip_ws s' with
            | String c1 r1 =>
                if Ascii.eqb c1 "}" then Some (PDict [], r1)
                else
                  match scan_members fuel' (String c1 r1) with
                  | Some (pairs, r) => Some (PDict (dict_of_pairs pairs), r)
                  | None => None
                  end
            | EmptyString => None
            end
          else if Ascii.eqb c "[" then
            match skip_ws s' with
            | String c1 r1 =>
                if Ascii.eqb c1 "]" then Some (PList [], r1)
                else
                  match scan_elements fuel' (String c1 r1) with
                  | Some (l, r) => Some (PList l, r)
                  | None => None
                  end
            | EmptyString => None
            end
          else
            match strip_prefix "null" s, strip_prefix "true" s,
                  strip_prefix "false" s with
            | Some r, _, _ => Some (PNone, r)
            | _, Some r, _ => Some (PBool true, r)
            | _, _, Some r => Some (PBool false, r)
            | None, None, None => scan_number s
            end
      end
  end
with scan_elements (fuel : nat) (s : string) : option (list pyval * string) :=
  match fuel with
  | O => None
  | S fuel' =>
      match scan_value fuel' s with
      | Some (v, r) =>
          match skip_ws r with
          | String c r1 =>
              if Ascii.eqb c "," then
                match scan_elements fuel' (skip_ws r1) with
                | Some (l, r2) => Some (v :: l, r2)
                | None => None
                end
              else if Ascii.eqb c "]" then Some ([v], r1)
              else None
          | EmptyString => None
          end
      | None => None
      end
  end
with scan_members (fuel : nat) (s : string)
    : option (list (string * pyval) * string) :=
  match fuel with
  | O => None
  | S fuel' =>
      match s with
      | String q s' =>
          if Ascii.eqb q dquote then
            match scan_string s' with
            | Some (k, r) =>
                match skip_ws r with
                | String c r1 =>
                    if Ascii.eqb c ":" then
                      match scan_value fuel' (skip_ws r1) with
                      | Some (v, r2) =>
                          match skip_ws r2 with
                          | String c2 r3 =>
                              if Ascii.eqb c2 "," then
                                match scan_members fuel' (skip_ws r3) with
                                | Some (pairs, r4) => Some ((k, v) :: pairs, r4)
                                | None => None
                                end
                              else if Ascii.eqb c2 "}" then Some ([(k, v)], r3)
                              else None
                          | EmptyString => None
                          end
                      | None => None
                      end
                    else None
                | EmptyString => None
                end
            | None => None
            end
          else None
      | EmptyString => None
      end
  end.

(** [json.loads(s)]: one value, with nothing but white space around it. No
    call of the scanner goes without reading a character, so the length of
    the text is fuel enough. *)
Definition json_loads (s : string) : option pyval :=
  match scan_value (String.length s) (skip_ws s) with
  | Some (v, r) => if String.eqb (skip_ws r) "" then Some v else None
  | None => None
  end.

(** ** Well-formed values *)

Fixpoint distinct (l : list string) : bool :=
  match l with
  | [] => true
  | k :: l' => negb (existsb (String.eqb k) l') && distinct l'
  end.

(** The keys of every dict in the value are distinct, as in every dict of
    Python. *)
Fixpoint well_formed (v : pyval) : bool :=
  match v with
  | PList l => forallb well_formed l
  | PDict d =>
      distinct (map fst d) && forallb (fun kv => well_formed (snd kv)) d
  | _ => true
  end.

(** The number of calls that the scanner needs for the value. *)
Fixpoint weight (v : pyval) : nat :=
  match v with
  | PList l => S (sum_list_with (fun x => S (weight x)) l)
  | PDict d => S (sum_list_with (fun kv => S (weight (snd kv))) d)
  | _ => 1
  end.

(** What may follow a number in a text: no digit, and nothing that would
    make it a float. *)
Definition ends_number (s : string) : bool :=
  match s with
  | String c _ =>
      match digit_of c with Some _ => false | None => negb (float_follows s) end
  | EmptyString => true
  end.

(** Induction on a value, with the hypothesis for the elements of a list
    and for the values of a dict. *)
Definition pyval_ind (P : pyval -> Prop)
    (HNone : P PNone) (HBool : forall b, P (PBool b)) (HInt : forall z, P (PInt z))
    (HStr : forall s, P (PStr s))
    (HList : forall l, Forall P l -> P (PList l))
    (HDict : forall d, Forall (fun kv => P (snd kv)) d -> P (PDict d))
    (HDatetime : forall t, P (PDatetime t))
    : forall v, P v :=
  fix go (v : pyval) : P v :=
    match v with
    | PNone => HNone
    | PBool b => HBool b
    | PInt z => HInt z
    | PStr s => HStr s
    | PList l =>
        HList l ((fix all (l : list pyval) : Forall P l :=
                    match l with
                    | [] => List.Forall_nil P
                    | x :: l' => List.Forall_cons P x l' (go x) (all l')
                    end) l)
    | PDict d =>
        HDict d ((fix all (d : list (string * pyval))
                      : Forall (fun kv => P (snd kv)) d :=
                    match d with
                    | [] => List.Forall_nil _
                    | kv :: d' => List.Forall_cons _ kv d' (go (snd kv)) (all d')
                    end) d)
    | PDatetime t => HDatetime t
    end.

(** The character can start a number. *)
Definition starts_number (c : ascii) : bool :=
  match digit_of c with
  | Some _ => true
  | None => Ascii.eqb c "-"
  end.

(** The character can start the text of a value. *)
Definition starts_value (c : ascii) : bool :=
  negb (is_ws c) && negb (Ascii.eqb c "]") && negb (Ascii.eqb c "}").

(** The text of [v], written at any level and followed by any text that
    ends a number, is read back as [v] by a scanner with fuel for it. *)
Definition reads_back (v : pyval) : Prop :=
  forall lvl fuel rest,
    snd (encode lvl v) = true -> well_formed v = true ->
    (weight v <= fuel)%nat -> ends_number rest = true ->
    scan_value fuel (fst (encode lvl v) +:+ rest) = Some (v, rest).

(** The text of one member of a dict at the level [lvl]: the key, a colon
    and a space, the value. *)
Definition encode_member (lvl : nat) (kv : string * pyval) : emitted :=
  emit (encode_str (fst kv) +:+ ": ") >+ encode lvl (snd kv).

(** ** The file that [save_news_to_json] writes, as the specification
    describes it *)

(** The values of the four fields are well-formed. *)
Definition well_formed_fp (n : FeaturePipeline.News) : bool :=
  well_formed (FeaturePipeline.headline n) && well_formed (FeaturePipeline.date n)
  && well_formed (FeaturePipeline.summary n) && well_formed (FeaturePipeline.content n).

Definition is_str (v : pyval) : Prop := exists s, v = PStr s.

(** The four fields of the record are strings. *)
Definition fields_are_strings (n : FeaturePipeline.News) : Prop :=
  is_str (FeaturePipeline.headline n) /\ is_str (FeaturePipeline.date n) /\
  is_str (FeaturePipeline.summary n) /\ is_str (FeaturePipeline.content n).

(** An object with exactly the four keys, in the order of the file, and a
    string for each. *)
Definition four_string_fields (o : pyval) : Prop :=
  exists h d s c,
    o = PDict [("headline", PStr h); ("date", PStr d);
               ("summary", PStr s); ("content", PStr c)].

(** A new line and [n] spaces. *)
Definition line_start (n : nat) : string := String newline (spaces n).

(** A member on its line: eight spaces, the key between quotes, a colon and
    a space, the value. *)
Definition member_line (key : string) (v : pyval) : string :=
  line_start 8 +:+ encode_str key +:+ ": " +:+ fst (encode 2 v).

(** An object of the array: its braces at four spaces, one member per line
    between them. *)
Definition object_lines (n : FeaturePipeline.News) : string :=
  line_start 4 +:+ "{"
  +:+ member_line "headline" (FeaturePipeline.headline n) +:+ ","
  +:+ member_line "date" (FeaturePipeline.date n) +:+ ","
  +:+ member_line "summary" (FeaturePipeline.summary n) +:+ ","
  +:+ member_line "content" (FeaturePipeline.content n)
  +:+ line_start 4 +:+ "}".

(** The text of the file: [[]] for no record, else the objects one after the
    other, with a comma between two, and the brackets on lines of their
    own. *)
Definition array_lines (l : list FeaturePipeline.News) : string :=
  match l with
  | [] => "[]"
  | n :: l' =>
      "[" +:+ object_lines n
      +:+ String.concat "" (map (fun m => "," +:+ object_lines m) l')
      +:+ line_start 0 +:+ "]"
  end.

(** The value holds no [datetime]: the encoder can serialise it. *)
Fixpoint serialisable (v : pyval) : bool :=
  match v with
  | PList l => forallb serialisable l
  | PDict d => forallb (fun kv => serialisable (snd kv)) d
  | PDatetime _ => false
  | _ => true
  end.

(** The four fields of the record can be serialised. *)
Definition serialisable_fp (n : FeaturePipeline.News) : bool :=
  serialisable (FeaturePipeline.headline n) && serialisable (FeaturePipeline.date n)
  && serialisable (FeaturePipeline.summary n)
  && serialisable (FeaturePipeline.content n).

(** ** The pages of a run, by their rank

    The answers of the server along a run are [resp 0], [resp 1], ... and
    the fetch makes the page [page i] of the answer [resp i]. *)

(** The cursor of the request number [i]: none for the first, then the token
    that came with the page before. *)
Definition cursor {News} (page : nat -> list News * pyval) (i : nat) : pyval :=
  match i with
  | O => PNone
  | S j => snd (page j)
  end.

(** The first [n] exchanges: each request carries its cursor. *)
Definition asked {News}
    (request_for : datetime -> datetime -> pyval -> Request)
    (from_date to_date : datetime) (resp : nat -> HttpResult)
    (page : nat -> list News * pyval) (n : nat) : list Exchange :=
  map (fun i => (request_for from_date to_date (cursor page i), resp i)) (seq 0 n).

(** The records of the first [n] pages, in the order of the pages and,
    within a page, in the order of the page. *)
Definition gathered {News} (page : nat -> list News * pyval) (n : nat) : list News :=
  concat (map (fun i => fst (page i)) (seq 0 n)).

(** In a run from the world [w], the request number [i], made after the
    [i] exchanges before it, gets the answer [resp i], and the fetch makes
    the page [page i] of it. *)
Definition fetch_returns {News}
    (request_for : datetime -> datetime -> pyval -> Request)
    (fetch_result : HttpResult -> result (list News * pyval))
    (from_date to_date : datetime) (w : World) (resp : nat -> HttpResult)
    (page : nat -> list News * pyval) (i : nat) : Prop :=
  server w (exchanges w ++ asked request_for from_date to_date resp page i)
    (request_for from_date to_date (cursor page i)) = resp i /\
  fetch_result (resp i) = ok (page i).

(** ** More notions for the properties below *)

(** The keys that a call reads in each article, in the order in which it
    reads them. *)
Definition item_keys (v : variant) : list string :=
  match v with
  | feature_pipeline => ["headline"; "updated_at"; "summary"; "content"]
  | src_copy => ["headline"; "summary"; "content"; "timestamp"]
  end.

(** The dict has no entry for the key. *)
Definition lacks (d : list (string * pyval)) (k : string) : bool :=
  match dict_lookup k d with None => true | Some _ => false end.

Definition news_of_item_of (parse_isoformat : string -> option datetime)
    (v : variant) : pyval -> result (News_of v) :=
  match v with
  | feature_pipeline => FeaturePipeline.news_of_item
  | src_copy => SrcCopy.news_of_item parse_isoformat
  end.

(** What [response.json()] can return, among the values of the model (no
    float, no character above U+00FF): a value without [datetime], whose
    dicts have distinct keys. *)
Definition json_data (v : pyval) : bool := serialisable v && well_formed v.

(** * Proofs *)

(** ** Worlds and the monad *)

Lemma with_exchanges_nil w : with_exchanges [] w = w.
Proof. destruct w; unfold with_exchanges; simpl. by rewrite app_nil_r. Qed.

Lemma with_exchanges_app xs ys w :
  with_exchanges ys (with_exchanges xs w) = with_exchanges (xs ++ ys) w.
Proof. unfold with_exchanges; simpl. by rewrite app_assoc. Qed.

Lemma with_exchanges_cons x xs w :
  with_exchanges xs (with_exchanges [x] w) = with_exchanges (x :: xs) w.
Proof. apply with_exchanges_app. Qed.

Lemma bind_Ret {A B} (c : M A) (k : A -> M B) w a w' :
  c w = (Ret a, w') -> bind c k w = k a w'.
Proof. unfold bind. by intros ->. Qed.

Lemma bind_Raise {A B} (c : M A) (k : A -> M B) w e w' :
  c w = (Raise e, w') -> bind c k w = (Raise e, w').
Proof. unfold bind. by intros ->. Qed.

Lemma bind_inv_Ret {A B} (c : M A) (k : A -> M B) w b w' :
  bind c k w = (Ret b, w') ->
  exists a w1, c w = (Ret a, w1) /\ k a w1 = (Ret b, w').
Proof.
  unfold bind. destruct (c w) as [[a|e|] w1]; intros H; try discriminate.
  by exists a, w1.
Qed.

Lemma lift_inv_Ret {A} (r : result A) w a w' :
  lift r w = (Ret a, w') -> r = inr a /\ w' = w.
Proof. destruct r; unfold lift, ret, raise; intros [= <- <-]; auto. Qed.

Lemma exchange_then_eq {A} req (decode : HttpResult -> result A) w :
  exchange_then req decode w
  = (outcome_of (decode (server w (exchanges w) req)),
     with_exchanges [(req, server w (exchanges w) req)] w).
Proof. reflexivity. Qed.

(** ** Each call is one exchange *)

Lemma fetch_fp_exchange creds f t tok w :
  FeaturePipeline.fetch_batch_of_news creds f t tok w
  = exchange_then (FeaturePipeline.request_for creds f t tok) fetch_result_fp w.
Proof.
  unfold FeaturePipeline.fetch_batch_of_news, exchange_then, ask, bind, requests_get.
  set (req := FeaturePipeline.request_for creds f t tok).
  replace (mk_Request (url req) (headers req) (params req)) with req
    by (by destruct req).
  simpl. destruct (server w (exchanges w) req) as [r|msg]; simpl; [|done].
  by destruct (FeaturePipeline.parse_response r).
Qed.

Lemma fetch_src_exchange creds iso f t tok w :
  SrcCopy.fetch_batch_of_news creds iso f t tok w
  = exchange_then (SrcCopy.request_for creds f t tok) (fetch_result_src iso) w.
Proof.
  unfold SrcCopy.fetch_batch_of_news, SrcCopy.get_or_fail, exchange_then, ask,
    try_except, bind, requests_get.
  set (req := SrcCopy.request_for creds f t tok).
  replace (mk_Request (url req) (headers req) (params req)) with req
    by (by destruct req).
  simpl. destruct (server w (exchanges w) req) as [r|msg]; simpl; [|done].
  unfold raise_for_status.
  destruct (_ && _); simpl; [done|].
  destruct (_ && _); simpl; [done|].
  by destruct (SrcCopy.parse_response iso r).
Qed.

Lemma fetch_of_exchange creds iso v f t tok w :
  fetch_of creds iso v f t tok w
  = exchange_then (request_of creds v f t tok) (fetch_result_of iso v) w.
Proof. destruct v; [apply fetch_fp_exchange | apply fetch_src_exchange]. Qed.

(** ** From the program to its runs *)

Section LoopFacts.
Context {News : Type}.
Variable fetch : datetime -> datetime -> pyval -> M (list News * pyval).
Variable save : list News -> Path -> M unit.
Variable News_date : News -> result pyval.
Variable DATA_DIR : Path.
Variable request_for : datetime -> datetime -> pyval -> Request.
Variable fetch_result : HttpResult -> result (list News * pyval).
Hypothesis fetch_spec : forall f t tok w,
  fetch f t tok w = exchange_then (request_for f t tok) fetch_result w.
Variables f t : datetime.

Abbreviation run_of w := (paged request_for fetch_result News_date (server w) f t).
Abbreviation sent_in w := (sent request_for (server w) f t (exchanges w)).

Lemma loop_body_eq acc tok w :
  Downloader.loop_body fetch News_date f t (acc, tok) w
  = match fetch_result (snd (sent_in w tok)) with
    | inl e => (Raise e, with_exchanges [sent_in w tok] w)
    | inr (batch, tok') =>
        match last_date News_date batch with
        | inl e => (Raise e, with_exchanges [sent_in w tok] w)
        | inr _ => (Ret (acc ++ batch, tok'), with_exchanges [sent_in w tok] w)
        end
    end.
Proof.
  unfold Downloader.loop_body, bind. rewrite fetch_spec, exchange_then_eq.
  unfold sent, last_date. simpl.
  destruct (fetch_result _) as [e|[batch tok']]; simpl; [done|].
  by destruct (rbind (last_item batch) _).
Qed.

Lemma passes_paged n : forall st w out w',
  Downloader.passes fetch News_date n f t st w = (out, w') ->
  exists xs,
    w' = with_exchanges xs w /\ run_of w (exchanges w) st xs out /\
    (length xs <= n)%nat /\
    (forall st', out = Ret st' -> is_None (snd st') = false -> length xs = n).
Proof.
  induction n as [|n IH]; intros [acc tok] w out w' H.
  - injection H as <- <-. exists []. rewrite with_exchanges_nil.
    split; [done|]. split; [constructor|]. by split.
  - cbn [Downloader.passes snd] in H. destruct (is_None tok) eqn:Htok.
    + injection H as <- <-. exists []. rewrite with_exchanges_nil.
      split; [done|]. split; [constructor|]. split; [simpl; lia|].
      intros st' [= <-]. simpl. congruence.
    + unfold bind in H. rewrite loop_body_eq in H.
      destruct (fetch_result _) as [e|[batch tok']] eqn:Hres.
      { injection H as <- <-. eexists. split; [done|].
        split; [by constructor|]. split; [simpl; lia | done]. }
      destruct (last_date News_date batch) as [e|d] eqn:Hdate.
      { injection H as <- <-. eexists. split; [done|].
        split; [by econstructor|]. split; [simpl; lia | done]. }
      apply IH in H as (xs & -> & Hrun & Hlen & Hfull).
      exists (sent_in w tok :: xs). rewrite with_exchanges_cons.
      split; [done|]. split; [by econstructor|]. split; [simpl; lia|].
      intros st' Hout Hst'. simpl. f_equal. eauto.
Qed.

(** The loop with fuel [n] is [n] passes at most, and out of fuel if a
    token is left. *)
Lemma while_loop_passes n : forall st w,
  Downloader.while_loop fetch News_date n f t st w
  = match Downloader.passes fetch News_date n f t st w with
    | (Ret st', w') =>
        if is_None (snd st') then (Ret st', w') else (OutOfFuel, w')
    | other => other
    end.
Proof.
  induction n as [|n IH]; intros st w; simpl.
  - by destruct (is_None (snd st)).
  - destruct (is_None (snd st)) eqn:Htok; simpl; [by rewrite Htok|].
    unfold bind. destruct (Downloader.loop_body _ _ _ _ _ _) as [[st1|e|] w1];
      [apply IH | done | done].
Qed.

End LoopFacts.

(** ** What a run of the loop tells *)

Section RunFacts.
Context {News : Type}.
Variable request_for : datetime -> datetime -> pyval -> Request.
Variable fetch_result : HttpResult -> result (list News * pyval).
Variable News_date : News -> result pyval.
Variable srv : list Exchange -> Request -> HttpResult.
Variables f t : datetime.

Abbreviation run := (paged request_for fetch_result News_date srv f t).
Abbreviation fetched_from := (fetched request_for fetch_result f t).

Lemma last_token_snoc tok (pages : list (list News * pyval)) page :
  last_token tok (pages ++ [page]) = snd page.
Proof. unfold last_token. by rewrite fold_left_app. Qed.

Lemma last_token_cons tok (pages : list (list News * pyval)) page :
  last_token tok (page :: pages) = last_token (snd page) pages.
Proof. reflexivity. Qed.

(** A run that stops between two passes has fetched one page per exchange,
    each asked with the token of the page before, and holds their records
    in order behind those it started with. *)
Lemma paged_Ret hist st xs out :
  run hist st xs out -> forall st', out = Ret st' ->
  exists pages,
    fetched_from (snd st) xs pages /\
    fst st' = fst st ++ concat (map fst pages) /\
    snd st' = last_token (snd st) pages.
Proof.
  induction 1 as [hist st|hist acc tok e Htok Hres|hist acc tok batch tok' e Htok Hres Hd
                 |hist acc tok batch tok' d xs out Htok Hres Hd Hrun IH];
    intros st' Hout; try discriminate.
  - injection Hout as <-. exists []. split; [by split; [constructor|]|].
    simpl. by rewrite app_nil_r.
  - destruct (IH st' Hout) as (pages & [Hall Hchain] & Hacc & Hlast).
    exists ((batch, tok') :: pages). simpl in *. split; [split|].
    + by constructor.
    + simpl. by f_equal.
    + by rewrite Hacc, <- app_assoc.
Qed.

(** A run never stops for want of fuel: that is said by [while_loop]. *)
Lemma paged_not_OutOfFuel hist st xs out :
  run hist st xs out -> out <> OutOfFuel.
Proof. induction 1; congruence. Qed.

(** A fetch that raises ends the run with its exception. *)
Lemma paged_fetch_raises_inv hist st xs out :
  run hist st xs out ->
  forall x e, x ∈ xs -> fetch_result (snd x) = inl e -> out = Raise e.
Proof.
  induction 1 as [hist st|hist acc tok e Htok Hres|hist acc tok batch tok' e Htok Hres Hd
                 |hist acc tok batch tok' d xs out Htok Hres Hd Hrun IH];
    intros x e' Hin Hx.
  - by apply elem_of_nil in Hin.
  - apply list_elem_of_singleton in Hin as ->. congruence.
  - apply list_elem_of_singleton in Hin as ->. congruence.
  - apply elem_of_cons in Hin as [->|Hin]; [congruence | eauto].
Qed.

(** A page without records ends the run with the [IndexError] of line 125. *)
Lemma paged_empty_batch hist st xs out :
  run hist st xs out ->
  forall x tok', x ∈ xs -> fetch_result (snd x) = inr ([], tok') ->
  out = Raise (IndexError "list index out of range").
Proof.
  induction 1 as [hist st|hist acc tok e Htok Hres|hist acc tok batch tok' e Htok Hres Hd
                 |hist acc tok batch tok' d xs out Htok Hres Hd Hrun IH];
    intros x tok'' Hin Hx.
  - by apply elem_of_nil in Hin.
  - apply list_elem_of_singleton in Hin as ->. congruence.
  - apply list_elem_of_singleton in Hin as ->.
    rewrite Hres in Hx. injection Hx as -> ->.
    unfold last_date in Hd. simpl in Hd. congruence.
  - apply elem_of_cons in Hin as [->|Hin]; [|eauto].
    rewrite Hres in Hx. injection Hx as -> ->.
    unfold last_date in Hd. simpl in Hd. discriminate.
Qed.

End RunFacts.

(** ** The whole function *)

Section DownloadFacts.
Context {News : Type}.
Variable fetch : datetime -> datetime -> pyval -> M (list News * pyval).
Variable save : list News -> Path -> M unit.
Variable News_date : News -> result pyval.
Variable DATA_DIR : Path.
Variable request_for : datetime -> datetime -> pyval -> Request.
Variable fetch_result : HttpResult -> result (list News * pyval).
Hypothesis fetch_spec : forall f t tok w,
  fetch f t tok w = exchange_then (request_for f t tok) fetch_result w.
Variables f t : datetime.

(** The first page, then the loop. *)
Lemma pagination_cases n w out w' :
  Downloader.pagination fetch News_date n f t w = (out, w') ->
  let x0 := ask w (request_for f t PNone) in
  match fetch_result (snd x0) with
  | inl e => out = Raise e /\ w' = with_exchanges [x0] w
  | inr st0 =>
      exists xs,
        w' = with_exchanges (x0 :: xs) w /\
        paged request_for fetch_result News_date (server w) f t
          (exchanges w ++ [x0]) st0 xs out /\
        (length xs <= n)%nat /\
        (forall st', out = Ret st' -> is_None (snd st') = false -> length xs = n)
  end.
Proof.
  unfold Downloader.pagination, bind. rewrite fetch_spec, exchange_then_eq.
  intros H. cbv zeta. unfold ask.
  destruct (fetch_result _) as [e|st0]; simpl in *.
  - by injection H as <- <-.
  - apply (passes_paged _ _ _ _ fetch_spec) in H as (xs & -> & Hrun & Hlen & Hfull).
    exists xs. by rewrite with_exchanges_cons.
Qed.

(** The function is the pagination with its fuel; if it ends without a
    token, the file is written and its path returned. *)
Lemma download_eq fuel w :
  Downloader.download_historical_news fetch save News_date DATA_DIR fuel f t w
  = match Downloader.pagination fetch News_date fuel f t w with
    | (Ret st, w1) =>
        if is_None (snd st) then
          let path := path_join DATA_DIR (Downloader.file_name f t) in
          match save (fst st) path w1 with
          | (Ret _, w2) => (Ret path, w2)
          | (Raise e, w2) => (Raise e, w2)
          | (OutOfFuel, w2) => (OutOfFuel, w2)
          end
        else (OutOfFuel, w1)
    | (Raise e, w1) => (Raise e, w1)
    | (OutOfFuel, w1) => (OutOfFuel, w1)
    end.
Proof.
  unfold Downloader.download_historical_news, Downloader.pagination, bind.
  destruct (fetch f t PNone w) as [[st0|e|] w0]; [|done|done].
  rewrite while_loop_passes.
  destruct (Downloader.passes _ _ _ _ _ _ _) as [[st|e|] w1]; [|done|done].
  by destruct (is_None (snd st)).
Qed.

End DownloadFacts.

(** ** Strings *)

Lemma string_app_nil_l (b : string) : "" +:+ b = b.
Proof. reflexivity. Qed.

Lemma string_app_cons x (a b : string) : String x a +:+ b = String x (a +:+ b).
Proof. reflexivity. Qed.

Lemma string_app_assoc (a b c : string) : (a +:+ b) +:+ c = a +:+ (b +:+ c).
Proof.
  induction a as [|x a IH]; [done|]. rewrite !string_app_cons. by f_equal.
Qed.

Lemma string_app_nil_r (a : string) : a +:+ "" = a.
Proof.
  induction a as [|x a IH]; [done|]. rewrite string_app_cons. by f_equal.
Qed.

(** ** [strftime] gives the formats of the specification *)

Lemma elem_of_below n z : 0 <= z < n -> z ∈ below n.
Proof.
  intros Hz. unfold below. apply list_elem_of_fmap. exists (Z.to_nat z).
  split; [lia|]. apply elem_of_seq. lia.
Qed.

Lemma field2_digits z : 0 <= z < 100 -> field 2 z = digits2 z.
Proof.
  intros Hz.
  assert (Hall : forallb (fun z => String.eqb (field 2 z) (digits2 z)) (below 100) = true)
    by (vm_compute; reflexivity).
  rewrite forallb_forall in Hall.
  apply String.eqb_eq, Hall, list_elem_of_In, elem_of_below, Hz.
Qed.

Lemma field4_digits z : 0 <= z < 10000 -> field 4 z = digits4 z.
Proof.
  intros Hz.
  assert (Hall : forallb (fun z => String.eqb (field 4 z) (digits4 z)) (below 10000) = true)
    by (vm_compute; reflexivity).
  rewrite forallb_forall in Hall.
  apply String.eqb_eq, Hall, list_elem_of_In, elem_of_below, Hz.
Qed.

Lemma strftime_date_format d :
  valid_datetime d -> strftime_date d = yyyy_mm_dd d.
Proof.
  intros (Hy & Hm & Hd & _). unfold strftime_date, yyyy_mm_dd.
  rewrite field4_digits, !field2_digits by lia. reflexivity.
Qed.

Lemma strftime_iso_z_format d :
  valid_datetime d -> strftime_iso_z d = yyyy_mm_ddThh_mm_ssZ d.
Proof.
  intros (Hy & Hm & Hd & Hh & Hmi & Hs & _).
  unfold strftime_iso_z, yyyy_mm_ddThh_mm_ssZ, yyyy_mm_dd.
  rewrite field4_digits, !field2_digits by lia.
  by rewrite !string_app_assoc.
Qed.

(** ** Writing the file *)

Lemma dump_to_file_Ret p v w u w' :
  dump_to_file p v w = (Ret u, w') ->
  writable w p = true /\ snd (encode 0 v) = true /\
  w' = log_file (p, fst (encode 0 v)) w.
Proof.
  unfold dump_to_file. destruct (writable w p); [|done].
  destruct (encode 0 v) as [txt [|]]; [|done]. by intros [= <- <-].
Qed.

Lemma rmap_ok {A B} (f : A -> result B) (g : A -> B) l :
  (forall x, f x = ok (g x)) -> rmap f l = ok (map g l).
Proof.
  intros Hf. induction l as [|x l IH]; simpl; [done|]. by rewrite Hf, IH.
Qed.

Lemma dict_of_news_fp n :
  FeaturePipeline.dict_of_news n = ok (object_of_fp n).
Proof. reflexivity. Qed.

(** In the first file the attributes exist: the function is the dump of the
    list of dicts. *)
Lemma save_fp_eq l p w :
  FeaturePipeline.save_news_to_json l p w
  = dump_to_file p (PList (map object_of_fp l)) w.
Proof.
  unfold FeaturePipeline.save_news_to_json, bind.
  by rewrite (rmap_ok _ object_of_fp) by apply dict_of_news_fp.
Qed.

(** In the second file the first record stops it, before the file is opened. *)
Lemma save_src_cons n l p w :
  SrcCopy.save_news_to_json (n :: l) p w
  = (Raise (AttributeError "'News' object has no attribute 'date'"), w).
Proof. reflexivity. Qed.

Lemma save_src_nil p w :
  SrcCopy.save_news_to_json [] p w = dump_to_file p (PList []) w.
Proof. reflexivity. Qed.

Lemma save_of_Ret v l p w u w' :
  save_of v l p w = (Ret u, w') ->
  exists txt, w' = log_file (p, txt) w.
Proof.
  destruct v; simpl.
  - rewrite save_fp_eq. intros (_ & _ & ->)%dump_to_file_Ret. eauto.
  - destruct l as [|n l]; [|by rewrite save_src_cons].
    rewrite save_src_nil. intros (_ & _ & ->)%dump_to_file_Ret. eauto.
Qed.

Lemma download_of_eq creds D iso v :
  download_of creds D iso v
  = Downloader.download_historical_news
      (fetch_of creds iso v) (save_of v) (date_of v) D.
Proof. by destruct v. Qed.

(** What [download_of] does, in terms of the pagination. *)
Lemma download_of_cases creds D iso v fuel f t w :
  download_of creds D iso v fuel f t w
  = match pagination_of creds iso v fuel f t w with
    | (Ret st, w1) =>
        if is_None (snd st) then
          let path := path_join D (Downloader.file_name f t) in
          match save_of v (fst st) path w1 with
          | (Ret _, w2) => (Ret path, w2)
          | (Raise e, w2) => (Raise e, w2)
          | (OutOfFuel, w2) => (OutOfFuel, w2)
          end
        else (OutOfFuel, w1)
    | (Raise e, w1) => (Raise e, w1)
    | (OutOfFuel, w1) => (OutOfFuel, w1)
    end.
Proof. rewrite download_of_eq. apply download_eq. Qed.

Lemma pagination_of_cases creds iso v n f t w out w' :
  pagination_of creds iso v n f t w = (out, w') ->
  let x0 := ask w (request_of creds v f t PNone) in
  match fetch_result_of iso v (snd x0) with
  | inl e => out = Raise e /\ w' = with_exchanges [x0] w
  | inr st0 =>
      exists xs,
        w' = with_exchanges (x0 :: xs) w /\
        paged (request_of creds v) (fetch_result_of iso v) (date_of v) (server w) f t
          (exchanges w ++ [x0]) st0 xs out /\
        (length xs <= n)%nat /\
        (forall st', out = Ret st' -> is_None (snd st') = false -> length xs = n)
  end.
Proof.
  apply pagination_cases. intros. apply fetch_of_exchange.
Qed.

(** The pagination leaves the files alone and only adds exchanges. *)
Lemma pagination_of_world creds iso v n f t w out w' :
  pagination_of creds iso v n f t w = (out, w') ->
  exists xs, w' = with_exchanges xs w.
Proof.
  intros H%pagination_of_cases. cbv zeta in H.
  destruct (fetch_result_of _ _ _); [destruct H as [_ ->]; eauto|].
  destruct H as (xs & -> & _). eauto.
Qed.

(** ** The claims *)

(** C6. A run of [download_historical_news] that returns has written one
    file and one only; its name is [news_<from>_<to>.json] with both dates
    as [YYYY-MM-DD], in the directory [DATA_DIR], and the value returned is
    the path of that file. This holds for both files. *)
Theorem download_writes_one_file creds D iso v fuel f t w p w' :
  valid_datetime f -> valid_datetime t ->
  download_of creds D iso v fuel f t w = (Ret p, w') ->
  p = path_join D ("news_" +:+ yyyy_mm_dd f +:+ "_" +:+ yyyy_mm_dd t +:+ ".json") /\
  exists txt, files w' = files w ++ [(p, txt)].
Proof.
  intros Hf Ht. rewrite download_of_cases.
  destruct (pagination_of _ _ _ _ _ _ _) as [[st|e|] w1] eqn:Hpag; [|done|done].
  apply pagination_of_world in Hpag as [xs ->].
  destruct (is_None (snd st)); [|done]. cbv zeta.
  destruct (save_of _ _ _ _) as [[u|e|] w2] eqn:Hsave; [|done|done].
  intros [= <- <-]. apply save_of_Ret in Hsave as [txt ->].
  unfold Downloader.file_name. rewrite !strftime_date_format by done.
  split; [done|]. by exists txt.
Qed.

Lemma download_writes_one_file_witness :
  let run v :=
    download_of Sample.creds Sample.DATA_DIR Sample.parse_isoformat v 3
      Sample.from_date Sample.to_date in
  let p := ["data"; "news_2025-04-20_2025-04-21.json"] in
  (fst (run feature_pipeline (Sample.world Sample.two_pages)) = Ret p /\
   exists txt, files (snd (run feature_pipeline (Sample.world Sample.two_pages)))
               = [(p, txt)]) /\
  (fst (run src_copy (Sample.world Sample.nothing)) = Ret p /\
   exists txt, files (snd (run src_copy (Sample.world Sample.nothing)))
               = [(p, txt)]).
Proof.
  assert (Hf : valid_datetime Sample.from_date) by (unfold valid_datetime; simpl; lia).
  assert (Ht : valid_datetime Sample.to_date) by (unfold valid_datetime; simpl; lia).
  cbv zeta. split.
  - split; [vm_compute; reflexivity|].
    refine (proj2 (download_writes_one_file Sample.creds Sample.DATA_DIR
      Sample.parse_isoformat feature_pipeline 3 Sample.from_date Sample.to_date
      (Sample.world Sample.two_pages) _ _ Hf Ht _)).
    vm_compute; reflexivity.
  - split; [vm_compute; reflexivity|].
    refine (proj2 (download_writes_one_file Sample.creds Sample.DATA_DIR
      Sample.parse_isoformat src_copy 3 Sample.from_date Sample.to_date
      (Sample.world Sample.nothing) _ _ Hf Ht _)).
    vm_compute; reflexivity.
Defined.

(** C8. A call of [fetch_batch_of_news] is one GET exchange with the news
    endpoint, whatever it then returns or raises. The parameters of the
    request are [start] and [end] written as [YYYY-MM-DDTHH:MM:SSZ], the
    page size 50, the flag that asks for the article bodies, the order
    [ASC], and [page_token] exactly when a token that is not [None] was
    given; the two credentials go in the two headers. This holds for both
    files, which differ in the names of the flag and of the headers. *)
Theorem fetch_sends_one_request creds iso v f t tok w out w' :
  valid_datetime f -> valid_datetime t ->
  fetch_of creds iso v f t tok w = (out, w') ->
  exists req,
    w' = with_exchanges [(req, server w (exchanges w) req)] w /\
    url req = "https://data.alpaca.markets/v1beta1/news" /\
    params req !! "start" = Some (PStr (yyyy_mm_ddThh_mm_ssZ f)) /\
    params req !! "end" = Some (PStr (yyyy_mm_ddThh_mm_ssZ t)) /\
    params req !! "limit" = Some (PInt 50) /\
    params req !! content_flag v = Some (PBool true) /\
    params req !! "sort" = Some (PStr "ASC") /\
    params req !! "page_token" = (if is_None tok then None else Some tok) /\
    dom (params req)
    = {[ "start"; "end"; "limit"; content_flag v; "sort" ]}
      ∪ (if is_None tok then ∅ else {[ "page_token" ]}) /\
    headers req = {[ key_header v := ALPACA_API_KEY creds;
                     secret_header v := ALPACA_SECRET_KEY creds ]}.
Proof.
  intros Hf Ht. rewrite fetch_of_exchange, exchange_then_eq. intros [= _ <-].
  exists (request_of creds v f t tok). split; [done|].
  rewrite <- (strftime_iso_z_format f), <- (strftime_iso_z_format t) by done.
  destruct v; simpl; unfold FeaturePipeline.request_for, SrcCopy.request_for; simpl;
    (split; [done|]); destruct (is_None tok); simpl.
  all: repeat (split; [by simplify_map_eq|]).
  all: done.
Qed.

Lemma fetch_sends_one_request_witness :
  let w := Sample.world Sample.two_pages in
  let sent v tok :=
    exchanges (snd (fetch_of Sample.creds Sample.parse_isoformat v
                      Sample.from_date Sample.to_date tok w)) in
  (exists req, sent feature_pipeline PNone = [(req, Sample.two_pages 0)] /\
     params req !! "start" = Some (PStr "2025-04-20T00:00:00Z") /\
     params req !! "end" = Some (PStr "2025-04-21T00:00:00Z") /\
     params req !! "page_token" = None) /\
  (exists req, sent src_copy (PStr "t1") = [(req, Sample.two_pages 0)] /\
     params req !! "including_content" = Some (PBool true) /\
     params req !! "page_token" = Some (PStr "t1") /\
     headers req !! "APCA_API_SECRET_KEY" = Some "secret").
Proof.
  assert (Hf : valid_datetime Sample.from_date) by (unfold valid_datetime; simpl; lia).
  assert (Ht : valid_datetime Sample.to_date) by (unfold valid_datetime; simpl; lia).
  cbv zeta. split.
  - destruct (fetch_sends_one_request Sample.creds Sample.parse_isoformat
      feature_pipeline Sample.from_date Sample.to_date PNone
      (Sample.world Sample.two_pages) _ _ Hf Ht (surjective_pairing _))
      as (req & Hw & _ & Hstart & Hend & _ & _ & _ & Htok & _).
    exists req. rewrite Hw. by repeat split.
  - destruct (fetch_sends_one_request Sample.creds Sample.parse_isoformat
      src_copy Sample.from_date Sample.to_date (PStr "t1")
      (Sample.world Sample.two_pages) _ _ Hf Ht (surjective_pairing _))
      as (req & Hw & _ & _ & _ & _ & Hflag & _ & Htok & _ & Hh).
    exists req. rewrite Hw, Hh. by repeat split.
Defined.

(** C7. If [ALPACA_API_KEY] or [ALPACA_SECRET_KEY] is not in the
    environment, the import of the module raises a [KeyError] that names the
    first variable that is missing, and the script stops there: the world is
    as it was, so no request was sent and no file written. The lines of the
    import are the same in both files. *)
Theorem missing_credential_stops_before_any_request environ D now fuel w :
  environ !! "ALPACA_API_KEY" = None \/ environ !! "ALPACA_SECRET_KEY" = None ->
  exists name,
    (name = "ALPACA_API_KEY" \/ name = "ALPACA_SECRET_KEY") /\
    environ !! name = None /\
    let e := KeyError ("Environment variable '" +:+ name
                       +:+ "' not set. Please set it before running the script.") in
    import_alpaca_news_api environ = inl e /\
    download_news_from_alpaca environ D now fuel w = (Raise e, w).
Proof.
  intros Hmiss.
  unfold download_news_from_alpaca, bind, import_alpaca_news_api, environ_get.
  destruct (environ !! "ALPACA_API_KEY") as [key|] eqn:Hkey.
  - destruct Hmiss as [|Hsecret]; [done|].
    exists "ALPACA_SECRET_KEY". rewrite Hsecret. simpl. auto.
  - exists "ALPACA_API_KEY". simpl. auto.
Qed.

Lemma missing_credential_stops_before_any_request_witness :
  let environ : gmap string string := {[ "ALPACA_API_KEY" := "key-id" ]} in
  let e := KeyError "Environment variable 'ALPACA_SECRET_KEY' not set. Please set it before running the script." in
  import_alpaca_news_api environ = inl e /\
  download_news_from_alpaca environ Sample.DATA_DIR Sample.to_date 3
    (Sample.world Sample.two_pages)
  = (Raise e, Sample.world Sample.two_pages).
Proof.
  cbv zeta.
  destruct (missing_credential_stops_before_any_request
              {[ "ALPACA_API_KEY" := "key-id" ]} Sample.DATA_DIR Sample.to_date 3
              (Sample.world Sample.two_pages))
    as (name & [->| ->] & Hnone & Himport & Hrun).
  - right. reflexivity.
  - discriminate Hnone.
  - split; [exact Himport | exact Hrun].
Defined.

(** ** The runs of the whole function *)

Lemma dump_to_file_exchanges p v w o w' :
  dump_to_file p v w = (o, w') -> exchanges w' = exchanges w.
Proof.
  unfold dump_to_file. destruct (writable w p); [|by intros [= <- <-]].
  destruct (encode 0 v) as [txt [|]]; by intros [= <- <-].
Qed.

Lemma save_of_exchanges v l p w o w' :
  save_of v l p w = (o, w') -> exchanges w' = exchanges w.
Proof.
  destruct v; simpl.
  - rewrite save_fp_eq. apply dump_to_file_exchanges.
  - destruct l as [|n l]; [|rewrite save_src_cons; by intros [= <- <-]].
    rewrite save_src_nil. apply dump_to_file_exchanges.
Qed.

(** ** The loop, page by page *)

Section PageByPage.
Context {News : Type}.
Variable fetch : datetime -> datetime -> pyval -> M (list News * pyval).
Variable save : list News -> Path -> M unit.
Variable News_date : News -> result pyval.
Variable DATA_DIR : Path.
Variable request_for : datetime -> datetime -> pyval -> Request.
Variable fetch_result : HttpResult -> result (list News * pyval).
Hypothesis fetch_spec : forall f t tok w,
  fetch f t tok w = exchange_then (request_for f t tok) fetch_result w.
Variables f t : datetime.
Variable w0 : World.
Variable resp : nat -> HttpResult.
Variable page : nat -> list News * pyval.

Abbreviation asked_to n := (asked request_for f t resp page n).
Abbreviation returns_at i := (fetch_returns request_for fetch_result f t w0 resp page i).

Lemma asked_snoc n :
  asked_to (S n) = asked_to n ++ [(request_for f t (cursor page n), resp n)].
Proof. unfold asked. by rewrite seq_S, map_app. Qed.

Lemma gathered_snoc n : gathered page (S n) = gathered page n ++ fst (page n).
Proof.
  unfold gathered. rewrite seq_S, map_app, concat_app. simpl.
  by rewrite app_nil_r.
Qed.

Lemma gathered_length n :
  length (gathered page n)
  = sum_list_with (fun i => length (fst (page i))) (seq 0 n).
Proof.
  unfold gathered. generalize 0%nat.
  induction n as [|n IH]; intros i; [done|].
  cbn [seq map concat sum_list_with]. by rewrite length_app, IH.
Qed.

(** The first call, line 115. *)
Lemma first_fetch_returns :
  returns_at 0%nat ->
  fetch f t PNone w0 = (Ret (page 0), with_exchanges (asked_to 1) w0).
Proof.
  intros [Hans Hpage]. unfold asked in Hans. cbn [seq map cursor] in Hans.
  rewrite app_nil_r in Hans.
  rewrite fetch_spec, exchange_then_eq, Hans, Hpage. reflexivity.
Qed.

(** One pass of the body after the page [i]: it asks with the token of that
    page, appends the records of the next page, and evaluates line 125. *)
Lemma loop_body_returns i :
  returns_at (S i) ->
  Downloader.loop_body fetch News_date f t (gathered page (S i), snd (page i))
    (with_exchanges (asked_to (S i)) w0)
  = (match last_date News_date (fst (page (S i))) with
     | inl e => Raise e
     | inr _ => Ret (gathered page (S (S i)), snd (page (S i)))
     end,
     with_exchanges (asked_to (S (S i))) w0).
Proof.
  intros [Hans Hpage]. cbn [cursor] in Hans.
  rewrite (loop_body_eq _ _ _ _ fetch_spec).
  unfold sent. cbn [server exchanges with_exchanges snd].
  rewrite Hans, Hpage. unfold ok.
  rewrite with_exchanges_app, (asked_snoc (S i)), (gathered_snoc (S i)).
  cbn [cursor]. destruct (page (S i)) as [batch tok'].
  cbn [fst snd]. by destruct (last_date News_date batch).
Qed.

Lemma token_present i : snd (page i) <> PNone -> is_None (snd (page i)) = false.
Proof. by destruct (snd (page i)). Qed.

(** From the page [i], with [n] more pages to the first one without token
    and line 125 evaluating on each of them: the loop ends with the records
    of all the pages, and has asked for each with its cursor. *)
Lemma while_loop_reaches n : forall fuel i,
  (forall j, (i < j <= i + n)%nat -> returns_at j) ->
  (forall j, (i <= j < i + n)%nat -> snd (page j) <> PNone) ->
  (forall j, (i < j <= i + n)%nat ->
     exists d, last_date News_date (fst (page j)) = ok d) ->
  snd (page (i + n)) = PNone ->
  (n <= fuel)%nat ->
  Downloader.while_loop fetch News_date fuel f t
    (gathered page (S i), snd (page i)) (with_exchanges (asked_to (S i)) w0)
  = (Ret (gathered page (S (i + n)), PNone),
     with_exchanges (asked_to (S (i + n))) w0).
Proof.
  induction n as [|n IH]; intros fuel i Hret Htok Hdate Hend Hfuel.
  - rewrite Nat.add_0_r in *. rewrite Hend. by destruct fuel.
  - destruct fuel as [|fuel]; [lia|].
    cbn [Downloader.while_loop snd].
    rewrite (token_present i (Htok i ltac:(lia))). unfold bind.
    rewrite (loop_body_returns i (Hret (S i) ltac:(lia))).
    destruct (Hdate (S i) ltac:(lia)) as [d ->]. unfold ok.
    replace (i + S n)%nat with (S i + n)%nat in * by lia.
    apply IH; [| | |done|lia]; intros j Hj;
      [apply Hret | apply Htok | apply Hdate]; lia.
Qed.

(** The same, when line 125 raises on the page after these [n] ones. *)
Lemma while_loop_raises n : forall fuel i e,
  (forall j, (i < j <= S (i + n))%nat -> returns_at j) ->
  (forall j, (i <= j <= i + n)%nat -> snd (page j) <> PNone) ->
  (forall j, (i < j <= i + n)%nat ->
     exists d, last_date News_date (fst (page j)) = ok d) ->
  last_date News_date (fst (page (S (i + n)))) = inl e ->
  (n < fuel)%nat ->
  Downloader.while_loop fetch News_date fuel f t
    (gathered page (S i), snd (page i)) (with_exchanges (asked_to (S i)) w0)
  = (Raise e, with_exchanges (asked_to (S (S (i + n)))) w0).
Proof.
  induction n as [|n IH]; intros fuel i e Hret Htok Hdate Hraise Hfuel;
    (destruct fuel as [|fuel]; [lia|]);
    cbn [Downloader.while_loop snd];
    rewrite (token_present i (Htok i ltac:(lia))); unfold bind;
    rewrite (loop_body_returns i (Hret (S i) ltac:(lia))).
  - rewrite Nat.add_0_r in *. by rewrite Hraise.
  - destruct (Hdate (S i) ltac:(lia)) as [d ->]. unfold ok.
    replace (i + S n)%nat with (S i + n)%nat in * by lia.
    apply IH; [| | |done|lia]; intros j Hj;
      [apply Hret | apply Htok | apply Hdate]; lia.
Qed.

Lemma first_page_state : page 0 = (gathered page 1, snd (page 0)).
Proof. unfold gathered. simpl. rewrite app_nil_r. by destruct (page 0). Qed.

(** The loop of the function, entered with the first page, when the page
    [k] is the first without token. *)
Lemma while_loop_ends k fuel :
  (forall i, (1 <= i <= k)%nat -> returns_at i) ->
  (forall i, (i < k)%nat -> snd (page i) <> PNone) ->
  (forall i, (1 <= i <= k)%nat ->
     exists d, last_date News_date (fst (page i)) = ok d) ->
  snd (page k) = PNone ->
  (k <= fuel)%nat ->
  Downloader.while_loop fetch News_date fuel f t (page 0)
    (with_exchanges (asked_to 1) w0)
  = (Ret (gathered page (S k), PNone), with_exchanges (asked_to (S k)) w0).
Proof.
  intros Hret Htok Hdate Hend Hfuel. rewrite first_page_state.
  rewrite (while_loop_reaches k fuel 0); [done|intros j Hj..|done|done].
  - apply Hret. lia.
  - apply Htok. lia.
  - apply Hdate. lia.
Qed.

(** The function, when the page [k] is the first without token. *)
Lemma download_reaches k fuel :
  (forall i, (i <= k)%nat -> returns_at i) ->
  (forall i, (i < k)%nat -> snd (page i) <> PNone) ->
  (forall i, (1 <= i <= k)%nat ->
     exists d, last_date News_date (fst (page i)) = ok d) ->
  snd (page k) = PNone ->
  (k <= fuel)%nat ->
  Downloader.download_historical_news fetch save News_date DATA_DIR fuel f t w0
  = let path := path_join DATA_DIR (Downloader.file_name f t) in
    let saved := save (gathered page (S k)) path (with_exchanges (asked_to (S k)) w0) in
    (finish path (fst saved), snd saved).
Proof.
  intros Hret Htok Hdate Hend Hfuel.
  unfold Downloader.download_historical_news, bind.
  rewrite (first_fetch_returns (Hret 0%nat ltac:(lia))).
  rewrite (while_loop_ends k fuel); [|intros i Hi; apply Hret; lia|done..].
  cbn [fst]. cbv zeta. by destruct (save _ _ _) as [[u|e|] w2].
Qed.

(** The function, when line 125 raises on the page [k + 1]. *)
Lemma download_raises k fuel e :
  (forall i, (i <= S k)%nat -> returns_at i) ->
  (forall i, (i <= k)%nat -> snd (page i) <> PNone) ->
  (forall i, (1 <= i <= k)%nat ->
     exists d, last_date News_date (fst (page i)) = ok d) ->
  last_date News_date (fst (page (S k))) = inl e ->
  (k < fuel)%nat ->
  Downloader.download_historical_news fetch save News_date DATA_DIR fuel f t w0
  = (Raise e, with_exchanges (asked_to (S (S k))) w0).
Proof.
  intros Hret Htok Hdate Hraise Hfuel.
  unfold Downloader.download_historical_news, bind.
  rewrite (first_fetch_returns (Hret 0%nat ltac:(lia))), first_page_state.
  rewrite (while_loop_raises k fuel 0 e); [done|intros j Hj..|done|done].
  - apply Hret. lia.
  - apply Htok. lia.
  - apply Hdate. lia.
Qed.

End PageByPage.



Lemma download_of_run creds D iso v fuel f t w out w' :
  download_of creds D iso v fuel f t w = (out, w') ->
  let x0 := ask w (request_of creds v f t PNone) in
  match fetch_result_of iso v (snd x0) with
  | inl e => out = Raise e /\ w' = with_exchanges [x0] w
  | inr st0 =>
      exists xs out1,
        exchanges w' = exchanges w ++ x0 :: xs /\
        paged (request_of creds v) (fetch_result_of iso v) (date_of v) (server w) f t
          (exchanges w ++ [x0]) st0 xs out1 /\
        (length xs <= fuel)%nat /\
        match out1 with
        | Ret st =>
            if is_None (snd st) then
              exists o,
                save_of v (fst st) (path_join D (Downloader.file_name f t))
                  (with_exchanges (x0 :: xs) w) = (o, w') /\
                out = finish (path_join D (Downloader.file_name f t)) o
            else
              out = OutOfFuel /\ w' = with_exchanges (x0 :: xs) w /\
              length xs = fuel
        | Raise e => out = Raise e /\ w' = with_exchanges (x0 :: xs) w
        | OutOfFuel => False
        end
  end.
Proof.
  rewrite download_of_cases.
  destruct (pagination_of _ _ _ _ _ _ _) as [out1 w1] eqn:Hpag.
  apply pagination_of_cases in Hpag. cbv zeta in *.
  destruct (fetch_result_of iso v _) as [e|st0].
  - destruct Hpag as [-> ->]. by intros [= <- <-].
  - destruct Hpag as (xs & -> & Hrun & Hlen & Hfull).
    intros H. exists xs, out1.
    destruct out1 as [st|e|]; [|injection H as <- <-; done|].
    + destruct (is_None (snd st)) eqn:Htok.
      * destruct (save_of _ _ _ _) as [o w2] eqn:Hsave.
        assert (out = finish (path_join D (Downloader.file_name f t)) o /\ w' = w2)
          as [-> ->] by (destruct o; injection H as <- <-; done).
        split; [by rewrite (save_of_exchanges _ _ _ _ _ _ Hsave)|].
        split; [done|]. split; [done|]. by exists o.
      * injection H as <- <-. repeat split; try done. by apply (Hfull st).
    + by apply paged_not_OutOfFuel in Hrun.
Qed.

(** A fetch that raises, at any page, is the end of the run: the function
    raises the same exception and no file is written. *)
Lemma download_of_fetch_raises creds D iso v fuel f t w out w' xs x e :
  download_of creds D iso v fuel f t w = (out, w') ->
  exchanges w' = exchanges w ++ xs ->
  x ∈ xs -> fetch_result_of iso v (snd x) = inl e ->
  out = Raise e /\ files w' = files w.
Proof.
  intros Hrun%download_of_run Hxs Hin Hx. cbv zeta in Hrun.
  destruct (fetch_result_of iso v (snd (ask w _))) as [e0|st0] eqn:H0.
  - destruct Hrun as [-> ->]. simpl in Hxs. apply app_inv_head in Hxs as <-.
    apply list_elem_of_singleton in Hin as ->. split; [congruence | done].
  - destruct Hrun as (xs' & out1 & Hxs' & Hpaged & _ & Hout).
    rewrite Hxs in Hxs'. apply app_inv_head in Hxs' as ->.
    apply elem_of_cons in Hin as [->|Hin]; [congruence|].
    rewrite (paged_fetch_raises_inv _ _ _ _ _ _ _ _ _ _ Hpaged x e Hin Hx) in Hout.
    by destruct Hout as [-> ->].
Qed.

(** A page without records after the first one is the end of the run: line
    125 raises [IndexError] and no file is written. *)
Lemma download_of_empty_page creds D iso v fuel f t w out w' x0 xs x tok :
  download_of creds D iso v fuel f t w = (out, w') ->
  exchanges w' = exchanges w ++ x0 :: xs ->
  x ∈ xs -> fetch_result_of iso v (snd x) = inr ([], tok) ->
  out = Raise (IndexError "list index out of range") /\ files w' = files w.
Proof.
  intros Hrun%download_of_run Hxs Hin Hx. cbv zeta in Hrun.
  destruct (fetch_result_of iso v (snd (ask w _))) as [e0|st0] eqn:H0.
  - destruct Hrun as [-> ->]. simpl in Hxs. apply app_inv_head in Hxs.
    injection Hxs as _ <-. by apply elem_of_nil in Hin.
  - destruct Hrun as (xs' & out1 & Hxs' & Hpaged & _ & Hout).
    rewrite Hxs in Hxs'. apply app_inv_head in Hxs'. injection Hxs' as _ ->.
    rewrite (paged_empty_batch _ _ _ _ _ _ _ _ _ _ Hpaged x tok Hin Hx) in Hout.
    by destruct Hout as [-> ->].
Qed.

(** C3. In the first file, if any answer of a run of
    [download_historical_news] has a status other than 200, on the first
    page or on a later one, the function raises the [RuntimeError] whose
    message holds that status and the text of that response, and the run has
    written no file. *)
Theorem non_200_aborts creds D fuel f t w out w' xs req r :
  FeaturePipeline.download_historical_news creds D fuel f t w = (out, w') ->
  exchanges w' = exchanges w ++ xs ->
  (req, Answered r) ∈ xs ->
  status_code r <> 200 ->
  out = Raise (RuntimeError ("Failed to fetch news: " +:+ str_int (status_code r)
                             +:+ " - " +:+ text r)) /\
  files w' = files w.
Proof.
  intros Hrun Hxs Hin Hstatus.
  apply (download_of_fetch_raises creds D (fun _ => None) feature_pipeline
           fuel f t w out w' xs (req, Answered r)); try done.
  simpl. unfold FeaturePipeline.parse_response.
  by destruct (Z.eqb_spec (status_code r) 200).
Qed.

Lemma non_200_aborts_witness :
  let w := Sample.world Sample.error_on_second_page in
  let run := FeaturePipeline.download_historical_news Sample.creds Sample.DATA_DIR
               5 Sample.from_date Sample.to_date w in
  length (exchanges (snd run)) = 2%nat /\
  fst run = Raise (RuntimeError "Failed to fetch news: 500 - try later") /\
  files (snd run) = [].
Proof.
  cbv zeta. split; [vm_compute; reflexivity|].
  refine (non_200_aborts Sample.creds Sample.DATA_DIR 5 Sample.from_date
            Sample.to_date (Sample.world Sample.error_on_second_page) _ _ _
            (FeaturePipeline.request_for Sample.creds Sample.from_date
               Sample.to_date (PStr "t1"))
            (mk_Response 500 "Internal Server Error" "" "try later" None)
            (surjective_pairing _) eq_refl _ _).
  - vm_compute. apply list_elem_of_further, list_elem_of_here.
  - discriminate.
Defined.

Lemma paged_empty_batch_last {News : Type} request_for
    (fetch_result : HttpResult -> result (list News * pyval))
    News_date srv f t hist st xs out :
  paged request_for fetch_result News_date srv f t hist st xs out ->
  forall x tok', x ∈ xs -> fetch_result (snd x) = inr ([], tok') ->
  last xs = Some x.
Proof.
  induction 1 as [hist st|hist acc tok e Htok Hres|hist acc tok batch tok' e Htok Hres Hd
                 |hist acc tok batch tok' d xs out Htok Hres Hd Hrun IH];
    intros x tok'' Hin Hx.
  - by apply elem_of_nil in Hin.
  - by apply list_elem_of_singleton in Hin as ->.
  - by apply list_elem_of_singleton in Hin as ->.
  - apply elem_of_cons in Hin as [->|Hin].
    + rewrite Hres in Hx. injection Hx as -> ->. discriminate Hd.
    + specialize (IH x tok'' Hin Hx). destruct xs; [done|]. exact IH.
Qed.

(** C9. In both files, if a page after the first comes back without
    records, with a token or without, the run of
    [download_historical_news] ends there: [batch_of_news[-1]] raises
    [IndexError], that exchange is the last one, and no file is written,
    though every fetch returned. *)
Theorem empty_later_page_raises creds D iso v fuel f t w out w' x0 xs x tok :
  download_of creds D iso v fuel f t w = (out, w') ->
  exchanges w' = exchanges w ++ x0 :: xs ->
  x ∈ xs ->
  fetch_result_of iso v (snd x) = ok ([], tok) ->
  out = Raise (IndexError "list index out of range") /\
  last xs = Some x /\
  files w' = files w.
Proof.
  intros Hdl Hxs Hin Hx.
  destruct (download_of_empty_page _ _ _ _ _ _ _ _ _ _ _ _ _ _ Hdl Hxs Hin Hx)
    as [-> Hfiles].
  split; [done|]. split; [|done].
  apply download_of_run in Hdl. cbv zeta in Hdl.
  destruct (fetch_result_of iso v (snd (ask w _))) as [e0|st0].
  - destruct Hdl as [_ ->]. simpl in Hxs. apply app_inv_head in Hxs.
    injection Hxs as _ <-. by apply elem_of_nil in Hin.
  - destruct Hdl as (xs' & out1 & Hxs' & Hpaged & _).
    rewrite Hxs in Hxs'. apply app_inv_head in Hxs'. injection Hxs' as _ ->.
    by apply (paged_empty_batch_last _ _ _ _ _ _ _ _ _ _ Hpaged x tok).
Qed.

Lemma empty_later_page_raises_witness :
  let w := Sample.world Sample.empty_second_page in
  let run v := download_of Sample.creds Sample.DATA_DIR Sample.parse_isoformat v 5
                 Sample.from_date Sample.to_date w in
  (fst (run feature_pipeline) = Raise (IndexError "list index out of range") /\
   length (exchanges (snd (run feature_pipeline))) = 2%nat /\
   files (snd (run feature_pipeline)) = []) /\
  (fst (run src_copy) = Raise (IndexError "list index out of range") /\
   length (exchanges (snd (run src_copy))) = 2%nat /\
   files (snd (run src_copy)) = []).
Proof.
  cbv zeta. split.
  - destruct (empty_later_page_raises Sample.creds Sample.DATA_DIR
      Sample.parse_isoformat feature_pipeline 5 Sample.from_date Sample.to_date
      (Sample.world Sample.empty_second_page) _ _
      (ask (Sample.world Sample.empty_second_page)
         (request_of Sample.creds feature_pipeline Sample.from_date Sample.to_date PNone))
      [(request_of Sample.creds feature_pipeline Sample.from_date Sample.to_date
          (PStr "t1"), Sample.empty_second_page 1)]
      (request_of Sample.creds feature_pipeline Sample.from_date Sample.to_date
          (PStr "t1"), Sample.empty_second_page 1)
      (PStr "t2") (surjective_pairing _))
      as (Hout & _ & Hfiles).
    + vm_compute. reflexivity.
    + apply list_elem_of_here.
    + reflexivity.
    + split; [exact Hout|]. split; [vm_compute; reflexivity | exact Hfiles].
  - destruct (empty_later_page_raises Sample.creds Sample.DATA_DIR
      Sample.parse_isoformat src_copy 5 Sample.from_date Sample.to_date
      (Sample.world Sample.empty_second_page) _ _
      (ask (Sample.world Sample.empty_second_page)
         (request_of Sample.creds src_copy Sample.from_date Sample.to_date PNone))
      [(request_of Sample.creds src_copy Sample.from_date Sample.to_date
          (PStr "t1"), Sample.empty_second_page 1)]
      (request_of Sample.creds src_copy Sample.from_date Sample.to_date
          (PStr "t1"), Sample.empty_second_page 1)
      (PStr "t2") (surjective_pairing _))
      as (Hout & _ & Hfiles).
    + vm_compute. reflexivity.
    + apply list_elem_of_here.
    + reflexivity.
    + split; [exact Hout|]. split; [vm_compute; reflexivity | exact Hfiles].
Defined.

(** In the second file line 125 raises whatever the batch is: [IndexError]
    on an empty one, [AttributeError] otherwise. *)
Lemma last_date_src batch :
  last_date (date_of src_copy) batch
  = match last batch with
    | None => throw (IndexError "list index out of range")
    | Some _ => throw (AttributeError "'News' object has no attribute 'date'")
    end.
Proof.
  unfold last_date, last_item. by destruct (last batch).
Qed.

Lemma paged_src_Ret creds iso srv f t hist st xs st' :
  paged (request_of creds src_copy) (fetch_result_of iso src_copy)
    (date_of src_copy) srv f t hist st xs (Ret st') ->
  xs = [] /\ st' = st.
Proof.
  inversion 1 as [| | |acc tok batch tok' d xs' out Htok Hres Hd Hrun]; subst; [done|].
  rewrite last_date_src in Hd. by destruct (last batch).
Qed.

(** C10. In the second file the class [News] has the attribute [data] and
    none called [date]. So [save_news_to_json] raises [AttributeError] on
    every list that is not empty, before it opens the file; and a run of
    [download_historical_news] that returns has made one exchange only,
    which gave no record and no token: no run that fetched a record ends
    with its file written. *)
Theorem src_copy_cannot_save_records creds D iso :
  (forall n,
     SrcCopy.getattr n "data" = ok (SrcCopy.data n) /\
     SrcCopy.getattr n "date"
     = throw (AttributeError "'News' object has no attribute 'date'")) /\
  (forall n l p w,
     SrcCopy.save_news_to_json (n :: l) p w
     = (Raise (AttributeError "'News' object has no attribute 'date'"), w)) /\
  (forall fuel f t w p w',
     SrcCopy.download_historical_news creds D iso fuel f t w = (Ret p, w') ->
     exists x0,
       exchanges w' = exchanges w ++ [x0] /\
       fetch_result_src iso (snd x0) = ok ([], PNone)).
Proof.
  split; [done|]. split; [done|].
  intros fuel f t w p w' Hdl.
  apply (download_of_run creds D iso src_copy) in Hdl. cbv zeta in Hdl.
  set (x0 := ask w (request_of creds src_copy f t PNone)) in *.
  exists x0.
  destruct (fetch_result_of iso src_copy (snd x0)) as [e|st0] eqn:Hres;
    [by destruct Hdl|].
  destruct Hdl as (xs & out1 & Hxs & Hpaged & _ & Hout).
  destruct out1 as [st|e|]; [|by destruct Hout|done].
  apply paged_src_Ret in Hpaged as [-> ->]. split; [done|].
  destruct st0 as [l tok]. simpl in *.
  destruct (is_None tok) eqn:Htok; [|by destruct Hout].
  destruct Hout as (o & Hsave & Hfin).
  destruct l as [|n l]; [by destruct tok|].
  rewrite save_src_cons in Hsave. by injection Hsave as <- <-.
Qed.

Lemma src_copy_cannot_save_records_witness :
  let w := Sample.world Sample.one_page in
  let n := SrcCopy.mk_News (PStr "a") (PStr "summary") (PStr "content")
             (PDatetime (mk_datetime 2025 4 20 10 0 0 0)) in
  SrcCopy.save_news_to_json [n] ["data"; "news.json"] w
  = (Raise (AttributeError "'News' object has no attribute 'date'"), w) /\
  fst (SrcCopy.download_historical_news Sample.creds Sample.DATA_DIR
         Sample.parse_isoformat 5 Sample.from_date Sample.to_date w)
  = Raise (AttributeError "'News' object has no attribute 'date'") /\
  files (snd (SrcCopy.download_historical_news Sample.creds Sample.DATA_DIR
                Sample.parse_isoformat 5 Sample.from_date Sample.to_date w)) = [].
Proof.
  cbv zeta. split.
  - apply (proj1 (proj2 (src_copy_cannot_save_records Sample.creds Sample.DATA_DIR
                           Sample.parse_isoformat))).
  - split; vm_compute; reflexivity.
Defined.

(** ** One call and the response it reads *)

Lemma rbind_inv {A B} (r : result A) (k : A -> result B) b :
  rbind r k = ok b -> exists a, r = ok a /\ k a = ok b.
Proof. destruct r as [e|a]; simpl; [done|]. eauto. Qed.

Lemma rmap_inv {A B} (f : A -> result B) l l' :
  rmap f l = ok l' -> Forall2 (fun y x => f x = ok y) l' l.
Proof.
  revert l'. induction l as [|x l IH]; simpl; intros l' H.
  - injection H as <-. constructor.
  - apply rbind_inv in H as (y & Hy & H).
    apply rbind_inv in H as (ys & Hys & H). injection H as <-.
    constructor; auto.
Qed.

Lemma news_of_item_fp_inv item n :
  FeaturePipeline.news_of_item item = ok n -> made_of_fp n item.
Proof.
  unfold FeaturePipeline.news_of_item, made_of_fp.
  intros (h & Hh & H)%rbind_inv. apply rbind_inv in H as (d & Hd & H).
  apply rbind_inv in H as (s & Hs & H). apply rbind_inv in H as (c & Hc & H).
  by injection H as <-.
Qed.

Lemma news_of_item_src_inv iso item n :
  SrcCopy.news_of_item iso item = ok n -> made_of_src iso n item.
Proof.
  unfold SrcCopy.news_of_item, made_of_src.
  intros (h & Hh & H)%rbind_inv. apply rbind_inv in H as (s & Hs & H).
  apply rbind_inv in H as (c & Hc & H). apply rbind_inv in H as (ts & Hts & H).
  apply rbind_inv in H as (d & Hd & H). injection H as <-. simpl.
  repeat (split; [done|]).
  unfold SrcCopy.fromisoformat in Hd. destruct ts as [| | |txt| | |]; try done.
  destruct (iso txt) as [dt|] eqn:Hiso; [|done]. injection Hd as <-.
  by exists txt, dt.
Qed.

Lemma parse_response_fp_inv r l tok :
  FeaturePipeline.parse_response r = ok (l, tok) ->
  status_code r = 200 /\
  exists items, body_of r items tok /\ Forall2 made_of_fp l items.
Proof.
  unfold FeaturePipeline.parse_response.
  destruct (Z.eqb_spec (status_code r) 200) as [Hs|]; [|done].
  intros (body & Hbody & H)%rbind_inv. apply rbind_inv in H as (tk & Htk & H).
  apply rbind_inv in H as (news & Hnews & H).
  apply rbind_inv in H as (items & Hitems & H).
  apply rbind_inv in H as (l' & Hl & H). injection H as <- <-.
  split; [done|]. exists items. split.
  - exists body, news. unfold response_json in Hbody.
    destruct (json_body r); [|done]. by injection Hbody as ->.
  - eapply Forall2_impl; [by apply rmap_inv|].
    intros n item. apply news_of_item_fp_inv.
Qed.

Lemma parse_response_src_inv iso r l tok :
  SrcCopy.parse_response iso r = ok (l, tok) ->
  status_code r = 200 ->
  exists items, body_of r items tok /\ Forall2 (made_of_src iso) l items.
Proof.
  unfold SrcCopy.parse_response. intros H Hs. rewrite Hs in H. simpl in H.
  apply rbind_inv in H as (body & Hbody & H). apply rbind_inv in H as (tk & Htk & H).
  apply rbind_inv in H as (news & Hnews & H).
  apply rbind_inv in H as (items & Hitems & H).
  apply rbind_inv in H as (l' & Hl & H). injection H as <- <-.
  exists items. split.
  - exists body, news. unfold response_json in Hbody.
    destruct (json_body r); [|done]. by injection Hbody as ->.
  - eapply Forall2_impl; [by apply rmap_inv|].
    intros n item. apply news_of_item_src_inv.
Qed.

(** C2, as stated, fails in the first file: the call below gets a 200
    response with two articles and returns two records whose [date] is the
    text of [updated_at], not a [datetime]. *)
Lemma fetch_fp_keeps_the_timestamp_text :
  let run := FeaturePipeline.fetch_batch_of_news Sample.creds Sample.from_date
               Sample.to_date PNone (Sample.world Sample.one_page) in
  exists l,
    fst run = Ret (l, PNone) /\
    map FeaturePipeline.date l
    = [PStr "2025-04-20T10:00:00Z"; PStr "2025-04-20T10:00:00Z"] /\
    ~ Forall (fun n => is_datetime (FeaturePipeline.date n)) l.
Proof.
  cbv zeta. eexists. split; [vm_compute; reflexivity|].
  split; [reflexivity|].
  intros H. apply Forall_cons_1 in H as [[d Hd] _]. discriminate Hd.
Qed.

(** C2, amended. A call of [fetch_batch_of_news] that is answered with the
    status 200 and returns, returns one record per element of the entry
    [news] of the body, in order, with the token of the body. Each record
    holds the [headline], [summary] and [content] of its element as they
    are. For the fourth field the files differ: the first stores the field
    [updated_at] in [date] as it is, without parsing it; the second stores
    in [data] the [datetime] that [fromisoformat] makes of the string
    [timestamp]. *)
Theorem fetch_maps_fields creds iso f t tok w r :
  (server w (exchanges w) (FeaturePipeline.request_for creds f t tok) = Answered r ->
   status_code r = 200 ->
   forall l tok' w',
     FeaturePipeline.fetch_batch_of_news creds f t tok w = (Ret (l, tok'), w') ->
     exists items,
       body_of r items tok' /\ length l = length items /\
       Forall2 made_of_fp l items) /\
  (server w (exchanges w) (SrcCopy.request_for creds f t tok) = Answered r ->
   status_code r = 200 ->
   forall l tok' w',
     SrcCopy.fetch_batch_of_news creds iso f t tok w = (Ret (l, tok'), w') ->
     exists items,
       body_of r items tok' /\ length l = length items /\
       Forall2 (made_of_src iso) l items /\
       Forall (fun n => is_datetime (SrcCopy.data n)) l).
Proof.
  split; intros Hans Hs l tok' w'.
  - rewrite fetch_fp_exchange, exchange_then_eq, Hans. simpl.
    destruct (FeaturePipeline.parse_response r) as [e|[l0 tok0]] eqn:Hp; [done|].
    intros [= <- <- _].
    apply parse_response_fp_inv in Hp as (_ & items & Hbody & Hall).
    exists items. split; [done|]. split; [by eapply Forall2_length | done].
  - rewrite fetch_src_exchange, exchange_then_eq, Hans. simpl.
    unfold raise_for_status. rewrite Hs. simpl.
    destruct (SrcCopy.parse_response iso r) as [e|[l0 tok0]] eqn:Hp; [done|].
    intros [= <- <- _].
    apply parse_response_src_inv in Hp as (items & Hbody & Hall); [|done].
    exists items. split; [done|]. split; [by eapply Forall2_length|].
    split; [done|].
    clear -Hall. induction Hall as [|n item l its Hn _ IH]; constructor; [|done].
    destruct Hn as (_ & _ & _ & s & d & _ & _ & Hd). by exists d.
Qed.

Lemma fetch_maps_fields_witness :
  let w := Sample.world Sample.one_page in
  let items := [Sample.article "a"; Sample.article "b"] in
  (exists l, Forall2 made_of_fp l items /\
     map FeaturePipeline.date l
     = [PStr "2025-04-20T10:00:00Z"; PStr "2025-04-20T10:00:00Z"]) /\
  (exists l, Forall2 (made_of_src Sample.parse_isoformat) l items /\
     map SrcCopy.data l
     = [PDatetime (mk_datetime 2025 4 20 10 0 0 0);
        PDatetime (mk_datetime 2025 4 20 10 0 0 0)]).
Proof.
  cbv zeta.
  pose proof (fetch_maps_fields Sample.creds Sample.parse_isoformat
                Sample.from_date Sample.to_date PNone
                (Sample.world Sample.one_page)
                (mk_Response 200 "OK" "" ""
                   (Some (Sample.body [Sample.article "a"; Sample.article "b"] PNone))))
    as [Hfp Hsrc].
  split.
  - destruct (Hfp eq_refl eq_refl _ _ _ eq_refl) as (items & Hbody & _ & Hall).
    destruct Hbody as (body & news & Hb & _ & Hn & Hi).
    injection Hb as <-. injection Hn as <-. injection Hi as <-.
    eexists. split; [exact Hall | reflexivity].
  - destruct (Hsrc eq_refl eq_refl _ _ _ eq_refl) as (items & Hbody & _ & Hall & _).
    destruct Hbody as (body & news & Hb & _ & Hn & Hi).
    injection Hb as <-. injection Hn as <-. injection Hi as <-.
    eexists. split; [exact Hall | reflexivity].
Defined.

(** ** The loop against a scripted server *)

Lemma last_date_fp (batch : list FeaturePipeline.News) :
  batch <> [] ->
  exists d, last_date (fun n => FeaturePipeline.getattr n "date") batch = inr d.
Proof.
  intros Hne. unfold last_date, last_item.
  destruct (last batch) as [n|] eqn:Hlast; [by eexists|].
  by apply last_None in Hlast.
Qed.

Lemma first_without_token (page : nat -> pyval) n :
  (exists k, (k < n)%nat /\ page k = PNone /\
             forall i, (i < k)%nat -> page i <> PNone) \/
  (forall k, (k < n)%nat -> page k <> PNone).
Proof.
  induction n as [|n [(k & Hk & Hnone & Hfirst)|Hall]].
  - right. lia.
  - left. exists k. split; [lia | done].
  - destruct (is_None (page n)) eqn:Hn.
    + left. exists n. split; [lia|]. split; [by destruct (page n) | done].
    + right. intros k Hk. destruct (decide (k = n)) as [->|]; [|apply Hall; lia].
      intros Heq. by rewrite Heq in Hn.
Qed.

Section Scripted.
Variable creds : credentials.
Variable D : Path.
Variables f t : datetime.
Variable resp : nat -> HttpResult.
Variable page : nat -> list FeaturePipeline.News * pyval.
Hypothesis every_fetch_returns : forall i, fetch_result_fp (resp i) = ok (page i).
Hypothesis later_pages_hold_records : forall i, (1 <= i)%nat -> fst (page i) <> [].

Abbreviation passes_fp :=
  (Downloader.passes (FeaturePipeline.fetch_batch_of_news creds)
     (date_of feature_pipeline)).

(** From the page [i], while the tokens last: [n] passes fetch the pages up
    to [i + n]; further passes do nothing if that page has no token. *)
Lemma passes_scripted n : forall m acc i w,
  server w = scripted resp ->
  length (exchanges w) = S i ->
  (forall j, (i <= j < i + n)%nat -> snd (page j) <> PNone) ->
  m = O \/ snd (page (i + n)) = PNone ->
  exists acc' xs,
    passes_fp (n + m) f t (acc, snd (page i)) w
    = (Ret (acc', snd (page (i + n))), with_exchanges xs w) /\
    length xs = n.
Proof.
  induction n as [|n IH]; intros m acc i w Hsrv Hlen Htok Hend.
  - exists acc, []. rewrite Nat.add_0_r in *. rewrite with_exchanges_nil.
    split; [|done]. destruct Hend as [->|Hnone]; [done|].
    destruct m; [done|]. simpl. by rewrite Hnone.
  - assert (Hi : is_None (snd (page i)) = false).
    { specialize (Htok i ltac:(lia)). by destruct (snd (page i)). }
    change (S n + m)%nat with (S (n + m)).
    cbn [Downloader.passes snd]. rewrite Hi. unfold bind.
    rewrite (loop_body_eq _ _ _ _ (fetch_fp_exchange creds)).
    unfold sent. rewrite Hsrv. unfold scripted. rewrite Hlen.
    cbn [snd]. rewrite every_fetch_returns. unfold ok.
    destruct (page (S i)) as [batch tok'] eqn:Hpage.
    change (date_of feature_pipeline) with (fun n => FeaturePipeline.getattr n "date").
    destruct (last_date_fp batch) as [d ->].
    { specialize (later_pages_hold_records (S i) ltac:(lia)).
      by rewrite Hpage in later_pages_hold_records. }
    set (x := (FeaturePipeline.request_for creds f t (snd (page i)), resp (S i))).
    destruct (IH m (acc ++ batch) (S i) (with_exchanges [x] w))
      as (acc' & xs & Hrun & Hxs).
    + done.
    + simpl. rewrite length_app, Hlen. simpl. lia.
    + intros j Hj. apply Htok. lia.
    + destruct Hend as [->|Hnone]; [by left | right].
      by replace (S i + n)%nat with (i + S n)%nat by lia.
    + exists acc', (x :: xs). rewrite Hpage in Hrun. simpl in Hrun.
      replace (i + S n)%nat with (S (i + n)) by lia.
      rewrite with_exchanges_cons in Hrun. split; [exact Hrun | simpl; lia].
Qed.

(** The first page, then the loop, from a world without exchanges. *)
Lemma pagination_scripted n m writable files0 :
  (forall j, (j < n)%nat -> snd (page j) <> PNone) ->
  m = O \/ snd (page n) = PNone ->
  exists acc xs,
    pagination_of creds (fun _ => None) feature_pipeline (n + m) f t
      (mk_World (scripted resp) writable [] files0)
    = (Ret (acc, snd (page n)), mk_World (scripted resp) writable xs files0) /\
    length xs = S n.
Proof.
  intros Htok Hend. unfold pagination_of, Downloader.pagination, bind. simpl.
  rewrite fetch_fp_exchange, exchange_then_eq. simpl. unfold scripted at 1 3.
  simpl. rewrite every_fetch_returns. simpl.
  destruct (page 0) as [batch tok0] eqn:Hpage0.
  set (x0 := (FeaturePipeline.request_for creds f t PNone, resp 0)).
  set (w1 := with_exchanges [x0] (mk_World (scripted resp) writable [] files0)).
  destruct (passes_scripted n m batch 0 w1) as (acc & xs & Hrun & Hxs); try done.
  - intros j Hj. apply Htok. lia.
  - rewrite Hpage0 in Hrun. simpl in Hrun. exists acc, (x0 :: xs).
    split; [|simpl; lia]. exact Hrun.
Qed.

End Scripted.

Lemma save_fp_not_OutOfFuel l p w w' :
  FeaturePipeline.save_news_to_json l p w <> (OutOfFuel, w').
Proof.
  rewrite save_fp_eq. unfold dump_to_file.
  destruct (writable w p); [|done]. by destruct (encode 0 _) as [txt [|]].
Qed.

(** With the tokens of the pages before [n] present, a run with fuel
    [n + m] has made [n + 1] exchanges when it stops, and it stops for want
    of fuel exactly when the page [n] has a token too. *)
Lemma download_scripted creds D f t resp page n m writable files0 :
  (forall i, fetch_result_fp (resp i) = ok (page i)) ->
  (forall i, (1 <= i)%nat -> fst (page i) <> []) ->
  (forall j, (j < n)%nat -> snd (page j) <> PNone) ->
  m = O \/ snd (page n) = PNone ->
  let r := FeaturePipeline.download_historical_news creds D (n + m) f t
             (mk_World (scripted resp) writable [] files0) in
  length (exchanges (snd r)) = S n /\
  (fst r = OutOfFuel <-> snd (page n) <> PNone).
Proof.
  intros Hok Hne Htok Hend. cbv zeta.
  change (FeaturePipeline.download_historical_news creds D)
    with (download_of creds D (fun _ => None) feature_pipeline).
  rewrite download_of_cases.
  destruct (pagination_scripted creds f t resp page Hok Hne n m writable files0 Htok Hend)
    as (acc & xs & -> & Hxs).
  cbn [fst snd]. destruct (is_None (snd (page n))) eqn:Hn.
  - cbv zeta. destruct (save_of _ _ _ _) as [o w2] eqn:Hsave.
    assert (Hex : exchanges w2 = xs)
      by apply (save_of_exchanges _ _ _ _ _ _ Hsave).
    assert (Hnone : snd (page n) = PNone) by (by destruct (snd (page n))).
    destruct o as [[]|e|]; simpl; rewrite ?Hex.
    + split; [done|]. by split.
    + split; [done|]. by split.
    + by apply save_fp_not_OutOfFuel in Hsave.
  - simpl. split; [done|]. split; [|done]. intros _ Heq. by rewrite Heq in Hn.
Qed.

(** C4, as stated, fails: the third answer of this server is a page
    without token, but the second has the status 500. The loop ends at the
    second exchange, with the [RuntimeError] of the fetch; it has fetched
    one page, which carries a token, and never asks for the third. *)
Lemma loop_ends_before_the_page_without_token :
  let w := Sample.world Sample.error_on_second_page in
  let run := FeaturePipeline.download_historical_news Sample.creds Sample.DATA_DIR
               5 Sample.from_date Sample.to_date w in
  (exists l, fetch_result_fp (Sample.error_on_second_page 2) = ok (l, PNone)) /\
  fst run = Raise (RuntimeError "Failed to fetch news: 500 - try later") /\
  length (exchanges (snd run)) = 2%nat /\
  forall x page,
    x ∈ exchanges (snd run) -> fetch_result_fp (snd x) = ok page ->
    snd page <> PNone.
Proof.
  cbv zeta. split; [by eexists|]. split; [vm_compute; reflexivity|].
  split; [vm_compute; reflexivity|].
  intros x page Hin. vm_compute in Hin.
  apply elem_of_cons in Hin as [->|Hin].
  - intros [= <-]. discriminate.
  - apply list_elem_of_singleton in Hin as ->. discriminate.
Qed.

(** C4, amended, for the first file. Take a server that answers by a
    script in which every answer is a page that the fetch returns, and every
    page after the first holds a record. Then:
    - if the page [k] is the first without token, a run with fuel for [k]
      passes or more ends at that page, after [k + 1] exchanges, and a run
      with less fuel is still in the loop when its fuel is spent;
    - if every page has a token, the loop uses up any fuel it is given: it
      never ends, each unit of fuel buying one more exchange;
    - so the loop ends, given enough fuel, exactly when some page has no
      token. *)
Theorem loop_ends_at_first_page_without_token creds D f t resp page writable files0 :
  (forall i, fetch_result_fp (resp i) = ok (page i)) ->
  (forall i, (1 <= i)%nat -> fst (page i) <> []) ->
  let w := mk_World (scripted resp) writable [] files0 in
  let run fuel := FeaturePipeline.download_historical_news creds D fuel f t w in
  (forall k,
     snd (page k) = PNone ->
     (forall i, (i < k)%nat -> snd (page i) <> PNone) ->
     (forall fuel, (k <= fuel)%nat ->
        fst (run fuel) <> OutOfFuel /\ length (exchanges (snd (run fuel))) = S k) /\
     (forall fuel, (fuel < k)%nat -> fst (run fuel) = OutOfFuel)) /\
  ((forall i, snd (page i) <> PNone) ->
   forall fuel,
     fst (run fuel) = OutOfFuel /\ length (exchanges (snd (run fuel))) = S fuel) /\
  ((exists fuel, fst (run fuel) <> OutOfFuel) <-> exists k, snd (page k) = PNone).
Proof.
  intros Hok Hne. cbv zeta.
  assert (Hat : forall k,
    snd (page k) = PNone ->
    (forall i, (i < k)%nat -> snd (page i) <> PNone) ->
    (forall fuel, (k <= fuel)%nat ->
       fst (FeaturePipeline.download_historical_news creds D fuel f t
              (mk_World (scripted resp) writable [] files0)) <> OutOfFuel /\
       length (exchanges (snd (FeaturePipeline.download_historical_news creds D fuel f t
              (mk_World (scripted resp) writable [] files0)))) = S k) /\
    (forall fuel, (fuel < k)%nat ->
       fst (FeaturePipeline.download_historical_news creds D fuel f t
              (mk_World (scripted resp) writable [] files0)) = OutOfFuel)).
  { intros k Hk Hfirst. split.
    - intros fuel Hfuel.
      destruct (download_scripted creds D f t resp page k (fuel - k) writable files0
                  Hok Hne Hfirst (or_intror Hk)) as [Hlen Hout].
      replace (k + (fuel - k))%nat with fuel in * by lia.
      split; [|done]. intros Hof. by apply Hout in Hof.
    - intros fuel Hfuel.
      destruct (download_scripted creds D f t resp page fuel 0 writable files0
                  Hok Hne) as [_ Hout]; [intros j Hj; apply Hfirst; lia | by left |].
      rewrite Nat.add_0_r in Hout. apply Hout, Hfirst, Hfuel. }
  split; [exact Hat|]. split.
  - intros Hall fuel.
    destruct (download_scripted creds D f t resp page fuel 0 writable files0
                Hok Hne) as [Hlen Hout]; [by intros | by left |].
    rewrite Nat.add_0_r in *. split; [by apply Hout | done].
  - split.
    + intros [fuel Hfuel].
      destruct (first_without_token (fun k => snd (page k)) (S fuel))
        as [(k & _ & Hk & _)|Hall]; [by exists k|].
      destruct (download_scripted creds D f t resp page fuel 0 writable files0
                  Hok Hne) as [_ Hout]; [intros j Hj; apply Hall; lia | by left |].
      rewrite Nat.add_0_r in Hout. exfalso. apply Hfuel, Hout, Hall. lia.
    + intros [k Hk].
      destruct (first_without_token (fun k => snd (page k)) (S k))
        as [(k0 & _ & Hk0 & Hfirst)|Hall]; [|by destruct (Hall k ltac:(lia))].
      exists k0. by apply (proj1 (Hat k0 Hk0 Hfirst) k0).
Qed.

Lemma loop_ends_at_first_page_without_token_witness :
  let run resp fuel :=
    FeaturePipeline.download_historical_news Sample.creds Sample.DATA_DIR fuel
      Sample.from_date Sample.to_date (Sample.world resp) in
  (fst (run Sample.two_pages 7%nat) <> OutOfFuel /\
   length (exchanges (snd (run Sample.two_pages 7%nat))) = 2%nat /\
   fst (run Sample.two_pages 0%nat) = OutOfFuel) /\
  (fst (run Sample.endless 40%nat) = OutOfFuel /\
   length (exchanges (snd (run Sample.endless 40%nat))) = 41%nat).
Proof.
  cbv zeta.
  set (page_of := fun (resp : nat -> HttpResult) i =>
         match fetch_result_fp (resp i) with
         | inr p => p
         | inl _ => ([], PNone)
         end).
  split.
  - destruct (loop_ends_at_first_page_without_token Sample.creds Sample.DATA_DIR
                Sample.from_date Sample.to_date Sample.two_pages
                (page_of Sample.two_pages) (fun _ => true) [])
      as [Hat _].
    + by intros [|i].
    + intros [|i] Hi; [lia | done].
    + destruct (Hat 1%nat) as [Hends Hbefore].
      * reflexivity.
      * intros [|i] Hi; [done | lia].
      * destruct (Hends 7%nat ltac:(lia)) as [Hout Hlen].
        split; [exact Hout|]. split; [exact Hlen|]. apply Hbefore. lia.
  - destruct (loop_ends_at_first_page_without_token Sample.creds Sample.DATA_DIR
                Sample.from_date Sample.to_date Sample.endless
                (page_of Sample.endless) (fun _ => true) [])
      as (_ & Hnever & _).
    + done.
    + done.
    + apply Hnever. done.
Defined.

(** ** The text of a value reads back *)

Lemma skip_ws_start c s : is_ws c = false -> skip_ws (String c s) = String c s.
Proof. intros H. simpl. by rewrite H. Qed.

Lemma skip_ws_spaces n s : skip_ws (spaces n +:+ s) = skip_ws s.
Proof. induction n as [|n IH]; [done|]. simpl spaces. by rewrite string_app_cons. Qed.

Lemma skip_ws_newline_indent lvl s : skip_ws (newline_indent lvl +:+ s) = skip_ws s.
Proof.
  unfold newline_indent. rewrite string_app_cons. simpl. apply skip_ws_spaces.
Qed.

Lemma scan_string_escape_char c tail :
  scan_string (escape_char c +:+ tail)
  = match scan_string tail with
    | Some (txt, r) => Some (String c txt, r)
    | None => None
    end.
Proof.
  destruct c as [[] [] [] [] [] [] [] []]; reflexivity.
Qed.

Lemma scan_string_escape s rest :
  scan_string (escape s +:+ String dquote rest) = Some (s, rest).
Proof.
  induction s as [|c s IH]; [done|].
  simpl escape. by rewrite string_app_assoc, scan_string_escape_char, IH.
Qed.

Lemma read_digits_stop rest :
  ends_number rest = true -> read_digits rest = (Nil, rest).
Proof.
  destruct rest as [|c rest]; [done|]. simpl. by destruct (digit_of c).
Qed.

Lemma read_digits_uint u rest :
  ends_number rest = true ->
  read_digits (NilEmpty.string_of_uint u +:+ rest) = (u, rest).
Proof.
  intros Hrest.
  induction u as [|u IH|u IH|u IH|u IH|u IH|u IH|u IH|u IH|u IH|u IH];
    [by apply read_digits_stop|..];
    simpl NilEmpty.string_of_uint; rewrite string_app_cons;
    cbn [read_digits]; by rewrite IH.
Qed.

(** The decimal text of a positive number starts with a digit that is not
    [0]. *)
Lemma to_uint_head p : forall u, Pos.to_uint p <> D0 u.
Proof.
  intros u Hp.
  assert (Hnorm : unorm (Pos.to_uint p) = Pos.to_uint p).
  { rewrite <- (DecimalPos.Unsigned.to_of (Pos.to_uint p)).
    by rewrite DecimalPos.Unsigned.of_to. }
  rewrite Hp in Hnorm. unfold unorm in Hnorm. simpl in Hnorm.
  destruct (nzhead u) as [|u0|u0|u0|u0|u0|u0|u0|u0|u0|u0] eqn:Hu;
    try discriminate Hnorm.
  - injection Hnorm as <-. by apply (DecimalPos.Unsigned.to_uint_nonzero p).
  - by apply (nzhead_nonzero u u0).
Qed.

Lemma scan_natural_digits c s :
  Ascii.eqb c "0" = false -> is_Some (digit_of c) ->
  scan_natural (String c s)
  = let (u, r) := read_digits (String c s) in Some (Z.of_uint u, r).
Proof.
  unfold scan_natural. intros -> [d Hd]. by rewrite Hd.
Qed.

Lemma scan_natural_pos p rest :
  ends_number rest = true ->
  scan_natural (NilEmpty.string_of_uint (Pos.to_uint p) +:+ rest)
  = Some (Z.pos p, rest).
Proof.
  intros Hrest.
  assert (Hval : Z.of_uint (Pos.to_uint p) = Z.pos p).
  { unfold Z.of_uint. by rewrite DecimalPos.Unsigned.of_to. }
  pose proof (to_uint_head p) as Hhead.
  pose proof (read_digits_uint (Pos.to_uint p) rest Hrest) as Hread.
  destruct (Pos.to_uint p) as [|u|u|u|u|u|u|u|u|u|u] eqn:Hp;
    [by apply DecimalPos.Unsigned.to_uint_nonnil in Hp | by destruct (Hhead u) |..];
    simpl NilEmpty.string_of_uint in *; rewrite string_app_cons in *;
    (rewrite scan_natural_digits by (done || by eexists));
    rewrite Hread; by rewrite Hval.
Qed.

Lemma ends_number_no_float rest :
  ends_number rest = true -> float_follows rest = false.
Proof.
  destruct rest as [|c rest]; [done|]. unfold ends_number.
  destruct (digit_of c); [done|]. by destruct (float_follows _).
Qed.

Lemma uint_text_head u :
  u <> Nil ->
  exists c s, NilEmpty.string_of_uint u = String c s /\
              starts_number c = true /\ Ascii.eqb c "-" = false.
Proof. destruct u; [done|..]; intros _; by eexists _, _. Qed.

Lemma str_int_head z :
  exists c s, str_int z = String c s /\ starts_number c = true.
Proof.
  destruct z as [|p|p]; [by exists "0"%char, "" | |by eexists "-"%char, _].
  unfold str_int. simpl.
  destruct (uint_text_head (Pos.to_uint p)) as (c & s & Hs & Hc & _);
    [apply DecimalPos.Unsigned.to_uint_nonnil|].
  exists c, s. split; [|done].
  unfold NilZero.string_of_uint. rewrite <- Hs. by destruct (Pos.to_uint p).
Qed.

Lemma str_int_pos p :
  str_int (Z.pos p) = NilEmpty.string_of_uint (Pos.to_uint p).
Proof.
  unfold str_int. simpl. unfold NilZero.string_of_uint.
  pose proof (DecimalPos.Unsigned.to_uint_nonnil p). by destruct (Pos.to_uint p).
Qed.

Lemma str_int_neg p :
  str_int (Z.neg p) = String "-" (NilEmpty.string_of_uint (Pos.to_uint p)).
Proof.
  unfold str_int. simpl. unfold NilZero.string_of_uint.
  pose proof (DecimalPos.Unsigned.to_uint_nonnil p). by destruct (Pos.to_uint p).
Qed.

Lemma scan_number_int z rest :
  ends_number rest = true ->
  scan_number (str_int z +:+ rest) = Some (PInt z, rest).
Proof.
  intros Hrest. pose proof (ends_number_no_float rest Hrest) as Hfloat.
  destruct z as [|p|p].
  - change (str_int 0 +:+ rest) with (String "0" rest).
    unfold scan_number. simpl. by rewrite Hfloat.
  - rewrite str_int_pos.
    pose proof (scan_natural_pos p rest Hrest) as Hnat.
    destruct (uint_text_head (Pos.to_uint p)) as (c & s & Hs & _ & Hc);
      [apply DecimalPos.Unsigned.to_uint_nonnil|].
    rewrite Hs in *. rewrite string_app_cons in *.
    unfold scan_number. rewrite Hc, Hnat. by rewrite Hfloat.
  - rewrite str_int_neg, string_app_cons. unfold scan_number.
    change (Ascii.eqb "-" "-") with true. cbv iota.
    rewrite (scan_natural_pos p rest Hrest). by rewrite Hfloat.
Qed.

Lemma scan_value_number fuel c s :
  starts_number c = true ->
  scan_value (S fuel) (String c s) = scan_number (String c s).
Proof.
  destruct c as [[] [] [] [] [] [] [] []]; intros H; vm_compute in H;
    try discriminate H; reflexivity.
Qed.

Lemma scan_value_int fuel z rest :
  ends_number rest = true ->
  scan_value (S fuel) (str_int z +:+ rest) = Some (PInt z, rest).
Proof.
  intros Hrest. rewrite <- (scan_number_int z rest Hrest).
  destruct (str_int_head z) as (c & s & -> & Hc).
  rewrite string_app_cons. by apply scan_value_number.
Qed.

Lemma existsb_eqb_elem_of k (l : list string) :
  existsb (String.eqb k) l = false <-> k ∉ l.
Proof.
  induction l as [|x l IH]; simpl.
  - split; [intros _; apply not_elem_of_nil | done].
  - rewrite not_elem_of_cons, orb_false_iff, IH, String.eqb_neq. tauto.
Qed.

Lemma distinct_NoDup l : distinct l = true <-> NoDup l.
Proof.
  induction l as [|k l IH]; simpl; [split; [constructor | done]|].
  rewrite NoDup_cons, andb_true_iff, negb_true_iff, existsb_eqb_elem_of. tauto.
Qed.

Lemma dict_set_fresh k v d :
  k ∉ map fst d -> dict_set k v d = d ++ [(k, v)].
Proof.
  induction d as [|[k' v'] d IH]; simpl; [done|].
  rewrite not_elem_of_cons. intros [Hne Hd].
  apply String.eqb_neq in Hne. by rewrite Hne, IH.
Qed.

Lemma dict_of_pairs_distinct d :
  distinct (map fst d) = true -> dict_of_pairs d = d.
Proof.
  intros Hd%distinct_NoDup. unfold dict_of_pairs.
  enough (forall acc, NoDup (map fst (acc ++ d)) ->
            fold_left (fun d kv => dict_set (fst kv) (snd kv) d) d acc = acc ++ d)
    as Hgen by (by apply (Hgen [])).
  clear Hd. induction d as [|[k v] d IH]; intros acc Hnd; simpl.
  - by rewrite app_nil_r.
  - rewrite dict_set_fresh.
    + rewrite IH; [by rewrite <- app_assoc|]. by rewrite <- app_assoc.
    + rewrite map_app in Hnd. simpl in Hnd.
      apply NoDup_app in Hnd as (_ & Hdisj & _).
      intros Hin. apply (Hdisj k Hin). apply list_elem_of_here.
Qed.

Lemma and_then_ok a b :
  snd (a >+ b) = true ->
  snd a = true /\ snd b = true /\ fst (a >+ b) = fst a +:+ fst b.
Proof.
  unfold and_then. destruct (snd a) eqn:Ha; simpl; [by intros ->|].
  intros Hb. congruence.
Qed.

Lemma encode_items_ok {A} (enc : A -> emitted) sep x l :
  snd (encode_items enc sep (x :: l)) = true ->
  snd (enc x) = true /\ snd (encode_more enc sep l) = true /\
  fst (encode_items enc sep (x :: l)) = fst (enc x) +:+ fst (encode_more enc sep l).
Proof. apply and_then_ok. Qed.

Lemma encode_more_ok {A} (enc : A -> emitted) sep y l :
  snd (encode_more enc sep (y :: l)) = true ->
  snd (encode_items enc sep (y :: l)) = true /\
  fst (encode_more enc sep (y :: l)) = sep +:+ fst (encode_items enc sep (y :: l)).
Proof.
  cbn [encode_more encode_items]. unfold and_then, emit. cbn [fst snd].
  destruct (enc y) as [ty [|]]; cbn [fst snd]; [|done].
  destruct (encode_more enc sep l) as [tm bm]; cbn [fst snd].
  intros ->. split; [done|]. by rewrite string_app_assoc.
Qed.

Lemma starts_number_value c : starts_number c = true -> starts_value c = true.
Proof.
  destruct c as [[] [] [] [] [] [] [] []]; intros H; vm_compute in H;
    try discriminate H; reflexivity.
Qed.

(** The text of a value starts with a character of the value. *)
Lemma encode_start lvl v :
  snd (encode lvl v) = true ->
  exists c s, fst (encode lvl v) = String c s /\ starts_value c = true.
Proof.
  destruct v as [|[|]|z|txt|[|x l]|[|kv d]|t]; cbn [encode].
  - by exists "n"%char, "ull".
  - by exists "t"%char, "rue".
  - by exists "f"%char, "alse".
  - intros _. destruct (str_int_head z) as (c & s & Hs & Hc).
    exists c, s. split; [exact Hs|]. by apply starts_number_value.
  - by exists dquote, (escape txt +:+ String dquote "").
  - by exists "["%char, "]".
  - intros (H1 & _ & ->)%and_then_ok. apply and_then_ok in H1 as (_ & _ & ->).
    cbn [fst emit]. rewrite !string_app_cons. by eexists "["%char, _.
  - by exists "{"%char, "}".
  - intros (H1 & _ & ->)%and_then_ok. apply and_then_ok in H1 as (_ & _ & ->).
    cbn [fst emit]. rewrite !string_app_cons. by eexists "{"%char, _.
  - discriminate.
Qed.

Lemma starts_value_not_ws c : starts_value c = true -> is_ws c = false.
Proof.
  unfold starts_value. rewrite !andb_true_iff, !negb_true_iff. tauto.
Qed.

Lemma scan_elements_items lvl l :
  Forall reads_back l ->
  forall x fuel rest,
    reads_back x ->
    snd (encode_items (encode (S lvl)) ("," +:+ newline_indent (S lvl)) (x :: l)) = true ->
    forallb well_formed (x :: l) = true ->
    (sum_list_with (fun y => S (weight y)) (x :: l) <= fuel)%nat ->
    scan_elements fuel
      (fst (encode_items (encode (S lvl)) ("," +:+ newline_indent (S lvl)) (x :: l))
       +:+ newline_indent lvl +:+ String "]" rest)
    = Some (x :: l, rest).
Proof.
  induction 1 as [|y l Hy _ IH]; intros x fuel rest Hx Henc Hwf Hfuel.
  - apply encode_items_ok in Henc as (Hex & _ & ->).
    simpl in Hwf, Hfuel. apply andb_true_iff in Hwf as [Hwx _].
    destruct fuel as [|fuel]; [lia|]. cbn [scan_elements].
    rewrite string_app_assoc. simpl encode_more. cbn [fst emit].
    rewrite string_app_nil_l, (Hx (S lvl) fuel _ Hex Hwx); [|lia|done].
    by rewrite skip_ws_newline_indent.
  - apply encode_items_ok in Henc as (Hex & Hmore & ->).
    apply encode_more_ok in Hmore as (Hitems & ->).
    cbn [forallb] in Hwf. apply andb_true_iff in Hwf as [Hwx Hwf].
    cbn [sum_list_with] in Hfuel.
    destruct fuel as [|fuel]; [lia|]. cbn [scan_elements].
    rewrite !string_app_assoc, string_app_cons, string_app_nil_l.
    rewrite (Hx (S lvl) fuel _ Hex Hwx); [|lia|done].
    rewrite (skip_ws_start ",") by done.
    change (Ascii.eqb "," ",") with true. cbv iota.
    rewrite skip_ws_newline_indent.
    destruct (encode_start (S lvl) y) as (c & s & Hs & Hc).
    { by apply encode_items_ok in Hitems as (? & _). }
    assert (Hhead : exists s',
      fst (encode_items (encode (S lvl)) ("," +:+ newline_indent (S lvl)) (y :: l))
      = String c s').
    { apply encode_items_ok in Hitems as (_ & _ & ->). rewrite Hs.
      rewrite string_app_cons. by eexists. }
    destruct Hhead as [s' Hs'].
    specialize (IH y fuel rest Hy Hitems Hwf ltac:(simpl in *; lia)).
    rewrite Hs' in *. rewrite string_app_cons in *.
    rewrite skip_ws_start by (by apply starts_value_not_ws).
    by rewrite IH.
Qed.

(** Texts are compared with their appends nested to the right and their
    literal parts unfolded. *)
Ltac norm_text :=
  repeat first [ rewrite string_app_cons | rewrite string_app_assoc
               | rewrite string_app_nil_l | rewrite string_app_nil_r ].

Ltac norm_text_in H :=
  repeat first [ rewrite string_app_cons in H | rewrite string_app_assoc in H
               | rewrite string_app_nil_l in H | rewrite string_app_nil_r in H ].

Lemma encode_member_ok lvl k v :
  snd (encode_member lvl (k, v)) = true ->
  snd (encode lvl v) = true /\
  fst (encode_member lvl (k, v))
  = String dquote (escape k +:+ String dquote (": " +:+ fst (encode lvl v))).
Proof.
  unfold encode_member. intros (_ & Hv & ->)%and_then_ok. split; [done|].
  cbn [fst snd emit]. unfold encode_str. by norm_text.
Qed.

Lemma scan_members_items lvl d :
  Forall (fun kv => reads_back (snd kv)) d ->
  forall kv fuel rest,
    reads_back (snd kv) ->
    snd (encode_items (encode_member (S lvl)) ("," +:+ newline_indent (S lvl)) (kv :: d))
    = true ->
    forallb (fun kv => well_formed (snd kv)) (kv :: d) = true ->
    (sum_list_with (fun kv => S (weight (snd kv))) (kv :: d) <= fuel)%nat ->
    scan_members fuel
      (fst (encode_items (encode_member (S lvl)) ("," +:+ newline_indent (S lvl)) (kv :: d))
       +:+ newline_indent lvl +:+ String "}" rest)
    = Some (kv :: d, rest).
Proof.
  induction 1 as [|kv' d Hkv' _ IH]; intros [k v] fuel rest Hv Henc Hwf Hfuel.
  - apply encode_items_ok in Henc as (Hex & _ & ->).
    apply encode_member_ok in Hex as [Hev ->].
    cbn [forallb snd] in Hwf. apply andb_true_iff in Hwf as [Hwv _].
    simpl in Hfuel. cbn [snd] in Hv.
    destruct fuel as [|fuel]; [lia|].
    cbn [encode_more fst emit]. norm_text. cbn [scan_members].
    change (Ascii.eqb dquote dquote) with true. cbv iota.
    rewrite scan_string_escape.
    rewrite (skip_ws_start ":") by done.
    change (Ascii.eqb ":" ":") with true. cbv iota.
    destruct (encode_start (S lvl) v Hev) as (c & s & Hs & Hc).
    specialize (Hv (S lvl) fuel (newline_indent lvl +:+ String "}" rest)
                  Hev Hwv ltac:(lia) eq_refl).
    rewrite Hs in *. rewrite string_app_cons in *.
    change (skip_ws (String " " (String c (s +:+ newline_indent lvl +:+ String "}" rest))))
      with (skip_ws (String c (s +:+ newline_indent lvl +:+ String "}" rest))).
    rewrite skip_ws_start by (by apply starts_value_not_ws).
    rewrite Hv, skip_ws_newline_indent. reflexivity.
  - apply encode_items_ok in Henc as (Hex & Hmore & ->).
    apply encode_member_ok in Hex as [Hev ->].
    apply encode_more_ok in Hmore as (Hitems & ->).
    cbn [forallb snd] in Hwf. apply andb_true_iff in Hwf as [Hwv Hwf].
    simpl in Hfuel. cbn [snd] in Hv.
    destruct fuel as [|fuel]; [lia|].
    destruct kv' as [k' v'].
    assert (Hhead : exists s',
      fst (encode_items (encode_member (S lvl)) ("," +:+ newline_indent (S lvl))
             ((k', v') :: d))
      = String dquote s').
    { apply encode_items_ok in Hitems as (Hm & _ & ->).
      apply encode_member_ok in Hm as [_ ->]. rewrite string_app_cons. by eexists. }
    destruct Hhead as [s' Hs'].
    specialize (IH (k', v') fuel rest Hkv' Hitems Hwf ltac:(simpl in *; lia)).
    rewrite Hs' in *. norm_text_in IH. norm_text. cbn [scan_members].
    change (Ascii.eqb dquote dquote) with true. cbv iota.
    rewrite scan_string_escape.
    rewrite (skip_ws_start ":") by done.
    change (Ascii.eqb ":" ":") with true. cbv iota.
    destruct (encode_start (S lvl) v Hev) as (c & s & Hs & Hc).
    specialize (Hv (S lvl) fuel
      (String "," (newline_indent (S lvl) +:+ String dquote
                     (s' +:+ newline_indent lvl +:+ String "}" rest)))
      Hev Hwv ltac:(lia) eq_refl).
    rewrite Hs in *. rewrite string_app_cons in *.
    match goal with
    | |- context [skip_ws (String " " ?r)] =>
        change (skip_ws (String " " r)) with (skip_ws r)
    end.
    rewrite skip_ws_start by (by apply starts_value_not_ws).
    rewrite Hv.
    rewrite (skip_ws_start ",") by done.
    change (Ascii.eqb "," ",") with true. cbv iota.
    rewrite skip_ws_newline_indent, skip_ws_start by done.
    by rewrite IH.
Qed.

(** Every value that the encoder serialises reads back. *)
Lemma encode_reads_back v : reads_back v.
Proof.
  induction v as [|b|z|txt|l IH|d IH|t] using pyval_ind;
    intros lvl fuel rest Henc Hwf Hfuel Hrest;
    (destruct fuel as [|fuel]; [simpl in Hfuel; lia|]).
  - reflexivity.
  - by destruct b.
  - by apply scan_value_int.
  - cbn [encode fst emit]. unfold encode_str. norm_text. cbn [scan_value].
    change (Ascii.eqb dquote dquote) with true. cbv iota.
    by rewrite scan_string_escape.
  - destruct l as [|x l]; [reflexivity|].
    apply Forall_cons in IH as [Hx Hl].
    cbn [encode] in Henc |- *.
    apply and_then_ok in Henc as (Hopen & _ & ->).
    apply and_then_ok in Hopen as (_ & Hitems & ->).
    cbn [fst emit]. cbn [weight] in Hfuel. cbn [well_formed] in Hwf.
    destruct (encode_start (S lvl) x) as (c & s & Hs & Hc).
    { by apply encode_items_ok in Hitems as (? & _). }
    assert (Hhead : exists s',
      fst (encode_items (encode (S lvl)) ("," +:+ newline_indent (S lvl)) (x :: l))
      = String c s').
    { apply encode_items_ok in Hitems as (_ & _ & ->). rewrite Hs.
      rewrite string_app_cons. by eexists. }
    destruct Hhead as [s' Hs'].
    pose proof (scan_elements_items lvl l Hl x fuel rest Hx Hitems Hwf
                  ltac:(lia)) as Hscan.
    rewrite Hs' in *. norm_text. norm_text_in Hscan. cbn [scan_value].
    change (Ascii.eqb "[" dquote) with false.
    change (Ascii.eqb "[" "{") with false.
    change (Ascii.eqb "[" "[") with true. cbv iota.
    rewrite skip_ws_newline_indent.
    rewrite skip_ws_start by (by apply starts_value_not_ws).
    unfold starts_value in Hc. rewrite !andb_true_iff, !negb_true_iff in Hc.
    destruct Hc as [[_ Hc] _]. rewrite Hc. by rewrite Hscan.
  - destruct d as [|[k v] d]; [reflexivity|].
    apply Forall_cons in IH as [Hv Hd].
    cbn [encode] in Henc |- *.
    change (fun kv : string * pyval =>
              emit (encode_str (fst kv) +:+ ": ") >+ encode (S lvl) (snd kv))
      with (encode_member (S lvl)) in *.
    apply and_then_ok in Henc as (Hopen & _ & ->).
    apply and_then_ok in Hopen as (_ & Hitems & ->).
    cbn [fst emit]. cbn [weight] in Hfuel. cbn [well_formed] in Hwf.
    apply andb_true_iff in Hwf as [Hkeys Hwf].
    assert (Hhead : exists s',
      fst (encode_items (encode_member (S lvl)) ("," +:+ newline_indent (S lvl))
             ((k, v) :: d))
      = String dquote s').
    { apply encode_items_ok in Hitems as (Hm & _ & ->).
      apply encode_member_ok in Hm as [_ ->]. rewrite string_app_cons. by eexists. }
    destruct Hhead as [s' Hs'].
    pose proof (scan_members_items lvl d Hd (k, v) fuel rest Hv Hitems Hwf
                  ltac:(lia)) as Hscan.
    rewrite Hs' in *. norm_text. norm_text_in Hscan. cbn [scan_value].
    change (Ascii.eqb "{" dquote) with false.
    change (Ascii.eqb "{" "{") with true. cbv iota.
    rewrite skip_ws_newline_indent, skip_ws_start by done.
    change (Ascii.eqb dquote "}") with false. cbv iota.
    rewrite Hscan. by rewrite dict_of_pairs_distinct.
  - discriminate Henc.
Qed.

(** ** The length of the text is fuel enough *)

Lemma string_length_app (a b : string) :
  String.length (a +:+ b) = (String.length a + String.length b)%nat.
Proof.
  induction a as [|c a IH]; [done|]. rewrite string_app_cons. simpl. by rewrite IH.
Qed.

Lemma newline_indent_length lvl : (1 <= String.length (newline_indent lvl))%nat.
Proof. unfold newline_indent. simpl. lia. Qed.

(** The calls for the items of a list or dict against the length of their
    text, for any encoder of one item whose text is as long as the item is
    heavy. *)
Lemma items_weight_length {A} (enc : A -> emitted) (wt : A -> nat) sep l :
  (2 <= String.length sep)%nat ->
  Forall (fun x => snd (enc x) = true -> (wt x <= String.length (fst (enc x)))%nat) l ->
  forall x,
    (snd (enc x) = true -> (wt x <= String.length (fst (enc x)))%nat) ->
    snd (encode_items enc sep (x :: l)) = true ->
    (sum_list_with (fun y => S (wt y)) (x :: l)
     <= S (String.length (fst (encode_items enc sep (x :: l)))))%nat.
Proof.
  intros Hsep. induction 1 as [|y l Hy _ IH]; intros x Hx Henc.
  - apply encode_items_ok in Henc as (Hex & _ & ->).
    rewrite string_length_app. specialize (Hx Hex). simpl. lia.
  - apply encode_items_ok in Henc as (Hex & Hmore & ->).
    apply encode_more_ok in Hmore as (Hitems & ->).
    specialize (IH y Hy Hitems). specialize (Hx Hex).
    rewrite !string_length_app. cbn [sum_list_with] in *. lia.
Qed.

Lemma weight_le_length v : forall lvl,
  snd (encode lvl v) = true ->
  (weight v <= String.length (fst (encode lvl v)))%nat.
Proof.
  induction v as [|b|z|txt|l IH|d IH|t] using pyval_ind; intros lvl Henc.
  - simpl. lia.
  - destruct b; simpl; lia.
  - destruct (str_int_head z) as (c & s & Hs & _). simpl. rewrite Hs. simpl. lia.
  - simpl. lia.
  - destruct l as [|x l]; [simpl; lia|].
    apply Forall_cons in IH as [Hx Hl].
    cbn [encode] in Henc |- *.
    apply and_then_ok in Henc as (Hopen & _ & ->).
    apply and_then_ok in Hopen as (_ & Hitems & ->).
    cbn [fst emit weight]. rewrite !string_length_app.
    pose proof (newline_indent_length lvl). pose proof (newline_indent_length (S lvl)).
    pose proof (items_weight_length (encode (S lvl)) weight
                  ("," +:+ newline_indent (S lvl)) l) as Hsum.
    specialize (Hsum ltac:(rewrite string_length_app;
                           change (String.length ",") with 1%nat; lia)).
    specialize (Hsum ltac:(eapply Forall_impl; [exact Hl|]; intros y Hy; apply Hy)).
    specialize (Hsum x (Hx (S lvl)) Hitems).
    change (String.length "[") with 1%nat. change (String.length "]") with 1%nat.
    lia.
  - destruct d as [|[k v] d]; [simpl; lia|].
    apply Forall_cons in IH as [Hv Hd].
    cbn [encode] in Henc |- *.
    change (fun kv : string * pyval =>
              emit (encode_str (fst kv) +:+ ": ") >+ encode (S lvl) (snd kv))
      with (encode_member (S lvl)) in *.
    apply and_then_ok in Henc as (Hopen & _ & ->).
    apply and_then_ok in Hopen as (_ & Hitems & ->).
    cbn [fst emit weight]. rewrite !string_length_app.
    pose proof (newline_indent_length lvl). pose proof (newline_indent_length (S lvl)).
    assert (Hmember : forall kv : string * pyval,
      (forall lvl, snd (encode lvl (snd kv)) = true ->
                   (weight (snd kv) <= String.length (fst (encode lvl (snd kv))))%nat) ->
      snd (encode_member (S lvl) kv) = true ->
      (weight (snd kv) <= String.length (fst (encode_member (S lvl) kv)))%nat).
    { intros [k' v'] Hkv Hm. apply encode_member_ok in Hm as [Hev ->].
      specialize (Hkv (S lvl) Hev). simpl in *.
      rewrite !string_length_app. simpl. rewrite !string_length_app. lia. }
    pose proof (items_weight_length (encode_member (S lvl)) (fun kv => weight (snd kv))
                  ("," +:+ newline_indent (S lvl)) d) as Hsum.
    specialize (Hsum ltac:(rewrite string_length_app;
                           change (String.length ",") with 1%nat; lia)).
    specialize (Hsum ltac:(eapply Forall_impl; [exact Hd|]; intros kv Hkv; by apply Hmember)).
    specialize (Hsum (k, v) (Hmember (k, v) Hv) Hitems).
    change (String.length "{") with 1%nat. change (String.length "}") with 1%nat.
    cbn [sum_list_with snd] in *. lia.
  - discriminate Henc.
Qed.

(** The text that [json.dump] writes for a well-formed value loads back as
    the value. *)
Lemma json_loads_encode v :
  snd (encode 0 v) = true -> well_formed v = true ->
  json_loads (fst (encode 0 v)) = Some v.
Proof.
  intros Henc Hwf. unfold json_loads.
  destruct (encode_start 0 v Henc) as (c & s & Hs & Hc).
  pose proof (weight_le_length v 0 Henc) as Hfuel.
  pose proof (encode_reads_back v 0%nat (String.length (fst (encode 0 v))) ""
                Henc Hwf Hfuel eq_refl) as Hscan.
  rewrite string_app_nil_r in Hscan.
  rewrite Hs in *. rewrite skip_ws_start by (by apply starts_value_not_ws).
  by rewrite Hscan.
Qed.

(** ** The file of [save_news_to_json] *)

Lemma and_then_snd a b : snd (a >+ b) = snd a && snd b.
Proof. unfold and_then. by destruct (snd a) eqn:Ha. Qed.

Lemma encode_more_snd {A} (enc : A -> emitted) sep l :
  snd (encode_more enc sep l) = forallb (fun x => snd (enc x)) l.
Proof.
  induction l as [|x l IH]; [done|].
  cbn [encode_more forallb]. rewrite !and_then_snd, IH. reflexivity.
Qed.

Lemma encode_items_snd {A} (enc : A -> emitted) sep l :
  snd (encode_items enc sep l) = forallb (fun x => snd (enc x)) l.
Proof.
  destruct l as [|x l]; [done|].
  cbn [encode_items forallb]. by rewrite and_then_snd, encode_more_snd.
Qed.

Lemma forallb_ext_Forall {A} (f g : A -> bool) l :
  Forall (fun x => f x = g x) l -> forallb f l = forallb g l.
Proof. induction 1 as [|x l Hx _ IH]; [done|]. simpl. by rewrite Hx, IH. Qed.

(** The encoder stops exactly on the values that hold a [datetime]. *)
Lemma encode_snd v : forall lvl, snd (encode lvl v) = serialisable v.
Proof.
  induction v as [|b|z|txt|l IH|d IH|t] using pyval_ind; intros lvl; try done.
  - by destruct b.
  - destruct l as [|x l]; [done|].
    cbn [encode serialisable]. rewrite !and_then_snd, encode_items_snd.
    cbn [snd emit]. rewrite andb_true_r. cbn [andb].
    apply forallb_ext_Forall. eapply Forall_impl; [exact IH|].
    intros y Hy. apply Hy.
  - destruct d as [|kv d]; [done|].
    cbn [encode serialisable]. rewrite !and_then_snd, encode_items_snd.
    cbn [snd emit]. rewrite andb_true_r. cbn [andb].
    apply forallb_ext_Forall. eapply Forall_impl; [exact IH|].
    intros [k v] Hv. cbn [snd] in *. rewrite and_then_snd. cbn [snd emit andb].
    apply Hv.
Qed.

Lemma object_of_fp_serialisable n :
  serialisable (object_of_fp n) = serialisable_fp n.
Proof.
  unfold object_of_fp, news_object, serialisable_fp. cbn [serialisable forallb snd].
  by rewrite andb_true_r, !andb_assoc.
Qed.

(** The text of the object of a record, on its lines. *)
Lemma encode_object_lines n :
  serialisable_fp n = true ->
  line_start 4 +:+ fst (encode 1 (object_of_fp n)) = object_lines n.
Proof.
  intros Hn.
  assert (Henc : snd (encode 1 (object_of_fp n)) = true)
    by (by rewrite encode_snd, object_of_fp_serialisable).
  unfold object_of_fp, news_object in *. cbn [encode] in Henc |- *.
  change (fun kv : string * pyval =>
            emit (encode_str (fst kv) +:+ ": ") >+ encode 2 (snd kv))
    with (encode_member 2) in *.
  apply and_then_ok in Henc as (Hopen & _ & ->).
  apply and_then_ok in Hopen as (_ & Hitems & ->).
  apply encode_items_ok in Hitems as (H1 & Hmore & ->).
  apply encode_more_ok in Hmore as (Hitems & ->).
  apply encode_items_ok in Hitems as (H2 & Hmore & ->).
  apply encode_more_ok in Hmore as (Hitems & ->).
  apply encode_items_ok in Hitems as (H3 & Hmore & ->).
  apply encode_more_ok in Hmore as (Hitems & ->).
  apply encode_items_ok in Hitems as (H4 & _ & ->).
  apply encode_member_ok in H1 as [_ ->]. apply encode_member_ok in H2 as [_ ->].
  apply encode_member_ok in H3 as [_ ->]. apply encode_member_ok in H4 as [_ ->].
  unfold object_lines, member_line, line_start, newline_indent, encode_str.
  cbn [encode_more fst emit]. norm_text. reflexivity.
Qed.

Lemma string_concat_cons (x : string) xs :
  String.concat "" (x :: xs) = x +:+ String.concat "" xs.
Proof.
  destruct xs as [|y xs]; [by rewrite string_app_nil_r | reflexivity].
Qed.

Lemma encode_more_lines l :
  forallb serialisable_fp l = true ->
  fst (encode_more (encode 1) ("," +:+ newline_indent 1) (map object_of_fp l))
  = String.concat "" (map (fun m => "," +:+ object_lines m) l).
Proof.
  induction l as [|n l IH]; [done|].
  cbn [forallb map]. intros [Hn Hl]%andb_true_iff.
  assert (Hmore : snd (encode_more (encode 1) ("," +:+ newline_indent 1)
                         (object_of_fp n :: map object_of_fp l)) = true).
  { rewrite encode_more_snd. cbn [forallb].
    rewrite encode_snd, object_of_fp_serialisable, Hn. cbn [andb].
    rewrite forallb_forall. intros o [m [<- Hm]]%in_map_iff.
    rewrite encode_snd, object_of_fp_serialisable.
    rewrite forallb_forall in Hl. by apply Hl. }
  apply encode_more_ok in Hmore as (Hitems & ->).
  apply encode_items_ok in Hitems as (_ & _ & ->).
  rewrite string_concat_cons, IH by done.
  rewrite <- (encode_object_lines n Hn). unfold line_start, newline_indent.
  by norm_text.
Qed.

(** The text that the encoder writes for the records of a list that it can
    serialise is laid out as [array_lines] says. *)
Lemma encode_array_lines l :
  forallb serialisable_fp l = true ->
  fst (encode 0 (PList (map object_of_fp l))) = array_lines l.
Proof.
  destruct l as [|n l]; [done|].
  cbn [forallb map]. intros Hall.
  assert (Henc : snd (encode 0 (PList (object_of_fp n :: map object_of_fp l))) = true).
  { rewrite encode_snd. cbn [serialisable forallb].
    apply andb_true_iff in Hall as [Hn Hl].
    rewrite object_of_fp_serialisable, Hn. cbn [andb].
    rewrite forallb_forall. intros o [m [<- Hm]]%in_map_iff.
    rewrite object_of_fp_serialisable. rewrite forallb_forall in Hl. by apply Hl. }
  apply andb_true_iff in Hall as [Hn Hl].
  cbn [encode] in Henc |- *.
  apply and_then_ok in Henc as (Hopen & _ & ->).
  apply and_then_ok in Hopen as (_ & Hitems & ->).
  apply encode_items_ok in Hitems as (_ & _ & ->).
  rewrite (encode_more_lines l Hl). unfold array_lines.
  rewrite <- (encode_object_lines n Hn). cbn [fst emit].
  unfold line_start, newline_indent. by norm_text.
Qed.

Lemma objects_well_formed l :
  well_formed (PList (map object_of_fp l)) = forallb well_formed_fp l.
Proof.
  cbn [well_formed]. induction l as [|n l IH]; [done|].
  cbn [map forallb]. rewrite IH. f_equal.
  unfold object_of_fp, news_object, well_formed_fp.
  cbn [well_formed forallb snd map fst].
  change (distinct ["headline"; "date"; "summary"; "content"]) with true.
  cbn [andb]. by rewrite andb_true_r, !andb_assoc.
Qed.

Lemma objects_serialisable l :
  serialisable (PList (map object_of_fp l)) = forallb serialisable_fp l.
Proof.
  cbn [serialisable]. induction l as [|n l IH]; [done|].
  cbn [map forallb]. by rewrite IH, object_of_fp_serialisable.
Qed.

(** X1. In the first file, for records whose fields are values of the
    model ([None], booleans, integers, strings of characters from U+0000 to
    U+00FF, lists and dicts of these; no float and no character above
    U+00FF) with distinct keys in their dicts: the text that a call of
    [save_news_to_json] leaves when it returns loads back, with
    [json.loads], as a list with one dict per record, in order, each with
    exactly the keys [headline], [date], [summary] and [content], in that
    order, and the values of the record. *)
Theorem saved_file_loads_back l p w w' :
  forallb well_formed_fp l = true ->
  FeaturePipeline.save_news_to_json l p w = (Ret tt, w') ->
  files w' = files w ++ [(p, array_lines l)] /\
  json_loads (array_lines l)
  = Some (PList (map (fun n =>
            PDict [("headline", FeaturePipeline.headline n);
                   ("date", FeaturePipeline.date n);
                   ("summary", FeaturePipeline.summary n);
                   ("content", FeaturePipeline.content n)]) l)).
Proof.
  intros Hwf. rewrite save_fp_eq. intros (_ & Hall & ->)%dump_to_file_Ret.
  rewrite encode_snd, objects_serialisable in Hall.
  rewrite <- (encode_array_lines l Hall). split; [done|].
  apply json_loads_encode.
  - by rewrite encode_snd, objects_serialisable.
  - by rewrite objects_well_formed.
Qed.

Lemma saved_file_loads_back_witness :
  let n := FeaturePipeline.mk_News (PStr "a") (PStr "s") (PStr "c") PNone in
  let p := ["data"; "news.json"] in
  let r := FeaturePipeline.save_news_to_json [n] p (Sample.world Sample.one_page) in
  files (snd r) = [(p, array_lines [n])] /\
  json_loads (array_lines [n])
  = Some (PList [PDict [("headline", PStr "a"); ("date", PNone);
                        ("summary", PStr "s"); ("content", PStr "c")]]).
Proof.
  cbv zeta.
  exact (saved_file_loads_back
           [FeaturePipeline.mk_News (PStr "a") (PStr "s") (PStr "c") PNone]
           ["data"; "news.json"] (Sample.world Sample.one_page) _
           eq_refl
           ltac:(apply injective_projections; [vm_compute; reflexivity | reflexivity])).
Defined.

(** ** Answers that are not pages *)

(** A fetch that raises is the last exchange of the run of the loop. *)
Lemma paged_fetch_raises_last {News : Type} request_for
    (fetch_result : HttpResult -> result (list News * pyval))
    News_date srv f t hist st xs out :
  paged request_for fetch_result News_date srv f t hist st xs out ->
  forall x e, x ∈ xs -> fetch_result (snd x) = inl e -> last xs = Some x.
Proof.
  induction 1 as [hist st|hist acc tok e Htok Hres|hist acc tok batch tok' e Htok Hres Hd
                 |hist acc tok batch tok' d xs out Htok Hres Hd Hrun IH];
    intros x e' Hin Hx.
  - by apply elem_of_nil in Hin.
  - by apply list_elem_of_singleton in Hin as ->.
  - by apply list_elem_of_singleton in Hin as ->.
  - apply elem_of_cons in Hin as [->|Hin]; [congruence|].
    specialize (IH x e' Hin Hx). destruct xs; [done|]. exact IH.
Qed.

Lemma download_of_fetch_raises_last creds D iso v fuel f t w out w' xs x e :
  download_of creds D iso v fuel f t w = (out, w') ->
  exchanges w' = exchanges w ++ xs ->
  x ∈ xs -> fetch_result_of iso v (snd x) = inl e ->
  last xs = Some x.
Proof.
  intros Hrun%download_of_run Hxs Hin Hx. cbv zeta in Hrun.
  destruct (fetch_result_of iso v (snd (ask w _))) as [e0|st0] eqn:H0.
  - destruct Hrun as [-> ->]. simpl in Hxs. apply app_inv_head in Hxs as <-.
    by apply list_elem_of_singleton in Hin as ->.
  - destruct Hrun as (xs' & out1 & Hxs' & Hpaged & _ & Hout).
    rewrite Hxs in Hxs'. apply app_inv_head in Hxs' as ->.
    apply elem_of_cons in Hin as [->|Hin]; [congruence|].
    pose proof (paged_fetch_raises_last _ _ _ _ _ _ _ _ _ _ Hpaged x e Hin Hx) as Hlast.
    destruct xs'; [done|]. exact Hlast.
Qed.

(** A first page without token: the loop is not entered, whatever the
    fuel, and the records of that page go to [save_news_to_json]. *)
Lemma download_of_first_page_only creds D iso v fuel f t w l :
  fetch_result_of iso v (snd (ask w (request_of creds v f t PNone))) = ok (l, PNone) ->
  download_of creds D iso v fuel f t w
  = let path := path_join D (Downloader.file_name f t) in
    match save_of v l path (with_exchanges [ask w (request_of creds v f t PNone)] w) with
    | (Ret _, w2) => (Ret path, w2)
    | (Raise e, w2) => (Raise e, w2)
    | (OutOfFuel, w2) => (OutOfFuel, w2)
    end.
Proof.
  intros Hfirst. rewrite download_of_eq.
  unfold Downloader.download_historical_news, bind.
  rewrite fetch_of_exchange. unfold exchange_then. rewrite Hfirst.
  cbn [outcome_of ok]. destruct fuel; cbn [Downloader.while_loop snd is_None ret fst];
    by destruct (save_of _ _ _ _) as [[u|e|] w2].
Qed.

(** X4. In the second file an answer whose status is neither 200 nor from
    400 to 599 passes [raise_for_status] and is not decoded: the call
    returns an empty list and no token, and raises nothing. So when the
    first answer of a run is such a one, [download_historical_news] writes
    the file with the text of the empty array and returns its path, as if
    there were no news. *)
Theorem src_copy_takes_other_statuses_for_no_news creds D iso fuel f t w r :
  status_code r <> 200 ->
  ~ 400 <= status_code r < 600 ->
  (forall tok,
     server w (exchanges w) (SrcCopy.request_for creds f t tok) = Answered r ->
     SrcCopy.fetch_batch_of_news creds iso f t tok w
     = (Ret ([], PNone),
        with_exchanges [(SrcCopy.request_for creds f t tok, Answered r)] w)) /\
  (server w (exchanges w) (SrcCopy.request_for creds f t PNone) = Answered r ->
   writable w (path_join D (Downloader.file_name f t)) = true ->
   SrcCopy.download_historical_news creds D iso fuel f t w
   = (Ret (path_join D (Downloader.file_name f t)),
      log_file (path_join D (Downloader.file_name f t), "[]")
        (with_exchanges [(SrcCopy.request_for creds f t PNone, Answered r)] w))).
Proof.
  intros Hstatus Hrange.
  assert (Hres : fetch_result_src iso (Answered r) = ok ([], PNone)).
  { unfold fetch_result_src, raise_for_status.
    assert (H1 : (400 <=? status_code r) && (status_code r <? 500) = false)
      by (rewrite andb_false_iff, Z.leb_gt, Z.ltb_ge; lia).
    assert (H2 : (500 <=? status_code r) && (status_code r <? 600) = false)
      by (rewrite andb_false_iff, Z.leb_gt, Z.ltb_ge; lia).
    rewrite H1, H2.
    unfold SrcCopy.parse_response. by destruct (Z.eqb_spec (status_code r) 200). }
  split.
  - intros tok Hans. rewrite fetch_src_exchange. unfold exchange_then, ask.
    rewrite Hans. cbn [snd]. by rewrite Hres.
  - intros Hans Hw.
    change (SrcCopy.download_historical_news creds D iso)
      with (download_of creds D iso src_copy).
    rewrite (download_of_first_page_only creds D iso src_copy fuel f t w []).
    + cbv zeta. cbn [save_of]. rewrite save_src_nil. unfold dump_to_file.
      cbn [writable with_exchanges]. rewrite Hw. cbn [request_of].
      unfold ask. by rewrite Hans.
    + cbn [request_of fetch_result_of]. unfold ask. rewrite Hans. exact Hres.
Qed.

Lemma src_copy_takes_other_statuses_for_no_news_witness :
  let r := mk_Response 204 "No Content" "" "" None in
  let w := Sample.world (fun _ => Answered r) in
  let run := SrcCopy.download_historical_news Sample.creds Sample.DATA_DIR
               Sample.parse_isoformat 5 Sample.from_date Sample.to_date w in
  fst run = Ret ["data"; "news_2025-04-20_2025-04-21.json"] /\
  files (snd run) = [(["data"; "news_2025-04-20_2025-04-21.json"], "[]")] /\
  length (exchanges (snd run)) = 1%nat.
Proof.
  cbv zeta.
  rewrite (proj2 (src_copy_takes_other_statuses_for_no_news Sample.creds
             Sample.DATA_DIR Sample.parse_isoformat 5 Sample.from_date Sample.to_date
             (Sample.world (fun _ => Answered (mk_Response 204 "No Content" "" "" None)))
             (mk_Response 204 "No Content" "" "" None)
             ltac:(discriminate) ltac:(simpl; lia)) eq_refl eq_refl).
  split; [vm_compute; reflexivity|]. split; vm_compute; reflexivity.
Defined.

(** X5. In the second file, if any answer of a run of
    [download_historical_news] has a status from 400 to 599, the function
    raises a [RuntimeError] whose message is that of the [HTTPError] of
    [raise_for_status]: the status, the reason and the address, and not the
    text of the response. That exchange is the last one and no file is
    written. *)
Theorem src_copy_http_error_aborts creds D iso fuel f t w out w' xs req r :
  SrcCopy.download_historical_news creds D iso fuel f t w = (out, w') ->
  exchanges w' = exchanges w ++ xs ->
  (req, Answered r) ∈ xs ->
  400 <= status_code r < 600 ->
  out = Raise (RuntimeError
                 ("Failed to fetch news: " +:+ str_int (status_code r) +:+ " "
                  +:+ (if status_code r <? 500 then "Client" else "Server")
                  +:+ " Error: " +:+ reason r +:+ " for url: " +:+ final_url r)) /\
  last xs = Some (req, Answered r) /\
  files w' = files w.
Proof.
  intros Hrun Hxs Hin Hstatus.
  set (e := RuntimeError _).
  assert (Hres : fetch_result_of iso src_copy (snd (req, Answered r)) = inl e).
  { subst e. cbn [fetch_result_of snd]. unfold fetch_result_src, raise_for_status.
    destruct (Z.ltb_spec (status_code r) 500) as [Hlt|Hge].
    - replace (400 <=? status_code r) with true by lia. reflexivity.
    - replace (500 <=? status_code r) with true by lia.
      replace (status_code r <? 600) with true by lia.
      by rewrite andb_false_r. }
  destruct (download_of_fetch_raises creds D iso src_copy fuel f t w out w' xs
              (req, Answered r) e Hrun Hxs Hin Hres) as [-> Hfiles].
  split; [done|]. split; [|done].
  exact (download_of_fetch_raises_last creds D iso src_copy fuel f t w _ w' xs
           (req, Answered r) e Hrun Hxs Hin Hres).
Qed.

Lemma src_copy_http_error_aborts_witness :
  let w := Sample.world (fun _ => Sample.error_500) in
  let run := SrcCopy.download_historical_news Sample.creds Sample.DATA_DIR
               Sample.parse_isoformat 5 Sample.from_date Sample.to_date w in
  fst run = Raise (RuntimeError
    "Failed to fetch news: 500 Server Error: Internal Server Error for url: ") /\
  files (snd run) = [].
Proof.
  cbv zeta.
  pose proof (src_copy_http_error_aborts Sample.creds Sample.DATA_DIR
            Sample.parse_isoformat 5 Sample.from_date Sample.to_date
            (Sample.world (fun _ => Sample.error_500)) _ _ _
            (SrcCopy.request_for Sample.creds Sample.from_date Sample.to_date PNone)
            (mk_Response 500 "Internal Server Error" "" "try later" None)
            (surjective_pairing _) eq_refl
            ltac:(vm_compute; apply list_elem_of_here) ltac:(simpl; lia))
    as (Hout & _ & Hfiles).
  split; [exact Hout | exact Hfiles].
Defined.

(** X6. If [requests.get] itself fails at any page of a run (no answer: a
    [RequestException] with some message), the run ends there and no file is
    written. The first file lets the exception through as it is; the second
    replaces it by a [RuntimeError] that holds its message. *)
Theorem transport_failure_aborts creds D iso v fuel f t w out w' xs req msg :
  download_of creds D iso v fuel f t w = (out, w') ->
  exchanges w' = exchanges w ++ xs ->
  (req, Failed msg) ∈ xs ->
  out = Raise (match v with
               | feature_pipeline => RequestException msg
               | src_copy => RuntimeError ("Failed to fetch news: " +:+ msg)
               end) /\
  last xs = Some (req, Failed msg) /\
  files w' = files w.
Proof.
  intros Hrun Hxs Hin.
  set (e := match v with
            | feature_pipeline => RequestException msg
            | src_copy => RuntimeError ("Failed to fetch news: " +:+ msg)
            end).
  assert (Hres : fetch_result_of iso v (snd (req, Failed msg)) = inl e)
    by (by destruct v).
  destruct (download_of_fetch_raises creds D iso v fuel f t w out w' xs
              (req, Failed msg) e Hrun Hxs Hin Hres) as [-> Hfiles].
  split; [done|]. split; [|done].
  exact (download_of_fetch_raises_last creds D iso v fuel f t w _ w' xs
           (req, Failed msg) e Hrun Hxs Hin Hres).
Qed.

Lemma transport_failure_aborts_witness :
  let resp (i : nat) :=
    match i with
    | O => Sample.page [Sample.article "a"] (PStr "t1")
    | _ => Failed "Connection reset"
    end in
  let run v := download_of Sample.creds Sample.DATA_DIR Sample.parse_isoformat v 5
                 Sample.from_date Sample.to_date (Sample.world resp) in
  fst (run feature_pipeline) = Raise (RequestException "Connection reset") /\
  length (exchanges (snd (run feature_pipeline))) = 2%nat /\
  files (snd (run feature_pipeline)) = [].
Proof.
  cbv zeta.
  pose proof (transport_failure_aborts Sample.creds Sample.DATA_DIR
            Sample.parse_isoformat feature_pipeline 5 Sample.from_date Sample.to_date
            (Sample.world (fun i => match i with
                                    | O => Sample.page [Sample.article "a"] (PStr "t1")
                                    | _ => Failed "Connection reset"
                                    end)) _ _ _
            (FeaturePipeline.request_for Sample.creds Sample.from_date Sample.to_date
               (PStr "t1"))
            "Connection reset"
            (surjective_pairing _) eq_refl
            ltac:(vm_compute; apply list_elem_of_further, list_elem_of_here))
    as (Hout & _ & Hfiles).
  split; [exact Hout|]. split; [vm_compute; reflexivity | exact Hfiles].
Defined.

(** ** Articles that lack a key *)

Lemma news_of_item_lacks iso v d k :
  find (lacks d) (item_keys v) = Some k ->
  news_of_item_of iso v (PDict d) = throw (KeyError (quoted k)).
Proof.
  destruct v; cbn [item_keys find news_of_item_of]; unfold lacks;
    unfold FeaturePipeline.news_of_item, SrcCopy.news_of_item, getitem.
  - destruct (dict_lookup "headline" d); [|by intros [= <-]].
    destruct (dict_lookup "updated_at" d); [|by intros [= <-]].
    destruct (dict_lookup "summary" d); [|by intros [= <-]].
    destruct (dict_lookup "content" d); [done|by intros [= <-]].
  - destruct (dict_lookup "headline" d); [|by intros [= <-]].
    destruct (dict_lookup "summary" d); [|by intros [= <-]].
    destruct (dict_lookup "content" d); [|by intros [= <-]].
    destruct (dict_lookup "timestamp" d); [done|by intros [= <-]].
Qed.

Lemma rmap_first_failure {A B} (f : A -> result B) good x rest e :
  Forall (fun y => exists n, f y = ok n) good ->
  f x = inl e ->
  rmap f (good ++ x :: rest) = inl e.
Proof.
  intros Hgood Hx. induction Hgood as [|y good [n Hy] _ IH]; simpl.
  - by rewrite Hx.
  - by rewrite Hy, IH.
Qed.

Lemma fetch_result_of_parse iso v r :
  status_code r = 200 ->
  fetch_result_of iso v (Answered r)
  = (let? news_json := response_json r in
     let? next_page_token := get_or_None news_json "next_page_token" in
     let? news := getitem news_json "news" in
     let? items := iterate news in
     let? list_of_news := rmap (news_of_item_of iso v) items in
     ok (list_of_news, next_page_token)).
Proof.
  intros Hstatus.
  destruct v; cbn [fetch_result_of fetch_result_fp news_of_item_of];
    unfold fetch_result_src, raise_for_status, FeaturePipeline.parse_response,
      SrcCopy.parse_response; by rewrite Hstatus.
Qed.

Lemma fetch_result_of_lacks iso v r items tok good d rest k :
  status_code r = 200 ->
  body_of r items tok ->
  items = good ++ PDict d :: rest ->
  Forall (fun item => exists n, news_of_item_of iso v item = ok n) good ->
  find (lacks d) (item_keys v) = Some k ->
  fetch_result_of iso v (Answered r) = inl (KeyError (quoted k)).
Proof.
  intros Hstatus (body & news & Hbody & Htok & Hnews & Hitems) -> Hgood Hk.
  rewrite fetch_result_of_parse by done.
  unfold response_json. rewrite Hbody. cbn [rbind ok].
  rewrite Htok. cbn [rbind ok]. rewrite Hnews. cbn [rbind ok].
  rewrite Hitems. cbn [rbind ok].
  by rewrite (rmap_first_failure _ good (PDict d) rest (KeyError (quoted k)))
    by (done || by apply news_of_item_lacks).
Qed.

(** X7. A call builds its records one article after the other and keeps
    nothing of a page that it cannot finish. If an answer of a run has the
    status 200 and an article of it is an object that lacks one of the four
    keys the file reads, the articles before it being in order, then the run
    of [download_historical_news] raises the [KeyError] of the first key
    that is missing, in the order in which the file reads them; that
    exchange is the last one and no file is written, whatever was fetched
    before. This holds for both files. *)
Theorem article_without_a_key_aborts creds D iso v fuel f t w out w' xs req r
    items tok good d rest k :
  download_of creds D iso v fuel f t w = (out, w') ->
  exchanges w' = exchanges w ++ xs ->
  (req, Answered r) ∈ xs ->
  status_code r = 200 ->
  body_of r items tok ->
  items = good ++ PDict d :: rest ->
  Forall (fun item => exists n, news_of_item_of iso v item = ok n) good ->
  find (lacks d) (item_keys v) = Some k ->
  out = Raise (KeyError (quoted k)) /\
  last xs = Some (req, Answered r) /\
  files w' = files w.
Proof.
  intros Hrun Hxs Hin Hstatus Hbody Hitems Hgood Hk.
  pose proof (fetch_result_of_lacks iso v r items tok good d rest k
                Hstatus Hbody Hitems Hgood Hk) as Hres.
  destruct (download_of_fetch_raises creds D iso v fuel f t w out w' xs
              (req, Answered r) _ Hrun Hxs Hin Hres) as [-> Hfiles].
  split; [done|]. split; [|done].
  exact (download_of_fetch_raises_last creds D iso v fuel f t w _ w' xs
           (req, Answered r) _ Hrun Hxs Hin Hres).
Qed.

Lemma article_without_a_key_aborts_witness :
  let broken := PDict [("headline", PStr "c"); ("content", PStr "content")] in
  let resp (i : nat) :=
    match i with
    | O => Sample.page [Sample.article "a"] (PStr "t1")
    | _ => Sample.page [Sample.article "b"; broken; Sample.article "d"] PNone
    end in
  let run := download_of Sample.creds Sample.DATA_DIR Sample.parse_isoformat
               feature_pipeline 5 Sample.from_date Sample.to_date (Sample.world resp) in
  fst run = Raise (KeyError "'updated_at'") /\
  files (snd run) = [].
Proof.
  cbv zeta.
  pose proof (article_without_a_key_aborts Sample.creds Sample.DATA_DIR
            Sample.parse_isoformat feature_pipeline 5 Sample.from_date Sample.to_date
            (Sample.world (fun i =>
               match i with
               | O => Sample.page [Sample.article "a"] (PStr "t1")
               | _ => Sample.page
                        [Sample.article "b";
                         PDict [("headline", PStr "c"); ("content", PStr "content")];
                         Sample.article "d"] PNone
               end)) _ _ _
            (FeaturePipeline.request_for Sample.creds Sample.from_date Sample.to_date
               (PStr "t1"))
            (mk_Response 200 "OK" "" ""
               (Some (Sample.body
                        [Sample.article "b";
                         PDict [("headline", PStr "c"); ("content", PStr "content")];
                         Sample.article "d"] PNone)))
            [Sample.article "b";
             PDict [("headline", PStr "c"); ("content", PStr "content")];
             Sample.article "d"]
            PNone [Sample.article "b"]
            [("headline", PStr "c"); ("content", PStr "content")]
            [Sample.article "d"] "updated_at"
            (surjective_pairing _) eq_refl
            ltac:(vm_compute; apply list_elem_of_further, list_elem_of_here)
            eq_refl
            ltac:(eexists _, _; repeat split; reflexivity)
            eq_refl
            ltac:(constructor; [eexists; reflexivity | constructor])
            eq_refl)
    as (Hout & _ & Hfiles).
  split; [exact Hout | exact Hfiles].
Defined.

(** ** The requests of a run *)

Lemma paged_requests {News : Type} request_for
    (fetch_result : HttpResult -> result (list News * pyval))
    News_date srv f t hist st xs out :
  paged request_for fetch_result News_date srv f t hist st xs out ->
  (forall x, head xs = Some x ->
     fst x = request_for f t (snd st) /\ is_None (snd st) = false) /\
  (forall i x y, xs !! i = Some x -> xs !! S i = Some y ->
     exists l tok, fetch_result (snd x) = ok (l, tok) /\
                   is_None tok = false /\ fst y = request_for f t tok) /\
  (forall i x, xs !! i = Some x -> snd x = srv (hist ++ take i xs) (fst x)).
Proof.
  induction 1 as [hist st|hist acc tok e Htok Hres|hist acc tok batch tok' e Htok Hres Hd
                 |hist acc tok batch tok' d xs out Htok Hres Hd Hrun IH].
  - split; [done|]. split; [done|]. by intros [|i] x.
  - split; [by intros x [= <-]|]. split; [by intros [|i] x y|].
    intros [|i] x; [|done]. intros [= <-]. cbn [take]. by rewrite app_nil_r.
  - split; [by intros x [= <-]|]. split; [by intros [|i] x y|].
    intros [|i] x; [|done]. intros [= <-]. cbn [take]. by rewrite app_nil_r.
  - destruct IH as (IHhead & IHnext & IHsrv).
    split; [by intros x [= <-]|]. split.
    + intros [|i] x y Hx Hy.
      * injection Hx as <-. cbn in Hy.
        assert (Hhead : head xs = Some y) by (by destruct xs).
        destruct (IHhead y Hhead) as [Hreq Hnone]. cbn [snd] in Hreq, Hnone.
        by exists batch, tok'.
      * exact (IHnext i x y Hx Hy).
    + intros [|i] x Hx.
      * injection Hx as <-. cbn [take]. by rewrite app_nil_r.
      * cbn in Hx. cbn [take]. rewrite (IHsrv i x Hx). by rewrite <- app_assoc.
Qed.

(** X8. Whatever the outcome of a run of [download_historical_news] (a
    path, an exception, or a loop that goes on), the requests it has sent
    are these: a first one without token; then each one carries the token
    of the answer just before it, which was decoded without error and held a
    token that is not [None]. The requests are sent one after the other:
    each answer is what the server says knowing the exchanges before it.
    This holds for both files. *)
Theorem requests_follow_the_tokens creds D iso v fuel f t w out w' :
  download_of creds D iso v fuel f t w = (out, w') ->
  exists x0 xs,
    exchanges w' = exchanges w ++ x0 :: xs /\
    fst x0 = request_of creds v f t PNone /\
    (forall i x y, (x0 :: xs) !! i = Some x -> (x0 :: xs) !! S i = Some y ->
       exists l tok, fetch_result_of iso v (snd x) = ok (l, tok) /\
                     tok <> PNone /\ fst y = request_of creds v f t tok) /\
    (forall i x, (x0 :: xs) !! i = Some x ->
       snd x = server w (exchanges w ++ take i (x0 :: xs)) (fst x)).
Proof.
  intros Hrun%download_of_run. cbv zeta in Hrun.
  set (x0 := ask w (request_of creds v f t PNone)) in *.
  destruct (fetch_result_of iso v (snd x0)) as [e0|[l0 tok0]] eqn:H0.
  - destruct Hrun as [-> ->]. exists x0, []. split; [done|]. split; [done|].
    split; [by intros [|i] x y|].
    intros [|i] x; [|done]. intros [= <-]. cbn [take]. by rewrite app_nil_r.
  - destruct Hrun as (xs & out1 & Hxs & Hpaged & _).
    apply paged_requests in Hpaged as (Hhead & Hnext & Hsrv).
    exists x0, xs. split; [done|]. split; [done|]. split.
    + intros [|i] x y Hx Hy.
      * injection Hx as <-. cbn in Hy.
        assert (Hy' : head xs = Some y) by (by destruct xs).
        destruct (Hhead y Hy') as [Hreq Hnone]. cbn [snd] in Hreq, Hnone.
        exists l0, tok0. split; [done|]. split; [|done].
        intros ->. discriminate.
      * destruct (Hnext i x y Hx Hy) as (l & tok & Hres & Hnone & Hreq).
        exists l, tok. split; [done|]. split; [|done]. intros ->. discriminate.
    + intros [|i] x Hx.
      * injection Hx as <-. cbn [take]. by rewrite app_nil_r.
      * cbn in Hx. cbn [take]. rewrite (Hsrv i x Hx). by rewrite <- app_assoc.
Qed.

Lemma requests_follow_the_tokens_witness :
  let w := Sample.world Sample.error_on_second_page in
  let run := download_of Sample.creds Sample.DATA_DIR Sample.parse_isoformat
               feature_pipeline 5 Sample.from_date Sample.to_date w in
  map (fun x => params (fst x) !! "page_token") (exchanges (snd run))
  = [None; Some (PStr "t1")] /\
  exists x0 xs,
    exchanges (snd run) = exchanges w ++ x0 :: xs /\
    fst x0 = request_of Sample.creds feature_pipeline Sample.from_date
               Sample.to_date PNone /\
    (forall i x y, (x0 :: xs) !! i = Some x -> (x0 :: xs) !! S i = Some y ->
       exists l tok, fetch_result_of Sample.parse_isoformat feature_pipeline (snd x)
                     = ok (l, tok) /\
                     tok <> PNone /\
                     fst y = request_of Sample.creds feature_pipeline Sample.from_date
                               Sample.to_date tok) /\
    (forall i x, (x0 :: xs) !! i = Some x ->
       snd x = server w (exchanges w ++ take i (x0 :: xs)) (fst x)).
Proof.
  cbv zeta. split; [vm_compute; reflexivity|].
  exact (requests_follow_the_tokens Sample.creds Sample.DATA_DIR
           Sample.parse_isoformat feature_pipeline 5 Sample.from_date Sample.to_date
           (Sample.world Sample.error_on_second_page) _ _ (surjective_pairing _)).
Defined.

(** ** One page, from the answer to the file *)

Lemma dict_lookup_In k d x : dict_lookup k d = Some x -> exists k', In (k', x) d.
Proof.
  induction d as [|[k' v] d IH]; [done|]. cbn [dict_lookup].
  destruct (String.eqb k k').
  - intros [= ->]. exists k'. by left.
  - intros [k'' Hin]%IH. exists k''. by right.
Qed.

Lemma getitem_json_data v k x :
  json_data v = true -> getitem v k = ok x -> json_data x = true.
Proof.
  unfold json_data. destruct v as [| | | | |d|]; try done. cbn [getitem].
  destruct (dict_lookup k d) as [y|] eqn:Hy; [|done]. intros Hd [= <-].
  apply dict_lookup_In in Hy as [k' Hin].
  apply andb_true_iff in Hd as [Hs Hw]. cbn [serialisable well_formed] in Hs, Hw.
  apply andb_true_iff in Hw as [_ Hw].
  rewrite forallb_forall in Hs, Hw.
  pose proof (Hs _ Hin) as Hs'. pose proof (Hw _ Hin) as Hw'.
  cbn [snd] in Hs', Hw'. by rewrite Hs', Hw'.
Qed.

Lemma chars_json_data s : Forall (fun x => json_data x = true) (chars s).
Proof. induction s; cbn [chars]; by constructor. Qed.

Lemma iterate_json_data v items :
  json_data v = true -> iterate v = ok items ->
  Forall (fun x => json_data x = true) items.
Proof.
  unfold json_data. destruct v as [| | |s|l|d|]; try done; cbn [iterate].
  - intros _ [= <-]. apply chars_json_data.
  - intros [Hs Hw]%andb_true_iff [= <-]. cbn [serialisable well_formed] in Hs, Hw.
    rewrite forallb_forall in Hs, Hw. apply List.Forall_forall. intros x Hx.
    by rewrite (Hs _ Hx), (Hw _ Hx).
  - intros _ [= <-]. apply List.Forall_forall. by intros x [kv [<- _]]%in_map_iff.
Qed.

Lemma made_of_fp_news_of_item n item :
  made_of_fp n item -> FeaturePipeline.news_of_item item = ok n.
Proof.
  intros (Hh & Hs & Hc & Hd). unfold FeaturePipeline.news_of_item.
  rewrite Hh. cbn [rbind ok]. rewrite Hd. cbn [rbind ok].
  rewrite Hs. cbn [rbind ok]. rewrite Hc. cbn [rbind ok]. by destruct n.
Qed.

Lemma made_of_fp_rmap l items :
  Forall2 made_of_fp l items -> rmap FeaturePipeline.news_of_item items = ok l.
Proof.
  induction 1 as [|n item l items Hn _ IH]; [done|].
  cbn [rmap]. rewrite (made_of_fp_news_of_item n item Hn). cbn [rbind ok].
  by rewrite IH.
Qed.

Lemma made_of_fp_json_data l items :
  Forall2 made_of_fp l items ->
  Forall (fun x => json_data x = true) items ->
  forallb serialisable_fp l = true /\ forallb well_formed_fp l = true.
Proof.
  induction 1 as [|n item l items (Hh & Hs & Hc & Hd) _ IH]; [done|].
  intros [Hitem Hitems]%Forall_cons. destruct (IH Hitems) as [IHs IHw].
  pose proof (getitem_json_data _ _ _ Hitem Hh) as [H1 H1']%andb_true_iff.
  pose proof (getitem_json_data _ _ _ Hitem Hs) as [H2 H2']%andb_true_iff.
  pose proof (getitem_json_data _ _ _ Hitem Hc) as [H3 H3']%andb_true_iff.
  pose proof (getitem_json_data _ _ _ Hitem Hd) as [H4 H4']%andb_true_iff.
  cbn [forallb]. rewrite IHs, IHw. unfold serialisable_fp, well_formed_fp.
  by rewrite H1, H2, H3, H4, H1', H2', H3', H4'.
Qed.

Lemma save_fp_serialisable l p w :
  writable w p = true ->
  forallb serialisable_fp l = true ->
  FeaturePipeline.save_news_to_json l p w = (Ret tt, log_file (p, array_lines l) w).
Proof.
  intros Hw Hser. rewrite save_fp_eq. unfold dump_to_file. rewrite Hw.
  pose proof (encode_snd (PList (map object_of_fp l)) 0) as Hsnd.
  rewrite objects_serialisable, Hser in Hsnd.
  pose proof (encode_array_lines l Hser) as Htxt.
  destruct (encode 0 (PList (map object_of_fp l))) as [txt fin].
  cbn [fst snd] in Hsnd, Htxt. by rewrite Hsnd, Htxt.
Qed.

(** X9. In the first file, when the first answer of a run has the status
    200 and a JSON body of the model (no float, no character above U+00FF)
    without [next_page_token] (or with [null] for it) whose articles all
    have the four keys, [download_historical_news] sends that one request,
    writes the file and returns its path. The file holds
    one object per article, in order, laid out as [array_lines] says, and
    [json.load] reads it back as the list of these objects: the [headline],
    [summary] and [content] of the article under their names, and its
    [updated_at] under [date]. *)
Theorem single_page_is_saved_and_loads_back creds D fuel f t w r body news items l :
  server w (exchanges w) (FeaturePipeline.request_for creds f t PNone) = Answered r ->
  status_code r = 200 ->
  json_body r = Some body ->
  json_data body = true ->
  get_or_None body "next_page_token" = ok PNone ->
  getitem body "news" = ok news ->
  iterate news = ok items ->
  Forall2 made_of_fp l items ->
  writable w (path_join D (Downloader.file_name f t)) = true ->
  FeaturePipeline.download_historical_news creds D fuel f t w
  = (Ret (path_join D (Downloader.file_name f t)),
     log_file (path_join D (Downloader.file_name f t), array_lines l)
       (with_exchanges [(FeaturePipeline.request_for creds f t PNone, Answered r)] w)) /\
  json_loads (array_lines l) = Some (PList (map object_of_fp l)).
Proof.
  intros Hans Hstatus Hbody Hjson Htok Hnews Hitems Hmade Hw.
  assert (Hdata : Forall (fun x => json_data x = true) items)
    by (eapply iterate_json_data; [|done]; by eapply getitem_json_data).
  destruct (made_of_fp_json_data l items Hmade Hdata) as [Hser Hwf].
  split.
  - change (FeaturePipeline.download_historical_news creds D)
      with (download_of creds D (fun _ => None) feature_pipeline).
    rewrite (download_of_first_page_only creds D _ feature_pipeline fuel f t w l).
    + cbv zeta. cbn [save_of request_of News_of]. unfold ask. rewrite Hans.
      by rewrite (save_fp_serialisable l _ (with_exchanges _ w) Hw Hser).
    + cbn [request_of fetch_result_of]. unfold ask. rewrite Hans. cbn [snd].
      cbn [fetch_result_fp]. unfold FeaturePipeline.parse_response.
      rewrite Hstatus. change (200 =? 200) with true. cbv iota.
      unfold response_json. rewrite Hbody. cbn [rbind ok].
      rewrite Htok. cbn [rbind ok]. rewrite Hnews. cbn [rbind ok].
      rewrite Hitems. cbn [rbind ok]. by rewrite (made_of_fp_rmap l items Hmade).
  - rewrite <- (encode_array_lines l Hser). apply json_loads_encode.
    + by rewrite encode_snd, objects_serialisable.
    + by rewrite objects_well_formed.
Qed.

Lemma single_page_is_saved_and_loads_back_witness :
  let w := Sample.world Sample.one_page in
  let run := FeaturePipeline.download_historical_news Sample.creds Sample.DATA_DIR 5
               Sample.from_date Sample.to_date w in
  let object h :=
    PDict [("headline", PStr h); ("date", PStr "2025-04-20T10:00:00Z");
           ("summary", PStr "summary"); ("content", PStr "content")] in
  exists txt,
    run = (Ret ["data"; "news_2025-04-20_2025-04-21.json"],
           log_file (["data"; "news_2025-04-20_2025-04-21.json"], txt)
             (with_exchanges
                [(FeaturePipeline.request_for Sample.creds Sample.from_date
                    Sample.to_date PNone, Sample.one_page 0)] w)) /\
    json_loads txt = Some (PList [object "a"; object "b"]).
Proof.
  cbv zeta.
  exists (array_lines
            [FeaturePipeline.mk_News (PStr "a") (PStr "summary") (PStr "content")
               (PStr "2025-04-20T10:00:00Z");
             FeaturePipeline.mk_News (PStr "b") (PStr "summary") (PStr "content")
               (PStr "2025-04-20T10:00:00Z")]).
  exact (single_page_is_saved_and_loads_back Sample.creds Sample.DATA_DIR 5
           Sample.from_date Sample.to_date (Sample.world Sample.one_page)
           (mk_Response 200 "OK" "" ""
              (Some (Sample.body [Sample.article "a"; Sample.article "b"] PNone)))
           (Sample.body [Sample.article "a"; Sample.article "b"] PNone)
           (PList [Sample.article "a"; Sample.article "b"])
           [Sample.article "a"; Sample.article "b"]
           [FeaturePipeline.mk_News (PStr "a") (PStr "summary") (PStr "content")
              (PStr "2025-04-20T10:00:00Z");
            FeaturePipeline.mk_News (PStr "b") (PStr "summary") (PStr "content")
              (PStr "2025-04-20T10:00:00Z")]
           eq_refl eq_refl eq_refl eq_refl eq_refl eq_refl eq_refl
           ltac:(repeat constructor) eq_refl).
Defined.

(** ** A target that cannot be opened *)

Lemma save_of_unwritable v l p w :
  writable w p = false ->
  exists e, save_of v l p w = (Raise e, w).
Proof.
  intros Hw. destruct v; cbn [save_of].
  - rewrite save_fp_eq. unfold dump_to_file. rewrite Hw. eauto.
  - destruct l as [|n l]; [|rewrite save_src_cons; eauto].
    rewrite save_src_nil. unfold dump_to_file. rewrite Hw. eauto.
Qed.

(** X10. The file is opened only when the pagination is over. If it
    cannot be opened for writing, a run of [download_historical_news] has
    sent every request of its pagination all the same, returns no path and
    leaves no file, whole or partial. This holds for both files. *)
Theorem unwritable_target_loses_the_run creds D iso v fuel f t w out w' :
  writable w (path_join D (Downloader.file_name f t)) = false ->
  download_of creds D iso v fuel f t w = (out, w') ->
  (forall p, out <> Ret p) /\
  files w' = files w /\
  exchanges w' = exchanges (snd (pagination_of creds iso v fuel f t w)).
Proof.
  intros Hw. rewrite download_of_cases.
  destruct (pagination_of _ _ _ _ _ _ _) as [[st|e|] w1] eqn:Hpag;
    apply pagination_of_world in Hpag as [xs ->]; cbn [snd].
  - destruct (is_None (snd st)); [|by intros [= <- <-]]. cbv zeta.
    destruct (save_of_unwritable v (fst st)
                (path_join D (Downloader.file_name f t)) (with_exchanges xs w) Hw)
      as [e ->].
    by intros [= <- <-].
  - by intros [= <- <-].
  - by intros [= <- <-].
Qed.

Lemma unwritable_target_loses_the_run_witness :
  let w := mk_World (scripted Sample.two_pages) (fun _ => false) [] [] in
  let run := download_of Sample.creds Sample.DATA_DIR Sample.parse_isoformat
               feature_pipeline 5 Sample.from_date Sample.to_date w in
  (forall p, fst run <> Ret p) /\
  files (snd run) = [] /\
  length (exchanges (snd run)) = 2%nat.
Proof.
  cbv zeta.
  destruct (unwritable_target_loses_the_run Sample.creds Sample.DATA_DIR
              Sample.parse_isoformat feature_pipeline 5 Sample.from_date Sample.to_date
              (mk_World (scripted Sample.two_pages) (fun _ => false) [] []) _ _
              eq_refl (surjective_pairing _))
    as (Hout & Hfiles & Hxs).
  split; [exact Hout|]. split; [exact Hfiles|]. rewrite Hxs. vm_compute. reflexivity.
Defined.

(** ** The script *)

Lemma paged_all_requests {News : Type} request_for
    (fetch_result : HttpResult -> result (list News * pyval))
    News_date srv f t hist st xs out :
  paged request_for fetch_result News_date srv f t hist st xs out ->
  Forall (fun x => exists tok, fst x = request_for f t tok) xs.
Proof.
  induction 1; repeat constructor; eauto.
Qed.

Lemma download_of_all_requests creds D iso v fuel f t w out w' :
  download_of creds D iso v fuel f t w = (out, w') ->
  exists xs,
    exchanges w' = exchanges w ++ xs /\ xs <> [] /\
    Forall (fun x => exists tok, fst x = request_of creds v f t tok) xs.
Proof.
  intros Hrun%download_of_run. cbv zeta in Hrun.
  set (x0 := ask w (request_of creds v f t PNone)) in *.
  assert (H0 : exists tok, fst x0 = request_of creds v f t tok) by (by exists PNone).
  destruct (fetch_result_of iso v (snd x0)) as [e0|st0].
  - destruct Hrun as [-> ->]. exists [x0]. split; [done|]. split; [done|].
    by repeat constructor.
  - destruct Hrun as (xs & out1 & Hxs & Hpaged & _).
    exists (x0 :: xs). split; [done|]. split; [done|].
    constructor; [done|]. by eapply paged_all_requests.
Qed.

Lemma download_of_Ret_path creds D iso v fuel f t w p w' :
  download_of creds D iso v fuel f t w = (Ret p, w') ->
  p = path_join D (Downloader.file_name f t) /\
  exists txt, files w' = files w ++ [(p, txt)].
Proof.
  rewrite download_of_cases.
  destruct (pagination_of _ _ _ _ _ _ _) as [[st|e|] w1] eqn:Hpag; [|done|done].
  apply pagination_of_world in Hpag as [xs ->].
  destruct (is_None (snd st)); [|done]. cbv zeta.
  destruct (save_of _ _ _ _) as [[u|e|] w2] eqn:Hsave; [|done|done].
  intros [= <- <-]. apply save_of_Ret in Hsave as [txt ->].
  split; [done|]. by exists txt.
Qed.

Lemma request_of_fields creds v f t tok :
  let req := request_of creds v f t tok in
  url req = "https://data.alpaca.markets/v1beta1/news" /\
  headers req = {[ key_header v := ALPACA_API_KEY creds;
                   secret_header v := ALPACA_SECRET_KEY creds ]} /\
  params req !! "start" = Some (PStr (strftime_iso_z f)) /\
  params req !! "end" = Some (PStr (strftime_iso_z t)).
Proof.
  destruct v; simpl; unfold FeaturePipeline.request_for, SrcCopy.request_for; simpl;
    (split; [done|]); (split; [done|]); destruct (is_None tok); simpl;
    split; by simplify_map_eq.
Qed.

(** X11. The script, with both variables in the environment: whatever the
    outcome, it has sent at least one request, and every request it has sent
    goes to the news endpoint with the two values of the environment in the
    headers [Apca-Api-Key-Id] and [Apca-Api-Secret-Key], asks for the news
    from [2025-04-20T00:00:00Z] to the moment the script was started, to the
    second. If it returns, it has written one file,
    [news_2025-04-20_<today>.json] in [DATA_DIR]. *)
Theorem script_downloads_since_2025_04_20 environ D now fuel w key secret out w' :
  environ !! "ALPACA_API_KEY" = Some key ->
  environ !! "ALPACA_SECRET_KEY" = Some secret ->
  valid_datetime now ->
  download_news_from_alpaca environ D now fuel w = (out, w') ->
  (exists xs,
     exchanges w' = exchanges w ++ xs /\ xs <> [] /\
     Forall (fun x =>
       url (fst x) = "https://data.alpaca.markets/v1beta1/news" /\
       headers (fst x) = {[ "Apca-Api-Key-Id" := key;
                            "Apca-Api-Secret-Key" := secret ]} /\
       params (fst x) !! "start" = Some (PStr "2025-04-20T00:00:00Z") /\
       params (fst x) !! "end" = Some (PStr (yyyy_mm_ddThh_mm_ssZ now))) xs) /\
  (forall p, out = Ret p ->
     p = path_join D ("news_2025-04-20_" +:+ yyyy_mm_dd now +:+ ".json") /\
     exists txt, files w' = files w ++ [(p, txt)]).
Proof.
  intros Hkey Hsecret Hnow.
  unfold download_news_from_alpaca, bind, import_alpaca_news_api, environ_get.
  rewrite Hkey, Hsecret. cbn [rbind ok lift ret].
  change (FeaturePipeline.download_historical_news ?c D)
    with (download_of c D (fun _ => None) feature_pipeline).
  intros Hrun. split.
  - destruct (download_of_all_requests _ _ _ _ _ _ _ _ _ _ Hrun) as (xs & Hxs & Hne & Hall).
    exists xs. split; [done|]. split; [done|].
    eapply Forall_impl; [exact Hall|]. intros x [tok ->].
    destruct (request_of_fields (mk_credentials key secret) feature_pipeline
                (mk_datetime 2025 4 20 0 0 0 0) now tok) as (Hu & Hh & Hs & He).
    cbv zeta in *. split; [done|]. split; [done|]. split; [done|].
    by rewrite He, strftime_iso_z_format.
  - intros p ->. apply download_of_Ret_path in Hrun as [-> Hfile].
    split; [|done]. unfold Downloader.file_name.
    by rewrite (strftime_date_format now).
Qed.

Lemma script_downloads_since_2025_04_20_witness :
  let environ : gmap string string :=
    {[ "ALPACA_API_KEY" := "key-id"; "ALPACA_SECRET_KEY" := "secret" ]} in
  let now := mk_datetime 2025 11 3 9 30 15 250000 in
  let run := download_news_from_alpaca environ Sample.DATA_DIR now 5
               (Sample.world Sample.two_pages) in
  fst run = Ret ["data"; "news_2025-04-20_2025-11-03.json"] /\
  (exists txt, files (snd run) = [(["data"; "news_2025-04-20_2025-11-03.json"], txt)]) /\
  map (fun x => params (fst x) !! "end") (exchanges (snd run))
  = [Some (PStr "2025-11-03T09:30:15Z"); Some (PStr "2025-11-03T09:30:15Z")].
Proof.
  cbv zeta.
  destruct (script_downloads_since_2025_04_20
              {[ "ALPACA_API_KEY" := "key-id"; "ALPACA_SECRET_KEY" := "secret" ]}
              Sample.DATA_DIR (mk_datetime 2025 11 3 9 30 15 250000) 5
              (Sample.world Sample.two_pages) "key-id" "secret" _ _
              ltac:(by simplify_map_eq) ltac:(by simplify_map_eq)
              ltac:(unfold valid_datetime; simpl; lia)
              (surjective_pairing _))
    as [_ Hret].
  destruct (Hret ["data"; "news_2025-04-20_2025-11-03.json"]
              ltac:(vm_compute; reflexivity)) as [_ Hfile].
  split; [vm_compute; reflexivity|]. split; [exact Hfile|]. vm_compute. reflexivity.
Defined.

(** ** The name of the file and the days of the run *)

Lemma digit_inj a b : 0 <= a < 10 -> 0 <= b < 10 -> digit a = digit b -> a = b.
Proof.
  intros Ha Hb H. unfold digit in H.
  apply (f_equal N_of_ascii) in H.
  rewrite !N_ascii_embedding in H by lia. lia.
Qed.

Lemma digits2_inj a b :
  0 <= a < 100 -> 0 <= b < 100 -> digits2 a = digits2 b -> a = b.
Proof.
  intros Ha Hb. unfold digits2. intros [= H1 H2].
  apply digit_inj in H1; [|Z.div_mod_to_equations; lia ..].
  apply digit_inj in H2; [|Z.div_mod_to_equations; lia ..].
  Z.div_mod_to_equations; lia.
Qed.

Lemma digits4_inj a b :
  0 <= a < 10000 -> 0 <= b < 10000 -> digits4 a = digits4 b -> a = b.
Proof.
  intros Ha Hb. unfold digits4, digits2. intros [= H1 H2 H3 H4].
  apply digit_inj in H1; [|Z.div_mod_to_equations; lia ..].
  apply digit_inj in H2; [|Z.div_mod_to_equations; lia ..].
  apply digit_inj in H3; [|Z.div_mod_to_equations; lia ..].
  apply digit_inj in H4; [|Z.div_mod_to_equations; lia ..].
  Z.div_mod_to_equations; lia.
Qed.

Lemma string_app_inv_head (a b c : string) : a +:+ b = a +:+ c -> b = c.
Proof.
  induction a as [|x a IH]; [done|]. rewrite !string_app_cons. intros [= H]. auto.
Qed.

Lemma yyyy_mm_dd_inj d d' rest rest' :
  valid_datetime d -> valid_datetime d' ->
  yyyy_mm_dd d +:+ rest = yyyy_mm_dd d' +:+ rest' ->
  (year d = year d' /\ month d = month d' /\ day d = day d') /\ rest = rest'.
Proof.
  intros (Hy & Hm & Hd & _) (Hy' & Hm' & Hd' & _).
  unfold yyyy_mm_dd, digits4, digits2. norm_text.
  intros [= H1 H2 H3 H4 H5 H6 H7 H8 Hrest].
  assert (Hyear : digits4 (year d) = digits4 (year d'))
    by (unfold digits4, digits2; congruence).
  assert (Hmonth : digits2 (month d) = digits2 (month d'))
    by (unfold digits2; congruence).
  assert (Hday : digits2 (day d) = digits2 (day d'))
    by (unfold digits2; congruence).
  apply digits4_inj in Hyear; [|lia|lia].
  apply digits2_inj in Hmonth; [|lia|lia].
  apply digits2_inj in Hday; [|lia|lia]. done.
Qed.

(** X12. The name of the file tells the two days of the run and nothing
    more: two runs get the same name exactly when their [from_date] fall on
    the same day and their [to_date] fall on the same day. So runs over
    different days never share a file, and a run repeated on the same days,
    at whatever time, writes over the file of the run before. *)
Theorem file_name_tells_the_days f t f' t' :
  valid_datetime f -> valid_datetime t ->
  valid_datetime f' -> valid_datetime t' ->
  Downloader.file_name f t = Downloader.file_name f' t' <->
  (year f = year f' /\ month f = month f' /\ day f = day f') /\
  (year t = year t' /\ month t = month t' /\ day t = day t').
Proof.
  intros Hf Ht Hf' Ht'. unfold Downloader.file_name.
  rewrite !strftime_date_format by done. split.
  - intros H. apply (string_app_inv_head "news_") in H.
    apply yyyy_mm_dd_inj in H as [Hfrom H]; [|done|done].
    apply (string_app_inv_head "_") in H.
    by apply yyyy_mm_dd_inj in H as [Hto _].
  - intros [(Hy & Hm & Hd) (Hy' & Hm' & Hd')]. unfold yyyy_mm_dd.
    by rewrite Hy, Hm, Hd, Hy', Hm', Hd'.
Qed.

Lemma file_name_tells_the_days_witness :
  Downloader.file_name (mk_datetime 2025 4 20 0 0 0 0) (mk_datetime 2025 11 3 9 30 15 0)
  = Downloader.file_name (mk_datetime 2025 4 20 8 0 0 0) (mk_datetime 2025 11 3 23 59 59 0)
  /\
  Downloader.file_name (mk_datetime 2025 4 20 0 0 0 0) (mk_datetime 2025 11 3 9 30 15 0)
  <> Downloader.file_name (mk_datetime 2025 4 20 0 0 0 0) (mk_datetime 2025 11 4 9 30 15 0).
Proof.
  split.
  - apply (file_name_tells_the_days
             (mk_datetime 2025 4 20 0 0 0 0) (mk_datetime 2025 11 3 9 30 15 0)
             (mk_datetime 2025 4 20 8 0 0 0) (mk_datetime 2025 11 3 23 59 59 0));
      first [ by (unfold valid_datetime; simpl; lia) | done ].
  - intros H.
    apply (file_name_tells_the_days
             (mk_datetime 2025 4 20 0 0 0 0) (mk_datetime 2025 11 3 9 30 15 0)
             (mk_datetime 2025 4 20 0 0 0 0) (mk_datetime 2025 11 4 9 30 15 0)) in H;
      [|unfold valid_datetime; simpl; lia ..].
    destruct H as [_ (_ & _ & Hday)]. discriminate Hday.
Defined.

(** ** From the pages to the file *)

Lemma pagination_of_pages creds iso v n f t w st w' :
  pagination_of creds iso v n f t w = (Ret st, w') ->
  exists xs pages,
    w' = with_exchanges xs w /\
    fetched (request_of creds v) (fetch_result_of iso v) f t PNone xs pages /\
    fst st = concat (map fst pages) /\
    snd st = last_token PNone pages.
Proof.
  intros H%pagination_of_cases. cbv zeta in H.
  destruct (fetch_result_of iso v _) as [e|st0] eqn:Hres; [by destruct H|].
  destruct H as (xs & -> & Hrun & _).
  destruct (paged_Ret _ _ _ _ _ _ _ _ _ _ Hrun st eq_refl)
    as (pages & [Hall Hchain] & Hacc & Htok).
  exists (ask w (request_of creds v f t PNone) :: xs), (st0 :: pages).
  split; [done|]. split; [split|].
  - by constructor.
  - simpl. by f_equal.
  - by split.
Qed.

(** X14. In the first file, for answers whose bodies are values of the
    model (no float, no character above U+00FF): a run of
    [download_historical_news] that returns has fetched a sequence of pages,
    one per exchange, the last of them without token, and the file it has
    written holds the records of all these pages, in the order of the pages
    and in the order of each page: one object per record, laid out as
    [array_lines] says. When the values of the records have distinct keys in
    their dicts, as every decoded JSON value has, [json.load] reads the file
    back as the list of these objects. *)
Theorem file_holds_the_pages_in_order creds D fuel f t w p w' :
  FeaturePipeline.download_historical_news creds D fuel f t w = (Ret p, w') ->
  exists xs pages,
    exchanges w' = exchanges w ++ xs /\
    fetched (FeaturePipeline.request_for creds) fetch_result_fp f t PNone xs pages /\
    last_token PNone pages = PNone /\
    files w' = files w ++ [(p, array_lines (concat (map fst pages)))] /\
    (forallb well_formed_fp (concat (map fst pages)) = true ->
     json_loads (array_lines (concat (map fst pages)))
     = Some (PList (map object_of_fp (concat (map fst pages))))).
Proof.
  change (FeaturePipeline.download_historical_news creds D)
    with (download_of creds D (fun _ => None) feature_pipeline).
  rewrite download_of_cases.
  destruct (pagination_of _ _ _ _ _ _ _) as [[st|e|] w1] eqn:Hpag; [|done|done].
  apply pagination_of_pages in Hpag as (xs & pages & -> & Hfetched & Hacc & Htok).
  destruct (is_None (snd st)) eqn:Hnone; [|done]. cbv zeta.
  destruct (save_of _ _ _ _) as [[u|e|] w2] eqn:Hsave; [|done|done].
  intros [= <- <-]. cbn [save_of News_of] in Hsave.
  rewrite save_fp_eq in Hsave.
  apply dump_to_file_Ret in Hsave as (_ & Hfin & ->).
  rewrite encode_snd, objects_serialisable in Hfin.
  exists xs, pages. cbn [fetch_result_of request_of News_of] in *.
  split; [done|]. split; [done|]. split; [|split].
  - rewrite <- Htok. by destruct (snd st).
  - cbn [files log_file with_exchanges]. rewrite (encode_array_lines _ Hfin).
    by rewrite Hacc.
  - intros Hwf. rewrite Hacc in Hfin.
    rewrite <- (encode_array_lines _ Hfin). apply json_loads_encode.
    + by rewrite encode_snd, objects_serialisable.
    + by rewrite objects_well_formed.
Qed.

Lemma file_holds_the_pages_in_order_witness :
  let run := FeaturePipeline.download_historical_news Sample.creds Sample.DATA_DIR 3
               Sample.from_date Sample.to_date (Sample.world Sample.two_pages) in
  let record h :=
    FeaturePipeline.mk_News (PStr h) (PStr "summary") (PStr "content")
      (PStr "2025-04-20T10:00:00Z") in
  fst run = Ret ["data"; "news_2025-04-20_2025-04-21.json"] /\
  files (snd run)
  = [(["data"; "news_2025-04-20_2025-04-21.json"],
      array_lines [record "a"; record "b"; record "c"])] /\
  exists xs pages,
    exchanges (snd run) = xs /\
    fetched (FeaturePipeline.request_for Sample.creds) fetch_result_fp
      Sample.from_date Sample.to_date PNone xs pages /\
    files (snd run)
    = [(["data"; "news_2025-04-20_2025-04-21.json"],
        array_lines (concat (map fst pages)))].
Proof.
  cbv zeta.
  destruct (file_holds_the_pages_in_order Sample.creds Sample.DATA_DIR 3
              Sample.from_date Sample.to_date (Sample.world Sample.two_pages)
              ["data"; "news_2025-04-20_2025-04-21.json"] _
              ltac:(apply injective_projections; [vm_compute; reflexivity | reflexivity]))
    as (xs & pages & Hxs & Hfetched & _ & Hfiles & _).
  split; [vm_compute; reflexivity|]. split; [vm_compute; reflexivity|].
  exists xs, pages. split; [exact Hxs|]. split; [exact Hfetched | exact Hfiles].
Defined.
